(** * Sales prediction chatbot: date normalisation, gating and dispatch

    A shallow embedding of [sales_chatbot.py] and [predict.py].

    Text is modelled by [string]: sequences of 8-bit characters.  ASCII text
    is modelled exactly; the few non-ASCII characters of message literals
    appear as their UTF-8 bytes.  The string primitives below ([lower],
    [strip], the digit class of the regular expressions) follow Python on
    ASCII input.

    The integer columns of the sales table are NumPy [int64] columns: the
    sums pandas takes of them wrap around.

    Python values that come out of [json.loads] are modelled by [pyval];
    exceptions by an error monad; the conversation history and a log of the
    operations that were invoked by explicit state passing.  The external
    collaborators (the chat completion service, [json.loads], the regression
    model, the file system, pandas' sorting kernel and date parser) are
    fields of the record [Env]. *)

From Stdlib Require Import ZArith QArith Qround Bool List String Ascii Lia.
From Stdlib Require Import DecimalString Permutation Sorted Lqa.
Import ListNotations.

Set Warnings "-register-all".

Open Scope string_scope.
Open Scope list_scope.
Open Scope Z_scope.

(* ------------------------------------------------------------------ *)
(** ** Python string primitives *)

Module PyStr.

Definition code (c : ascii) : Z := Z.of_nat (nat_of_ascii c).

Definition is_digit (c : ascii) : bool := (48 <=? code c) && (code c <=? 57).

Definition digit_value (c : ascii) : Z := code c - 48.

(** [str.isspace] on ASCII: tab, line feed, vertical tab, form feed,
    carriage return, the four separators 0x1c-0x1f, and the space. *)
Definition is_space (c : ascii) : bool :=
  ((9 <=? code c) && (code c <=? 13))
  || ((28 <=? code c) && (code c <=? 31))
  || (code c =? 32).

Definition lower_char (c : ascii) : ascii :=
  if (65 <=? code c) && (code c <=? 90)
  then ascii_of_nat (nat_of_ascii c + 32)
  else c.

(** [s.lower()] *)
Fixpoint lower (s : string) : string :=
  match s with
  | EmptyString => EmptyString
  | String c s' => String (lower_char c) (lower s')
  end.

Fixpoint lstrip (s : string) : string :=
  match s with
  | EmptyString => EmptyString
  | String c s' => if is_space c then lstrip s' else s
  end.

(** Right strip: a character is kept when it is not a space or when
    something is kept after it. *)
Fixpoint rstrip (s : string) : string :=
  match s with
  | EmptyString => EmptyString
  | String c s' =>
      match rstrip s' with
      | EmptyString => if is_space c then EmptyString else String c EmptyString
      | r => String c r
      end
  end.

(** [s.strip()] *)
Definition strip (s : string) : string := rstrip (lstrip s).

(** [needle in s] *)
Fixpoint contains (needle s : string) : bool :=
  prefix needle s
  || match s with
     | EmptyString => false
     | String _ s' => contains needle s'
     end.

(** [s.split(sep)] for a one-character separator: the result is never
    empty, and has one more part than [s] has separators. *)
Fixpoint split (sep : ascii) (s : string) : list string :=
  match s with
  | EmptyString => [EmptyString]
  | String c s' =>
      if Ascii.eqb c sep then EmptyString :: split sep s'
      else match split sep s' with
           | p :: ps => String c p :: ps
           | [] => [String c EmptyString]
           end
  end.

Fixpoint replicate0 (n : nat) : string :=
  match n with
  | O => EmptyString
  | S n' => String "0" (replicate0 n')
  end.

(** [s.zfill(width)]: zeros are inserted after a leading sign. *)
Definition zfill (width : nat) (s : string) : string :=
  let pad := replicate0 (width - String.length s) in
  match s with
  | String c s' =>
      if Ascii.eqb c "+" || Ascii.eqb c "-" then String c (pad ++ s')
      else (pad ++ s)%string
  | EmptyString => pad
  end.

(** [str(n)] for an [int]. *)
Definition str_int (n : Z) : string := NilZero.string_of_int (Z.to_int n).

(** [f"{n:02d}"]: decimal, zero-padded to width 2, the sign counting
    towards the width. *)
Definition format_02d (n : Z) : string := zfill 2 (str_int n).

(** [sep.join(parts)] *)
Definition join (sep : string) (parts : list string) : string :=
  String.concat sep parts.

End PyStr.

(* ------------------------------------------------------------------ *)
(** ** The calendar: [calendar.monthrange], [datetime.strptime] and
    [strftime] for the format [%Y-%m-%d] *)

Module Calendar.

(** [calendar.isleap] ([%] is the floored modulo, as [Z.modulo]). *)
Definition isleap (year : Z) : bool :=
  (year mod 4 =? 0) && (negb (year mod 100 =? 0) || (year mod 400 =? 0)).

(** [calendar.mdays] *)
Definition mdays (month : Z) : Z :=
  match month with
  | 1 => 31 | 2 => 28 | 3 => 31 | 4 => 30 | 5 => 31 | 6 => 30
  | 7 => 31 | 8 => 31 | 9 => 30 | 10 => 31 | 11 => 30 | 12 => 31
  | _ => 0
  end.

(** [calendar.monthrange(year, month)[1]] for [1 <= month <= 12]. *)
Definition days_in_month (year month : Z) : Z :=
  mdays month + (if (month =? 2) && isleap year then 1 else 0).

(** [datetime.date(year, month, day)] accepts exactly these triples. *)
Definition valid_date (year month day : Z) : bool :=
  (1 <=? year) && (year <=? 9999)
  && (1 <=? month) && (month <=? 12)
  && (1 <=? day) && (day <=? days_in_month year month).

Import PyStr.

(** The directive [%Y] is the pattern [\d\d\d\d]. *)
Definition match_Y (s : string) : option (Z * string) :=
  match s with
  | String a (String b (String c (String d rest))) =>
      if is_digit a && is_digit b && is_digit c && is_digit d
      then Some (1000 * digit_value a + 100 * digit_value b
                 + 10 * digit_value c + digit_value d, rest)
      else None
  | _ => None
  end.

Definition in_range (lo hi : Z) (c : ascii) : bool :=
  (lo <=? code c) && (code c <=? hi).

(** The directive [%m] is the pattern [1[0-2]|0[1-9]|[1-9]]: the matches
    at the head of [s], in the order the alternatives are tried. *)
Definition match_m (s : string) : list (Z * string) :=
  match s with
  | String a rest1 =>
      (match rest1 with
       | String b rest2 =>
           (if Ascii.eqb a "1" && in_range 48 50 b
            then [(10 + digit_value b, rest2)] else [])
           ++ (if Ascii.eqb a "0" && in_range 49 57 b
               then [(digit_value b, rest2)] else [])
       | EmptyString => []
       end)
      ++ (if in_range 49 57 a then [(digit_value a, rest1)] else [])
  | EmptyString => []
  end.

(** The directive [%d] is the pattern
    [3[0-1]|[1-2]\d|0[1-9]|[1-9]| [1-9]]. *)
Definition match_d (s : string) : list (Z * string) :=
  match s with
  | String a rest1 =>
      (match rest1 with
       | String b rest2 =>
           (if Ascii.eqb a "3" && in_range 48 49 b
            then [(30 + digit_value b, rest2)] else [])
           ++ (if in_range 49 50 a && is_digit b
               then [(10 * digit_value a + digit_value b, rest2)] else [])
           ++ (if Ascii.eqb a "0" && in_range 49 57 b
               then [(digit_value b, rest2)] else [])
       | EmptyString => []
       end)
      ++ (if in_range 49 57 a then [(digit_value a, rest1)] else [])
      ++ (match rest1 with
          | String b rest2 =>
              if Ascii.eqb a " " && in_range 49 57 b
              then [(digit_value b, rest2)] else []
          | EmptyString => []
          end)
  | EmptyString => []
  end.

Definition expect_dash (s : string) : option string :=
  match s with
  | String c rest => if Ascii.eqb c "-" then Some rest else None
  | EmptyString => None
  end.

(** After a month candidate: the dash and the first day alternative that
    matches (nothing follows the day in the pattern). *)
Definition after_month (cand : Z * string) : option (Z * Z * string) :=
  match expect_dash (snd cand) with
  | Some s2 =>
      match match_d s2 with
      | (d, rest) :: _ => Some (fst cand, d, rest)
      | [] => None
      end
  | None => None
  end.

Fixpoint first_some {A B : Type} (f : A -> option B) (l : list A) : option B :=
  match l with
  | [] => None
  | x :: l' => match f x with Some y => Some y | None => first_some f l' end
  end.

(** [re.match] of the compiled format: the first match in the order of
    the regular expression, with what is left of the input. *)
Definition match_ymd (s : string) : option (Z * Z * Z * string) :=
  match match_Y s with
  | Some (y, s1) =>
      match expect_dash s1 with
      | Some s2 =>
          match first_some after_month (match_m s2) with
          | Some (m, d, rest) => Some (y, m, d, rest)
          | None => None
          end
      | None => None
      end
  | None => None
  end.

(** [datetime.strptime(s, '%Y-%m-%d')]: [None] stands for [ValueError]
    (no match, unconverted data remaining, or a day that is out of range
    for the month). *)
Definition strptime_ymd (s : string) : option (Z * Z * Z) :=
  match match_ymd s with
  | Some (y, m, d, EmptyString) =>
      if valid_date y m d then Some (y, m, d) else None
  | _ => None
  end.

Definition digit_char (n : Z) : ascii := ascii_of_nat (Z.to_nat (48 + n)).

Definition pad2 (n : Z) : string :=
  String (digit_char (n / 10 mod 10)) (String (digit_char (n mod 10)) "").

Definition pad4 (n : Z) : string :=
  String (digit_char (n / 1000 mod 10))
    (String (digit_char (n / 100 mod 10)) (pad2 n)).

(** [d.strftime('%Y-%m-%d')] of a valid date: the year with century on
    four digits, month and day zero-padded on two.  For years from 1000 on
    every platform prints this.  For earlier years [%Y] is left to the C
    library, and some libraries do not pad it; the statements below that go
    through [strftime] are for years from 1000 on. *)
Definition strftime_ymd (y m d : Z) : string :=
  (pad4 y ++ "-" ++ pad2 m ++ "-" ++ pad2 d)%string.

End Calendar.

(* ------------------------------------------------------------------ *)
(** ** The date normaliser: [SalesPredictionChatbot._parse_date_input] *)

Module DateNormalizer.

Import PyStr Calendar.

(** [range(lo, hi)] *)
Definition range (lo hi : Z) : list Z :=
  map (fun k => lo + Z.of_nat k) (seq 0 (Z.to_nat (hi - lo))).

(** [any(word in date_str for word in ['whole', 'entire', 'all of'])] *)
Definition has_whole_word (date_str : string) : bool :=
  existsb (fun word => contains word date_str) ["whole"; "entire"; "all of"].

(** [[f"{year}-05-{day:02d}" for day in range(1, 32)]] *)
Definition may_dates (year : Z) : list string :=
  map (fun day => (str_int year ++ "-05-" ++ format_02d day)%string)
    (range 1 32).

Definition resolve_year (now_year : Z) (date_str : string) : Z :=
  if contains "2024" date_str then 2024 else now_year.

Fixpoint take_digits (max : nat) (s : string) : nat * string :=
  match max, s with
  | S k, String c s' =>
      if is_digit c then let (n, r) := take_digits k s' in (S n, r)
      else (O, s)
  | _, _ => (O, s)
  end.

(** One [\d{1,2}-] of the pattern: one or two digits, then the dash.  The
    dash is not a digit, so the greedy choice is the only one that can
    succeed. *)
Definition match_d12_dash (s : string) : option string :=
  match take_digits 2 s with
  | (O, _) => None
  | (_, r) => expect_dash r
  end.

Definition match_d4 (s : string) : bool :=
  match take_digits 4 s with
  | (4%nat, _) => true
  | _ => false
  end.

(** [re.match(r'\d{1,2}-\d{1,2}-\d{4}', s)]: anchored at the start only. *)
Definition match_dmy (s : string) : bool :=
  match match_d12_dash s with
  | Some s1 =>
      match match_d12_dash s1 with
      | Some s2 => match_d4 s2
      | None => false
      end
  | None => false
  end.

(** [_parse_date_input]; [now_year] is [datetime.now().year]. *)
Definition _parse_date_input (now_year : Z) (date_str : string) : list string :=
  if String.eqb date_str "" then []
  else
    let date_str := strip (lower date_str) in
    if has_whole_word date_str && contains "may" date_str then
      may_dates (resolve_year now_year date_str)
    else if contains "may" date_str then
      may_dates (resolve_year now_year date_str)
    else
      let dmy :=
        if match_dmy date_str then
          match split "-" date_str with
          | [day; month; year] =>
              Some [(year ++ "-" ++ zfill 2 month ++ "-" ++ zfill 2 day)%string]
          | _ => None
          end
        else None in
      match dmy with
      | Some r => r
      | None =>
          match strptime_ymd date_str with
          | Some (y, m, d) => [strftime_ymd y m d]
          | None => []
          end
      end.

End DateNormalizer.

(* ------------------------------------------------------------------ *)
(** ** Python values, exceptions and formatted text *)

Module Py.

(** A Python [float]: a finite double is an exact rational, and the
    comparisons used by the program are exact on it. *)
Inductive pyfloat :=
| FFinite (q : Q)
| FInf (negative : bool)
| FNaN.

(** What [json.loads] can return. A [dict] is an association list, looked
    up from the front. *)
Inductive pyval :=
| PNone
| PBool (b : bool)
| PInt (n : Z)
| PFloat (x : pyfloat)
| PStr (s : string)
| PList (l : list pyval)
| PDict (d : list (string * pyval)).

Inductive exn :=
| TypeError
| ValueError
| AttributeError
| IllegalMonthError
| OverflowError
| JSONDecodeError
| Failure (msg : string).

(** The result of a computation that may raise. *)
Inductive res (A : Type) :=
| Ok (a : A)
| Raise (e : exn).

Arguments Ok {A} a.
Arguments Raise {A} e.

(** The pieces of an f-string.  [Val v] stands for [str(v)], [ExnText e]
    for the text of an exception, [Fixed1 x] for [f"{x:.1f}"]; they are kept
    symbolic. *)
Inductive fragment :=
| Lit (s : string)
| Val (v : pyval)
| ExnText (e : exn)
| Fixed1 (x : pyfloat).

Definition text := list fragment.

(** [bool(v)] *)
Definition truthy (v : pyval) : bool :=
  match v with
  | PNone => false
  | PBool b => b
  | PInt n => negb (n =? 0)
  | PFloat (FFinite q) => negb (Qeq_bool q 0)
  | PFloat _ => true
  | PStr s => negb (String.eqb s "")
  | PList l => match l with [] => false | _ => true end
  | PDict d => match d with [] => false | _ => true end
  end.

Fixpoint lookup (key : string) (d : list (string * pyval)) : option pyval :=
  match d with
  | [] => None
  | (k, v) :: d' => if String.eqb k key then Some v else lookup key d'
  end.

(** [obj.get(key, default)]; only a [dict] has the method. *)
Definition get (obj : pyval) (key : string) (default : pyval) : res pyval :=
  match obj with
  | PDict d =>
      match lookup key d with
      | Some v => Ok v
      | None => Ok default
      end
  | _ => Raise AttributeError
  end.

(** The numeric value of a [bool], [int] or [float]. *)
Definition number (v : pyval) : option pyfloat :=
  match v with
  | PBool b => Some (FFinite (if b then 1 else 0)%Q)
  | PInt n => Some (FFinite (inject_Z n))
  | PFloat x => Some x
  | _ => None
  end.

Definition Qltb (a b : Q) : bool := negb (Qle_bool b a).

Definition float_lt (a b : pyfloat) : bool :=
  match a, b with
  | FNaN, _ | _, FNaN => false
  | FInf na, FInf nb => na && negb nb
  | FInf na, FFinite _ => na
  | FFinite _, FInf nb => negb nb
  | FFinite x, FFinite y => Qltb x y
  end.

(** [a <= b] *)
Definition float_le (a b : pyfloat) : bool :=
  match a, b with
  | FNaN, _ | _, FNaN => false
  | _, _ => negb (float_lt b a)
  end.

(** [v < x] for a float [x]: [TypeError] unless [v] is a number. *)
Definition lt_float (v : pyval) (x : pyfloat) : res bool :=
  match number v with
  | Some a => Ok (float_lt a x)
  | None => Raise TypeError
  end.

(** [v == n] for an [int] [n]; never raises. *)
Definition eq_int (v : pyval) (n : Z) : bool :=
  match number v with
  | Some (FFinite q) => Qeq_bool q (inject_Z n)
  | _ => false
  end.

(** [v == s] for a [str] [s]. *)
Definition eq_str (v : pyval) (s : string) : bool :=
  match v with
  | PStr t => String.eqb t s
  | _ => false
  end.

(** [v in items] for a list of [int]. *)
Definition in_ints (v : pyval) (items : list Z) : bool :=
  existsb (eq_int v) items.

(** The [int] behind a value that an integer argument accepts ([bool] is a
    subclass of [int]). *)
Definition as_int (v : pyval) : option Z :=
  match v with
  | PBool b => Some (if b then 1 else 0)
  | PInt n => Some n
  | _ => None
  end.

Definition newline : string := String (ascii_of_nat 10) EmptyString.

End Py.

(* ------------------------------------------------------------------ *)
(** ** The sales table and the external collaborators *)

Module Frame.

Import Py.

(** A pandas [Timestamp]: a calendar date and the time of day. *)
Record timestamp := {
  ts_year : Z;
  ts_month : Z;
  ts_day : Z;
  ts_time : Z
}.

Definition timestamp_eqb (a b : timestamp) : bool :=
  (ts_year a =? ts_year b) && (ts_month a =? ts_month b)
  && (ts_day a =? ts_day b) && (ts_time a =? ts_time b).

(** A row of [sales_data_with_mapped_ids_v3.csv]. *)
Record row := {
  ITEMID_Mapped : Z;
  ORDERDATE : timestamp;
  TOTAL_ITEMSOLD : Z;
  DAY : Z;
  MONTH : Z;
  YEAR : Z;
  DAY_NUM : Z;
  IS_WEEKEND : Z;
  FESTIVAL_ENC : Z;
  ROLLING_3DAY_AVG : Q
}.

Definition dataframe := list row.

(** [df[mask]] *)
Fixpoint select (mask : list bool) (df : dataframe) : dataframe :=
  match mask, df with
  | b :: mask', r :: df' => if b then r :: select mask' df' else select mask' df'
  | _, _ => []
  end.

(** The value of an integer as a NumPy [int64], the type of the integer
    columns of the table: the integers from -2^63 to 2^63 - 1, on which
    arithmetic wraps around without an error. *)
Definition int64 (z : Z) : Z := (z + 2 ^ 63) mod 2 ^ 64 - 2 ^ 63.

Arguments int64 : simpl never.

(** One more sale of [qty] for [item] in the per-item totals, which are
    kept in ascending order of item id.  Each total is accumulated from 0 in
    [int64]. *)
Fixpoint add_sale (item qty : Z) (totals : list (Z * Z)) : list (Z * Z) :=
  match totals with
  | [] => [(item, int64 (0 + qty))]
  | (i, q) :: totals' =>
      if item <? i then (item, int64 (0 + qty)) :: totals
      else if item =? i then (i, int64 (q + qty)) :: totals'
      else (i, q) :: add_sale item qty totals'
  end.

(** [df.groupby('ITEMID_Mapped')['TOTAL_ITEMSOLD'].sum()]: a series indexed
    by item id, in ascending order of the index, of [int64] sums. *)
Definition groupby_sum (df : dataframe) : list (Z * Z) :=
  fold_left (fun totals r => add_sale (ITEMID_Mapped r) (TOTAL_ITEMSOLD r) totals)
    df [].

End Frame.

Module World.

Import Py Frame.

(** The outcome of [client.chat.completions.create(...)] followed by
    [response.choices[0].message.content]. *)
Inductive completion :=
| CallFails (e : exn)
| NoContent
| Content (c : string).

(** The outcome of the file checks and loads at the head of
    [predict_sales]. *)
Inductive load_outcome :=
| MissingFile (path : string)
| LoadFails (e : exn)
| Loaded (df : dataframe).

(** The collaborators of one call.
    - [now_year] is [datetime.now().year].
    - [chat_extract] and [chat_render] are the two chat completions; the
      prompts they receive are functions of the arguments given here.
    - [json_loads] is [json.loads].
    - [load_files] and [model_predict] are the files and the regression
      model of [predict.py].
    - [sort_values_desc] is [Series.sort_values(ascending=False)] on a
      series of (item id, total) with the default [kind='quicksort'], which
      is not a stable sort.
    - [compare_object] is pandas' [==] between an integer column and a
      list or dict.
    - [to_datetime] is [pd.to_datetime]. *)
Record Env := {
  now_year : Z;
  chat_extract : string -> completion;
  json_loads : string -> res pyval;
  chat_render : string -> pyval -> text -> completion;
  load_files : load_outcome;
  model_predict : list Q -> res pyfloat;
  sort_values_desc : list (Z * Z) -> list (Z * Z);
  compare_object : list Z -> pyval -> res (list bool);
  to_datetime : pyval -> res timestamp
}.

(** What pandas documents of [sort_values(ascending=False)]: the result
    rearranges the series and its values do not increase.  Nothing is said
    of the order among equal values. *)
Definition sorts_descending (sort : list (Z * Z) -> list (Z * Z)) : Prop :=
  forall s,
    Permutation s (sort s)
    /\ StronglySorted (fun a b => snd b <= snd a) (sort s).

End World.

(* ------------------------------------------------------------------ *)
(** ** Effects: exceptions, the conversation history, and the log of
    invoked operations *)

Module Effects.

Import Py.

Record turn := {
  query : string;
  parameters : pyval;
  result : text;
  response : text
}.

(** The operations whose invocation is observed. *)
Inductive event :=
| FindMostSold (period month year : pyval)
| SalesSummary (item_id : pyval) (dates : option (list pyval))
| PredictSales (item_id : pyval) (date : string)
| ModelPredict (features : list Q).

Record state := {
  conversation_history : list turn;
  invoked : list event
}.

Definition M (A : Type) : Type := state -> res A * state.

Definition ret {A} (a : A) : M A := fun s => (Ok a, s).

Definition raise {A} (e : exn) : M A := fun s => (Raise e, s).

Definition bind {A B} (m : M A) (k : A -> M B) : M B :=
  fun s =>
    match m s with
    | (Ok a, s') => k a s'
    | (Raise e, s') => (Raise e, s')
    end.

(** [try: body except Exception as e: handler(e)] *)
Definition try_except {A} (body : M A) (handler : exn -> M A) : M A :=
  fun s =>
    match body s with
    | (Ok a, s') => (Ok a, s')
    | (Raise e, s') => handler e s'
    end.

Definition lift {A} (r : res A) : M A := fun s => (r, s).

Definition log (ev : event) : M unit :=
  fun s =>
    (Ok tt, {| conversation_history := conversation_history s;
               invoked := invoked s ++ [ev] |}).

(** [self.conversation_history.append(t)] *)
Definition append_turn (t : turn) : M unit :=
  fun s =>
    (Ok tt, {| conversation_history := conversation_history s ++ [t];
               invoked := invoked s |}).

(** The same for computations without state. *)
Definition rbind {A B} (r : res A) (k : A -> res B) : res B :=
  match r with
  | Ok a => k a
  | Raise e => Raise e
  end.

Fixpoint rmap {A B} (f : A -> res B) (l : list A) : res (list B) :=
  match l with
  | [] => Ok []
  | x :: l' =>
      rbind (f x) (fun y => rbind (rmap f l') (fun ys => Ok (y :: ys)))
  end.

End Effects.

Declare Scope monad_scope.
Delimit Scope monad_scope with monad.
Notation "x <- m ;; k" := (Effects.bind m (fun x => k))
  (at level 61, m at next level, right associativity) : monad_scope.
Notation "m ;;; k" := (Effects.bind m (fun _ => k))
  (at level 61, right associativity) : monad_scope.
Notation "x <-- r ;; k" := (Effects.rbind r (fun x => k))
  (at level 61, r at next level, right associativity) : monad_scope.

Open Scope monad_scope.

(* ------------------------------------------------------------------ *)
(** ** The analytics operations of [SalesPredictionChatbot] *)

Module Analytics.

Import PyStr Py Frame World Effects.

(** [column == v], element by element. *)
Definition series_eq (E : Env) (column : list Z) (v : pyval) : res (list bool) :=
  match v with
  | PList _ | PDict _ => compare_object E column v
  | _ => Ok (map (eq_int v) column)
  end.

(** [df[df[column] == v] if v else df] *)
Definition filter_if (E : Env) (column : row -> Z) (v : pyval) (df : dataframe)
  : res dataframe :=
  if truthy v then
    mask <-- series_eq E (map column df) v ;;
    Ok (select mask df)
  else Ok df.

(** The rows [find_most_sold_item] keeps. *)
Definition period_rows (E : Env) (df : dataframe) (month year : pyval)
  : res dataframe :=
  df1 <-- filter_if E (fun r => ts_month (ORDERDATE r)) month df ;;
  filter_if E (fun r => ts_year (ORDERDATE r)) year df1.

(** [sales_by_item]: the per-item totals, ranked. *)
Definition sales_by_item (E : Env) (df_filtered : dataframe) : list (Z * Z) :=
  sort_values_desc E (groupby_sum df_filtered).

(** [sales_by_item.head(5)] *)
Definition top_5_items (E : Env) (df_filtered : dataframe) : list (Z * Z) :=
  firstn 5 (sales_by_item E df_filtered).

(** The lines of the loop over [enumerate(top_5_items.items(), 1)]. *)
Fixpoint top_lines (i : Z) (items : list (Z * Z)) : text :=
  match items with
  | [] => []
  | (item_id, sales) :: items' =>
      [Lit (str_int i ++ ". Item " ++ str_int item_id ++ ": "
            ++ str_int sales ++ " units" ++ newline)]
      ++ top_lines (i + 1) items'
  end.

Definition most_sold_body (E : Env) (df : dataframe) (month year : pyval)
  : res text :=
  df_filtered <-- period_rows E df month year ;;
  match df_filtered with
  | [] => Ok [Lit "No data found for the specified period."]
  | _ =>
      match sales_by_item E df_filtered with
      | [] => Ok [Lit "No sales data found for the specified period."]
      | (top_item, total_sales) :: _ =>
          let period_desc :=
            if eq_int month 5 && truthy year then [Lit "May "; Val year]
            else [Lit "the specified period"] in
          Ok ([Lit "**Most Sold Item in "] ++ period_desc
              ++ [Lit (":**" ++ newline);
                  Lit ("🏆 **Item ID " ++ str_int top_item ++ "** with **"
                       ++ str_int total_sales ++ " total units sold**"
                       ++ newline ++ newline);
                  Lit ("**Top 5 Items:**" ++ newline)]
              ++ top_lines 1 (top_5_items E df_filtered))
      end
  end.

(** [find_most_sold_item(period, month, year)]; [df] is [self.df]. *)
Definition find_most_sold_item (E : Env) (df : option dataframe)
    (period month year : pyval) : text :=
  match df with
  | None => [Lit "Data not available for analysis."]
  | Some df =>
      match most_sold_body E df month year with
      | Ok t => t
      | Raise e => [Lit "Error analyzing sales data: "; ExnText e]
      end
  end.

(** [dates] as a condition: neither [None] nor empty. *)
Definition given_dates (dates : option (list pyval)) : list pyval :=
  match dates with
  | Some ds => ds
  | None => []
  end.

(** The rows [get_sales_summary] keeps. *)
Definition summary_rows (E : Env) (df : dataframe) (item_id : pyval)
    (dates : option (list pyval)) : res dataframe :=
  df1 <-- filter_if E ITEMID_Mapped item_id df ;;
  match given_dates dates with
  | [] => Ok df1
  | ds =>
      date_objects <-- rmap (to_datetime E) ds ;;
      Ok (filter (fun r => existsb (timestamp_eqb (ORDERDATE r)) date_objects) df1)
  end.

(** [Series.sum()] of an [int64] column: the sum wraps around. *)
Definition sum (l : list Z) : Z := fold_left (fun a x => int64 (a + x)) l 0.

(** [Series.mean()]: not a number on an empty series.  pandas adds the
    values up as floats, so this sum does not wrap. *)
Definition mean (l : list Z) : pyfloat :=
  match l with
  | [] => FNaN
  | _ =>
      FFinite (inject_Z (fold_left Z.add l 0)
               / inject_Z (Z.of_nat (List.length l)))
  end.

Definition maximum (l : list Z) : Z :=
  match l with
  | [] => 0
  | x :: l' => fold_left Z.max l' x
  end.

Definition minimum (l : list Z) : Z :=
  match l with
  | [] => 0
  | x :: l' => fold_left Z.min l' x
  end.

(** [', '.join(dates)]: every element has to be a [str]. *)
Fixpoint strings_of (l : list pyval) : res (list string) :=
  match l with
  | [] => Ok []
  | PStr s :: l' => ss <-- strings_of l' ;; Ok (s :: ss)
  | _ :: _ => Raise TypeError
  end.

Definition dates_line (dates : option (list pyval)) : res text :=
  match given_dates dates with
  | [] => Ok []
  | ds =>
      if (List.length ds <=? 5)%nat then
        ss <-- strings_of ds ;;
        Ok [Lit ("Dates: " ++ join ", " ss ++ newline)]
      else
        Ok [Lit ("Date Range: " ++ str_int (Z.of_nat (List.length ds))
                 ++ " days" ++ newline)]
  end.

Definition summary_body (E : Env) (df : dataframe) (item_id : pyval)
    (dates : option (list pyval)) : res text :=
  df_filtered <-- summary_rows E df item_id dates ;;
  match df_filtered with
  | [] => Ok [Lit "No data found for the specified criteria."]
  | _ =>
      let sold := map TOTAL_ITEMSOLD df_filtered in
      let total_sales := sum sold in
      let avg_sales := mean sold in
      let max_sales := maximum sold in
      let min_sales := minimum sold in
      line <-- dates_line dates ;;
      Ok ([Lit ("**Sales Summary:**" ++ newline)]
          ++ (if truthy item_id
              then [Lit "Item ID: "; Val item_id; Lit newline] else [])
          ++ line
          ++ [Lit (newline ++ "📊 **Statistics:**" ++ newline);
              Lit ("• Total Sales: " ++ str_int total_sales ++ " units" ++ newline);
              Lit "• Average Daily Sales: "; Fixed1 avg_sales;
              Lit (" units" ++ newline);
              Lit ("• Maximum Daily Sales: " ++ str_int max_sales ++ " units"
                   ++ newline);
              Lit ("• Minimum Daily Sales: " ++ str_int min_sales ++ " units"
                   ++ newline)])
  end.

(** [get_sales_summary(item_id, dates)]; [df] is [self.df]. *)
Definition get_sales_summary (E : Env) (df : option dataframe)
    (item_id : pyval) (dates : option (list pyval)) : text :=
  match df with
  | None => [Lit "Data not available for analysis."]
  | Some df =>
      match summary_body E df item_id dates with
      | Ok t => t
      | Raise e => [Lit "Error analyzing sales data: "; ExnText e]
      end
  end.

End Analytics.

(* ------------------------------------------------------------------ *)
(** ** [predict.py] *)

Module Predict.

Import PyStr Calendar Py Frame World Effects Analytics.

(** [round(x)] of a float: to the nearest integer, halves to the even
    one. *)
Definition round_half_even (q : Q) : Z :=
  let f := Qfloor q in
  let r := (q - inject_Z f)%Q in
  if Qltb r (1 # 2) then f
  else if Qltb (1 # 2) r then f + 1
  else if Z.even f then f else f + 1.

(** [int(round(x))] *)
Definition int_round (x : pyfloat) : res Z :=
  match x with
  | FFinite q => Ok (round_half_even q)
  | FInf _ => Raise OverflowError
  | FNaN => Raise ValueError
  end.

(** [df['ORDERDATE'] == input_date], on the dates of the timestamps. *)
Definition on_date (y m d : Z) (r : row) : bool :=
  (ts_year (ORDERDATE r) =? y) && (ts_month (ORDERDATE r) =? m)
  && (ts_day (ORDERDATE r) =? d).

(** [target_row] *)
Definition target_rows (E : Env) (df : dataframe) (mapped_item_id : pyval)
    (y m d : Z) : res dataframe :=
  mask <-- series_eq E (map ITEMID_Mapped df) mapped_item_id ;;
  Ok (filter (on_date y m d) (select mask df)).

Definition features_for_prediction (r : row) : list Q :=
  [inject_Z (ITEMID_Mapped r); inject_Z (DAY r); inject_Z (MONTH r);
   inject_Z (YEAR r); inject_Z (DAY_NUM r); inject_Z (IS_WEEKEND r);
   inject_Z (FESTIVAL_ENC r); ROLLING_3DAY_AVG r].

(** [predict_sales(mapped_item_id, date_str)] *)
Definition predict_sales (E : Env) (mapped_item_id : pyval) (date_str : string)
  : M text :=
  match load_files E with
  | MissingFile f =>
      ret [Lit ("Error: Required file not found - '" ++ f
                ++ "'. Make sure it's in the same directory as the script.")]
  | LoadFails e =>
      ret [Lit "An error occurred during file loading: "; ExnText e]
  | Loaded df =>
      match strptime_ymd date_str with
      | None => ret [Lit "Error: Invalid date format. Please use 'YYYY-MM-DD'."]
      | Some (y, m, d) =>
          target_row <- lift (target_rows E df mapped_item_id y m d) ;;
          match target_row with
          | [] =>
              ret [Lit "No historical data found for Mapped ITEMID ";
                   Val mapped_item_id; Lit (" on " ++ date_str ++ ".")]
          | r :: _ =>
              let actual_value := TOTAL_ITEMSOLD r in
              log (ModelPredict (features_for_prediction r)) ;;;
              predicted_value_float <-
                lift (model_predict E (features_for_prediction r)) ;;
              predicted_value <- lift (int_round predicted_value_float) ;;
              ret [Lit ("Actual: " ++ str_int actual_value ++ ", Predicted: "
                        ++ str_int predicted_value)]
          end
      end
  end.

End Predict.

(* ------------------------------------------------------------------ *)
(** ** The extractor: [extract_parameters] and [generate_response] *)

Module Extractor.

Import PyStr Py World Effects.

(** The suffix of [s] that starts at its first opening brace. *)
Fixpoint from_first_brace (s : string) : option string :=
  match s with
  | EmptyString => None
  | String c s' => if Ascii.eqb c "{" then Some s else from_first_brace s'
  end.

(** The prefix of [s] that ends at its last closing brace. *)
Fixpoint upto_last_brace (s : string) : option string :=
  match s with
  | EmptyString => None
  | String c s' =>
      match upto_last_brace s' with
      | Some r => Some (String c r)
      | None => if Ascii.eqb c "}" then Some (String c EmptyString) else None
      end
  end.

(** [re.search(r'\{.*\}', content, re.DOTALL)]: from the first opening
    brace to the last closing brace after it. *)
Definition search_braces (content : string) : option string :=
  match from_first_brace content with
  | Some s => upto_last_brace s
  | None => None
  end.

(** The body of the [try] of [extract_parameters]. *)
Definition extract_body (E : Env) (user_query : string) : res pyval :=
  match chat_extract E user_query with
  | CallFails e => Raise e
  | NoContent => Raise AttributeError
  | Content c =>
      let content := strip c in
      match json_loads E content with
      | Ok parameters => Ok parameters
      | Raise JSONDecodeError =>
          match search_braces content with
          | Some json_match => json_loads E json_match
          | None => Raise ValueError
          end
      | Raise e => Raise e
      end
  end.

(** The record returned by the [except] clause. *)
Definition fallback_parameters : pyval :=
  PDict [("query_type", PStr "prediction");
         ("item_id", PNone);
         ("date", PNone);
         ("confidence", PFloat (FFinite 0));
         ("missing_info", PList [PStr "item_id"; PStr "date"]);
         ("clarification_needed",
          PStr "I couldn't understand your request. Please specify the item ID and date for sales prediction.")].

(** [try: body except Exception: handler], without state. *)
Definition rcatch {A} (body : res A) (handler : exn -> res A) : res A :=
  match body with
  | Ok a => Ok a
  | Raise e => handler e
  end.

(** [extract_parameters(user_query)] *)
Definition extract_parameters (E : Env) (user_query : string) : res pyval :=
  rcatch (extract_body E user_query) (fun _ => Ok fallback_parameters).

(** [generate_response(prediction_result, user_query, parameters)] *)
Definition generate_response (E : Env) (prediction_result : text)
    (user_query : string) (parameters : pyval) : res text :=
  _ <-- get parameters "item_id" PNone ;;
  _ <-- get parameters "date" PNone ;;
  rcatch
    match chat_render E user_query parameters prediction_result with
    | CallFails e => Raise e
    | NoContent => Raise AttributeError
    | Content c => Ok [Lit (strip c)]
    end
    (fun _ => Ok (Lit "Here are your prediction results: " :: prediction_result)).

End Extractor.

(* ------------------------------------------------------------------ *)
(** ** The dispatcher: [handle_query] *)

Module Dispatcher.

Import PyStr Calendar DateNormalizer Py Frame World Effects Analytics.
Import Predict Extractor.

(** The fields of [self] that dispatch reads; the conversation history is
    part of the [state]. *)
Record chatbot := {
  df : option dataframe;
  available_items : list Z
}.

Inductive reply :=
| Value (v : pyval)
| Text (t : text).

(** [calendar.monthrange(year, month)[1]]: the month is checked against
    1..12 first, then both arguments have to be integers. *)
Definition monthrange_days (year month : pyval) : res Z :=
  match number month with
  | None => Raise TypeError
  | Some x =>
      if float_le (FFinite 1) x && float_le x (FFinite 12) then
        match as_int year, as_int month with
        | Some y, Some m => Ok (days_in_month y m)
        | _, _ => Raise TypeError
        end
      else Raise IllegalMonthError
  end.

(** [f"{year}"] for a [bool] or [int]. *)
Definition str_year (year : pyval) : string :=
  match year with
  | PBool b => if b then "True" else "False"
  | PInt n => str_int n
  | _ => ""
  end.

(** [days_in_month = calendar.monthrange(year, month)[1]] and
    [[f"{year}-{month:02d}-{day:02d}" for day in range(1, days_in_month + 1)]] *)
Definition month_dates (year month : pyval) : res (list pyval) :=
  days <-- monthrange_days year month ;;
  match as_int month with
  | Some m =>
      Ok (map (fun day =>
                 PStr (str_year year ++ "-" ++ format_02d m ++ "-"
                       ++ format_02d day))
              (range 1 (days + 1)))
  | None => Raise ValueError
  end.

(** [parameters.get('confidence', 0) < 0.5 or parameters.get('missing_info')],
    as a condition. *)
Definition gate (parameters : pyval) : res bool :=
  confidence <-- get parameters "confidence" (PInt 0) ;;
  low <-- lt_float confidence (FFinite (1 # 2)) ;;
  if low then Ok true
  else
    missing_info <-- get parameters "missing_info" PNone ;;
    Ok (truthy missing_info).

Definition most_sold_branch (E : Env) (self : chatbot) (parameters : pyval)
  : M reply :=
  month <- lift (get parameters "month" PNone) ;;
  year <- lift (get parameters "year" (PInt (now_year E))) ;;
  period <- lift (get parameters "period_description" PNone) ;;
  log (FindMostSold period month year) ;;;
  ret (Text (find_most_sold_item E (df self) period month year)).

Definition summary_branch (E : Env) (self : chatbot) (parameters : pyval)
  : M reply :=
  item_id <- lift (get parameters "item_id" PNone) ;;
  month <- lift (get parameters "month" PNone) ;;
  year <- lift (get parameters "year" (PInt (now_year E))) ;;
  dates <-
    (if truthy month && truthy year then
       ds <- lift (month_dates year month) ;; ret (Some ds)
     else
       date <- lift (get parameters "date" PNone) ;;
       if truthy date then ret (Some [date]) else ret None) ;;
  log (SalesSummary item_id dates) ;;;
  ret (Text (get_sales_summary E (df self) item_id dates)).

Definition analysis_branch (E : Env) (self : chatbot) (parameters : pyval)
  : M reply :=
  item_id <- lift (get parameters "item_id" PNone) ;;
  month <- lift (get parameters "month" PNone) ;;
  year <- lift (get parameters "year" (PInt (now_year E))) ;;
  if truthy month && truthy year then
    dates <- lift (month_dates year month) ;;
    log (SalesSummary item_id (Some dates)) ;;;
    ret (Text (get_sales_summary E (df self) item_id (Some dates)))
  else ret (Text [Lit "Please specify a time period for analysis."]).

(** The message for an item id that is not in [self.available_items]. *)
Definition not_available (self : chatbot) (item_id : pyval) : text :=
  [Lit "Item ID "; Val item_id;
   Lit (" is not available. Available items: "
        ++ join ", " (map str_int (firstn 10 (available_items self)))
        ++ (if (10 <? List.length (available_items self))%nat
            then "..." else ""))].

Definition prediction_branch (E : Env) (self : chatbot) (user_query : string)
    (parameters : pyval) : M reply :=
  item_id <- lift (get parameters "item_id" PNone) ;;
  date <- lift (get parameters "date" PNone) ;;
  if negb (in_ints item_id (available_items self)) then
    ret (Text (not_available self item_id))
  else if negb (truthy date) then
    ret (Text [Lit "Please specify a date for the prediction."])
  else
    match date with
    | PStr date_str =>
        match strptime_ymd date_str with
        | None =>
            ret (Text [Lit "Invalid date format. Please use YYYY-MM-DD format."])
        | Some _ =>
            log (PredictSales item_id date_str) ;;;
            prediction_result <- predict_sales E item_id date_str ;;
            response <-
              lift (generate_response E prediction_result user_query parameters) ;;
            append_turn {| query := user_query;
                           parameters := parameters;
                           result := prediction_result;
                           response := response |} ;;;
            ret (Text response)
        end
    | _ => raise TypeError
    end.

(** The body of the [try] of [handle_query]. *)
Definition dispatch (E : Env) (self : chatbot) (user_query : string)
    (parameters query_type : pyval) : M reply :=
  if eq_str query_type "most_sold" then most_sold_branch E self parameters
  else if eq_str query_type "summary" then summary_branch E self parameters
  else if eq_str query_type "analysis" then analysis_branch E self parameters
  else prediction_branch E self user_query parameters.

(** What [handle_query] does with the extracted [parameters]. *)
Definition handle_parameters (E : Env) (self : chatbot) (user_query : string)
    (parameters : pyval) : M reply :=
  gated <- lift (gate parameters) ;;
  if gated then
    clarification <-
      lift (get parameters "clarification_needed"
              (PStr "I need more information. Please specify your request clearly.")) ;;
    ret (Value clarification)
  else
    query_type <- lift (get parameters "query_type" (PStr "prediction")) ;;
    try_except (dispatch E self user_query parameters query_type)
      (fun e =>
         ret (Text [Lit "I encountered an error while processing your request: ";
                    ExnText e])).

(** [handle_query(user_query)] *)
Definition handle_query (E : Env) (self : chatbot) (user_query : string)
  : M reply :=
  parameters <- lift (extract_parameters E user_query) ;;
  handle_parameters E self user_query parameters.

End Dispatcher.

(* ------------------------------------------------------------------ *)
(** ** The data context of a session and the command-line loop *)

Module Context.

Import PyStr Calendar Py Frame World Dispatcher.

(** The outcome of [pd.read_csv(data_path)] followed by [pd.to_datetime] of
    the order dates. *)
Inductive csv_outcome :=
| CsvFails (e : exn)
| Csv (table : dataframe).

(** [Series.unique()]: the distinct values in order of first appearance. *)
Fixpoint unique (l : list Z) : list Z :=
  match l with
  | [] => []
  | x :: l' => x :: filter (fun y => negb (y =? x)) (unique l')
  end.

Fixpoint insert_sorted (x : Z) (l : list Z) : list Z :=
  match l with
  | [] => [x]
  | y :: l' => if x <? y then x :: l else y :: insert_sorted x l'
  end.

(** [sorted(l)] for a list of [int]. *)
Definition sorted (l : list Z) : list Z :=
  fold_left (fun acc x => insert_sorted x acc) l [].

Definition timestamp_ltb (a b : timestamp) : bool :=
  (ts_year a <? ts_year b)
  || (ts_year a =? ts_year b)
     && ((ts_month a <? ts_month b)
         || (ts_month a =? ts_month b)
            && ((ts_day a <? ts_day b)
                || (ts_day a =? ts_day b) && (ts_time a <? ts_time b))).

(** [Series.min()] and [Series.max()] of a column of timestamps; [None] is
    the [NaT] of an empty column. *)
Definition min_timestamp (column : list timestamp) : option timestamp :=
  match column with
  | [] => None
  | t :: column' =>
      Some (fold_left (fun m u => if timestamp_ltb u m then u else m) column' t)
  end.

Definition max_timestamp (column : list timestamp) : option timestamp :=
  match column with
  | [] => None
  | t :: column' =>
      Some (fold_left (fun m u => if timestamp_ltb m u then u else m) column' t)
  end.

(** [t.strftime('%Y-%m-%d')] *)
Definition strftime_timestamp (t : timestamp) : string :=
  strftime_ymd (ts_year t) (ts_month t) (ts_day t).

(** The attributes that [_load_data_context] sets. *)
Record context := {
  bot : chatbot;
  date_range : string * string
}.

(** The attributes set by the [except] branch. *)
Definition fallback_context : context :=
  {| bot := {| df := None; available_items := [] |};
     date_range := ("2020-01-01", "2024-12-31") |}.

(** [_load_data_context()].  On an empty table the minimum of the order
    dates is [NaT], whose [strftime] raises [ValueError]: the [except]
    branch runs, as it does when the file cannot be read. *)
Definition _load_data_context (csv : csv_outcome) : context :=
  match csv with
  | CsvFails _ => fallback_context
  | Csv table =>
      let items := sorted (unique (map ITEMID_Mapped table)) in
      match min_timestamp (map ORDERDATE table),
            max_timestamp (map ORDERDATE table) with
      | Some min_date, Some max_date =>
          {| bot := {| df := Some table; available_items := items |};
             date_range := (strftime_timestamp min_date,
                            strftime_timestamp max_date) |}
      | _, _ => fallback_context
      end
  end.

End Context.

Module Console.

Import PyStr Py World Effects Dispatcher Context.

(** What happens at one turn of the loop.  [input()] returns the line
    typed, or raises [KeyboardInterrupt] at the prompt, or raises [EOFError]
    at the end of the input.  A [KeyboardInterrupt] can also be raised later
    in the turn: while the line that was read is processed, after [progress]
    of the steps by which [handle_query] changes the state, or while the
    message for the end of the input is printed. *)
Inductive keyboard :=
| Types (line : string)
| Interrupts
| EndOfInput
| TypesThenInterrupts (line : string) (progress : nat)
| EndOfInputThenInterrupts.

(** What the [except Exception] of the loop can catch. *)
Inductive caught :=
| EOFError
| Raised (e : exn).

(** What the loop writes to the terminal.  The fixed texts are named, not
    spelled out; [HelpMessage] carries the two interpolated parts of
    [get_help_message].  [Traceback] stands for a [KeyboardInterrupt] that no
    handler catches: it leaves [main] without a goodbye.  Of a turn in which
    an interrupt arrives after the line was read, only the prompt and the
    text that leaves the loop are listed. *)
Inductive printed :=
| Prompt
| Goodbye
| InterruptedGoodbye
| HelpMessage (items : string) (dates : string * string)
| BotPrefix
| Response (r : reply)
| ErrorOccurred (e : caught)
| Traceback.

(** [', '.join(map(str, self.available_items[:10]))] and the dots that
    follow a longer list, as in [get_help_message]. *)
Definition help_items (self : chatbot) : string :=
  (join ", " (map str_int (firstn 10 (available_items self)))
   ++ (if (10 <? List.length (available_items self))%nat then "..." else ""))%string.

Definition is_quit (user_input : string) : bool :=
  existsb (String.eqb (lower user_input)) ["quit"; "exit"; "bye"].

Definition is_help (user_input : string) : bool :=
  existsb (String.eqb (lower user_input)) ["help"; "?"].

(** A session: what was printed, whether the loop was left, and the state
    of the chatbot. *)
Record session := {
  output : list printed;
  ended : bool;
  final : state
}.

Definition says (p : list printed) (s : session) : session :=
  {| output := p ++ output s; ended := ended s; final := final s |}.

(** The operations that a run from [st] to [st'] invoked. *)
Definition invoked_since (st st' : state) : list event :=
  skipn (List.length (invoked st)) (invoked st').

(** The state when a run of [handle_query] from [st], which would end in
    [st'], is cut short by an interrupt after [progress] steps.  The
    operations invoked so far are logged; the turn, which [handle_query]
    appends last, is recorded only when the run was complete. *)
Definition cut_short (progress : nat) (st st' : state) : state :=
  if (progress <=? List.length (invoked_since st st'))%nat then
    {| conversation_history := conversation_history st;
       invoked := invoked st ++ firstn progress (invoked_since st st') |}
  else st'.

(** The [while True] loop of [main] over the events of its turns.  When
    the events are used up the loop is waiting at the next prompt.
    [handle_query] and the [print] calls of a turn are inside the [try], so
    an interrupt raised there is caught by [except KeyboardInterrupt] like
    one at the prompt; the handlers inside [handle_query] catch [Exception]
    only.  An interrupt raised while [except Exception] prints its message
    is not caught. *)
Fixpoint chat_loop (E : Env) (ctx : context) (keys : list keyboard)
    (st : state) : session :=
  match keys with
  | [] => {| output := [Prompt]; ended := false; final := st |}
  | Interrupts :: _ =>
      {| output := [Prompt; InterruptedGoodbye]; ended := true; final := st |}
  | EndOfInput :: keys' =>
      says [Prompt; ErrorOccurred EOFError] (chat_loop E ctx keys' st)
  | Types line :: keys' =>
      let user_input := strip line in
      if is_quit user_input then
        {| output := [Prompt; Goodbye]; ended := true; final := st |}
      else if is_help user_input then
        says [Prompt; HelpMessage (help_items (bot ctx)) (date_range ctx)]
          (chat_loop E ctx keys' st)
      else if String.eqb user_input "" then
        says [Prompt] (chat_loop E ctx keys' st)
      else
        match handle_query E (bot ctx) user_input st with
        | (Ok response, st') =>
            says [Prompt; BotPrefix; Response response]
              (chat_loop E ctx keys' st')
        | (Raise e, st') =>
            says [Prompt; BotPrefix; ErrorOccurred (Raised e)]
              (chat_loop E ctx keys' st')
        end
  | TypesThenInterrupts line progress :: _ =>
      let user_input := strip line in
      if is_quit user_input || is_help user_input || String.eqb user_input ""
      then
        {| output := [Prompt; InterruptedGoodbye]; ended := true; final := st |}
      else
        match handle_query E (bot ctx) user_input st with
        | (Ok _, st') =>
            {| output := [Prompt; InterruptedGoodbye];
               ended := true;
               final := cut_short progress st st' |}
        | (Raise _, st') =>
            {| output :=
                 [Prompt;
                  if (progress <=? List.length (invoked_since st st'))%nat
                  then InterruptedGoodbye else Traceback];
               ended := true;
               final := cut_short progress st st' |}
        end
  | EndOfInputThenInterrupts :: _ =>
      {| output := [Prompt; Traceback]; ended := true; final := st |}
  end.

End Console.

(* ------------------------------------------------------------------ *)
(** ** Stub collaborators for concrete runs *)

Module Stub.

Import PyStr Calendar Py Frame World Effects.

(** Insertion into a series ranked by decreasing value.  With
    [after_equals] the new entry goes behind the entries of equal value,
    otherwise in front of them. *)
Fixpoint insert_ranked (after_equals : bool) (x : Z * Z) (s : list (Z * Z))
  : list (Z * Z) :=
  match s with
  | [] => [x]
  | y :: s' =>
      if (if after_equals then snd y <? snd x else snd y <=? snd x)
      then x :: s
      else y :: insert_ranked after_equals x s'
  end.

(** Two sorts by decreasing value.  [sort_ranked false] keeps entries of
    equal value in the order of the input, [sort_ranked true] reverses
    them. *)
Definition sort_ranked (after_equals : bool) (s : list (Z * Z)) : list (Z * Z) :=
  fold_right (insert_ranked after_equals) [] s.

Definition midnight (y m d : Z) : timestamp :=
  {| ts_year := y; ts_month := m; ts_day := d; ts_time := 0 |}.

(** A date parser that accepts [YYYY-MM-DD] strings only. *)
Definition iso_to_datetime (v : pyval) : res timestamp :=
  match v with
  | PStr s =>
      match strptime_ymd s with
      | Some (y, m, d) => Ok (midnight y m d)
      | None => Raise ValueError
      end
  | _ => Raise TypeError
  end.

(** Collaborators that answer every query with the JSON document
    [parameters], rank with [sort_ranked after_equals], and predict 40.4. *)
Definition scripted (parameters : option pyval) (files : load_outcome)
    (after_equals : bool) : Env :=
  {| now_year := 2025;
     chat_extract := fun _ =>
       match parameters with
       | Some _ => Content "{}"
       | None => CallFails (Failure "connection refused")
       end;
     json_loads := fun _ =>
       match parameters with
       | Some p => Ok p
       | None => Raise JSONDecodeError
       end;
     chat_render := fun _ _ _ => Content " Item 3 should sell about 40 units. ";
     load_files := files;
     model_predict := fun _ => Ok (FFinite (404 # 10));
     sort_values_desc := sort_ranked after_equals;
     compare_object := fun _ _ => Raise ValueError;
     to_datetime := iso_to_datetime |}.

Definition sale (item : Z) (y m d : Z) (sold : Z) : row :=
  {| ITEMID_Mapped := item; ORDERDATE := midnight y m d; TOTAL_ITEMSOLD := sold;
     DAY := d; MONTH := m; YEAR := y; DAY_NUM := 0; IS_WEEKEND := 0;
     FESTIVAL_ENC := 0; ROLLING_3DAY_AVG := 0 |}.

Definition sample_sales : dataframe :=
  [sale 1 2024 5 1 10; sale 2 2024 5 1 4; sale 3 2024 5 1 42;
   sale 2 2024 5 2 6; sale 3 2024 2 29 0].

Definition fresh : state :=
  {| conversation_history := []; invoked := [] |}.

Definition standard_bot : Dispatcher.chatbot :=
  {| Dispatcher.df := Some sample_sales;
     Dispatcher.available_items := [1; 2; 3] |}.

(** Collaborators that extract the record [d] from every query. *)
Definition answering (d : list (string * pyval)) : Env :=
  scripted (Some (PDict d)) (Loaded sample_sales) false.

Definition may_first_request : list (string * pyval) :=
  [("query_type", PStr "prediction"); ("item_id", PInt 3);
   ("date", PStr "2024-05-01"); ("confidence", PFloat (FFinite 1));
   ("missing_info", PList [])].

(** Collaborators whose completion wraps a JSON object in prose; only the
    text of the object itself is accepted by [json_loads]. *)
Definition chatty (d : list (string * pyval)) : Env :=
  {| now_year := 2025;
     chat_extract := fun _ => Content "Sure! Here it is: {json} Hope this helps.";
     json_loads := fun s =>
       if String.eqb s "{json}" then Ok (PDict d) else Raise JSONDecodeError;
     chat_render := fun _ _ _ => CallFails (Failure "rate limit");
     load_files := Loaded sample_sales;
     model_predict := fun _ => Ok (FFinite (404 # 10));
     sort_values_desc := sort_ranked false;
     compare_object := fun _ _ => Raise ValueError;
     to_datetime := iso_to_datetime |}.

(** [json.loads] on the three JSON literals; every other text is
    refused. *)
Definition loads_literal (s : string) : res pyval :=
  if String.eqb s "null" then Ok PNone
  else if String.eqb s "true" then Ok (PBool true)
  else if String.eqb s "false" then Ok (PBool false)
  else Raise JSONDecodeError.

(** Collaborators whose completion is the JSON text [null]. *)
Definition null_reply : Env :=
  {| now_year := 2025;
     chat_extract := fun _ => Content "null";
     json_loads := loads_literal;
     chat_render := fun _ _ _ => Content "unused";
     load_files := Loaded sample_sales;
     model_predict := fun _ => Ok (FFinite (404 # 10));
     sort_values_desc := sort_ranked false;
     compare_object := fun _ _ => Raise ValueError;
     to_datetime := iso_to_datetime |}.

(** Collaborators that extract the record [d] and whose model answers with
    an infinity. *)
Definition overflowing (d : list (string * pyval)) : Env :=
  {| now_year := 2025;
     chat_extract := fun _ => Content "{}";
     json_loads := fun _ => Ok (PDict d);
     chat_render := fun _ _ _ => Content "unused";
     load_files := Loaded sample_sales;
     model_predict := fun _ => Ok (FInf false);
     sort_values_desc := sort_ranked false;
     compare_object := fun _ _ => Raise ValueError;
     to_datetime := iso_to_datetime |}.


End Stub.

(* ------------------------------------------------------------------ *)
(** ** Vocabulary of the specification *)

Module Spec.

Import PyStr Calendar Py Frame World Effects Analytics Predict Extractor.
Import Dispatcher.

(** The value of a field of a parameter record, [default] when the key is
    absent. *)
Definition field (d : list (string * pyval)) (key : string) (default : pyval)
  : pyval :=
  match lookup key d with
  | Some v => v
  | None => default
  end.

Definition generic_clarification : pyval :=
  PStr "I need more information. Please specify your request clearly.".

(** A record passes the gate: its confidence is a number that is not below
    0.5 and its [missing_info] is empty or absent. *)
Definition passes_gate (d : list (string * pyval)) : Prop :=
  exists x,
    number (field d "confidence" (PInt 0)) = Some x
    /\ float_lt x (FFinite (1 # 2)) = false
    /\ truthy (field d "missing_info" PNone) = false.

(** The query type selects none of the three analytic branches. *)
Definition selects_prediction (query_type : pyval) : Prop :=
  eq_str query_type "most_sold" = false
  /\ eq_str query_type "summary" = false
  /\ eq_str query_type "analysis" = false.

Definition processing_error (e : exn) : reply :=
  Text [Lit "I encountered an error while processing your request: "; ExnText e].

Definition date_please : reply :=
  Text [Lit "Please specify a date for the prediction."].

Definition invalid_date_format : reply :=
  Text [Lit "Invalid date format. Please use YYYY-MM-DD format."].

(** An operation only adds to the log of invoked operations. *)
Definition logs {A : Type} (m : M A) : Prop :=
  forall st r st',
    m st = (r, st') -> exists evs, invoked st' = invoked st ++ evs.

(** An operation leaves the conversation history as it is. *)
Definition keeps_history {A : Type} (m : M A) : Prop :=
  forall st r st',
    m st = (r, st') -> conversation_history st' = conversation_history st.

(** The state once [ev] is logged. *)
Definition logged (st : state) (ev : event) : state :=
  {| conversation_history := conversation_history st;
     invoked := invoked st ++ [ev] |}.

(** The state once [t] is recorded. *)
Definition recorded (st : state) (t : turn) : state :=
  {| conversation_history := conversation_history st ++ [t];
     invoked := invoked st |}.

(** The query was executed as a prediction, and [t] is its turn: the
    extracted record passes the gate, selects the prediction branch, names
    an available item and a date that parses, and [predict_sales] returns
    (with a prediction or with one of its own messages) instead of
    raising. *)
Inductive executed_prediction (E : Env) (self : chatbot) (user_query : string)
    (st : state) : turn -> Prop :=
| executed (d : list (string * pyval)) (date_str : string)
    (prediction_result response : text) (st1 : state) :
    extract_parameters E user_query = Ok (PDict d) ->
    passes_gate d ->
    selects_prediction (field d "query_type" (PStr "prediction")) ->
    in_ints (field d "item_id" PNone) (available_items self) = true ->
    field d "date" PNone = PStr date_str ->
    strptime_ymd date_str <> None ->
    predict_sales E (field d "item_id" PNone) date_str
      (logged st (PredictSales (field d "item_id" PNone) date_str))
    = (Ok prediction_result, st1) ->
    generate_response E prediction_result user_query (PDict d) = Ok response ->
    executed_prediction E self user_query st
      {| query := user_query;
         parameters := PDict d;
         result := prediction_result;
         response := response |}.

(** Nothing of the completion parses: the call fails, or it has no
    content, or [json.loads] raises on the stripped content and again on the
    text between its first opening and last closing brace, when there is
    one. *)
Inductive nothing_parses (E : Env) (user_query : string) : Prop :=
| call_fails (e : exn) :
    chat_extract E user_query = CallFails e -> nothing_parses E user_query
| no_content :
    chat_extract E user_query = NoContent -> nothing_parses E user_query
| not_json (c : string) :
    chat_extract E user_query = Content c ->
    (forall p, json_loads E (strip c) <> Ok p) ->
    (forall m p, search_braces (strip c) = Some m -> json_loads E m <> Ok p) ->
    nothing_parses E user_query.

(** Neither a list nor a dict. *)
Definition scalar (v : pyval) : Prop :=
  match v with
  | PList _ | PDict _ => False
  | _ => True
  end.





(** The row is the one [predict_sales] looks for. *)
Definition is_target (item_id : pyval) (y m d : Z) (r : row) : bool :=
  eq_int item_id (ITEMID_Mapped r) && on_date y m d r.

(** The number of days of a month of the Gregorian calendar, as the
    specification words it: 30 for April, June, September and November, 29
    or 28 for February according to the leap year rule, 31 otherwise. *)
Definition gregorian_days (year month : Z) : Z :=
  if month =? 2 then
    if (year mod 400 =? 0)
       || ((year mod 4 =? 0) && negb (year mod 100 =? 0))
    then 29 else 28
  else if (month =? 4) || (month =? 6) || (month =? 9) || (month =? 11)
  then 30 else 31.

(** The canonical dates of a month, by the dispatcher's f-string. *)
Definition dates_of_month (year month : Z) : list pyval :=
  map (fun day =>
         PStr (str_int year ++ "-" ++ format_02d month ++ "-" ++ format_02d day))
      (DateNormalizer.range 1 (gregorian_days year month + 1)).

(** Every character of [s] satisfies [P]. *)
Fixpoint all_chars (P : ascii -> bool) (s : string) : bool :=
  match s with
  | EmptyString => true
  | String c s' => P c && all_chars P s'
  end.

(** A string of decimal digits. *)
Definition digits (s : string) : bool := all_chars is_digit s.

(** A digit or the dash: the alphabet of numeric dates. *)
Definition dateish (c : ascii) : bool := is_digit c || Ascii.eqb c "-".

(** The two ways a day or month number is written: plain, or zero-padded
    on two digits. *)
Definition spelling (n : Z) (s : string) : Prop :=
  s = str_int n \/ s = pad2 n.

(** [s] spells [n] plainly or zero-padded, as one or two digits that
    [zfill] brings to the two-digit form. *)
Definition spells_two_digits (n : Z) : bool :=
  forallb (fun s =>
             digits s
             && (1 <=? String.length s)%nat && (String.length s <=? 2)%nat
             && String.eqb (zfill 2 s) (pad2 n))
          [str_int n; pad2 n].

(** The month and day fields of a canonical date are read back by the
    patterns of [%m] and [%d]. *)
Definition reads_back (m d : Z) : bool :=
  match first_some after_month (match_m (pad2 m ++ "-" ++ pad2 d)) with
  | Some (m', d', EmptyString) => (m' =? m) && (d' =? d)
  | _ => false
  end.



(** The sum of a list of quantities as integers, without the bounds of a
    machine integer. *)
Definition exact_sum (l : list Z) : Z := fold_left Z.add l 0.





(** The character [c] does not occur in [s]. *)
Definition no_char (c : ascii) (s : string) : bool :=
  all_chars (fun x => negb (Ascii.eqb x c)) s.

(** The row is kept by the filters of [find_most_sold_item]: a month or
    year that is absent or falsy keeps every row. *)
Definition in_period (month year : pyval) (r : row) : bool :=
  (negb (truthy month) || eq_int month (ts_month (ORDERDATE r)))
  && (negb (truthy year) || eq_int year (ts_year (ORDERDATE r))).

Definition could_not_understand : pyval :=
  PStr "I couldn't understand your request. Please specify the item ID and date for sales prediction.".

Definition period_please : reply :=
  Text [Lit "Please specify a time period for analysis."].

(** What the patterns of [%m] and [%d] make of two two-digit fields: the
    numbers when both are in range, a failure or left-over text when not. *)
Definition reads_back_or_fails (m d : Z) : bool :=
  let in_range := (1 <=? m) && (m <=? 12) && (1 <=? d) && (d <=? 31) in
  match first_some after_month (match_m (pad2 m ++ "-" ++ pad2 d)) with
  | Some (m', d', EmptyString) => in_range && (m' =? m) && (d' =? d)
  | Some (_, _, String _ _) => negb in_range
  | None => negb in_range
  end.

(** The same for the plain and padded spellings of a month and a day. *)
Definition spellings_read_back (m d : Z) : bool :=
  forallb (fun ms =>
    forallb (fun ds =>
      match first_some after_month (match_m (ms ++ "-" ++ ds)) with
      | Some (m', d', EmptyString) => (m' =? m) && (d' =? d)
      | _ => false
      end) [str_int d; pad2 d]) [str_int m; pad2 m].

(** An event that leaves the loop: an interrupt, wherever in the turn it
    is raised, or one of the words quit, exit and bye in any case and with
    any space around. *)
Definition leaves (k : Console.keyboard) : bool :=
  match k with
  | Console.Types line => Console.is_quit (strip line)
  | Console.EndOfInput => false
  | Console.Interrupts => true
  | Console.TypesThenInterrupts _ _ => true
  | Console.EndOfInputThenInterrupts => true
  end.

(** The line that was read in the turn, if any. *)
Definition typed (k : Console.keyboard) : option string :=
  match k with
  | Console.Types line => Some line
  | Console.TypesThenInterrupts line _ => Some line
  | _ => None
  end.

(** A turn whose line is passed to [handle_query]. *)
Definition is_query (k : Console.keyboard) : bool :=
  match typed k with
  | Some line =>
      negb (Console.is_quit (strip line)) && negb (Console.is_help (strip line))
      && negb (String.eqb (strip line) "")
  | None => false
  end.

(** The events up to and including the first that leaves the loop. *)
Fixpoint until_leave (keys : list Console.keyboard) : list Console.keyboard :=
  match keys with
  | [] => []
  | k :: keys' => if leaves k then [k] else k :: until_leave keys'
  end.




End Spec.

(* ------------------------------------------------------------------ *)
(** * Properties *)

Import PyStr Calendar DateNormalizer Py Frame World Effects Analytics.
Import Predict Extractor Dispatcher Stub Spec.

(** ** The gate *)

Lemma get_field (d : list (string * pyval)) (key : string) (default : pyval) :
  get (PDict d) key default = Ok (field d key default).
Proof.
  unfold get, field. destruct (lookup key d); reflexivity.
Qed.

Lemma handle_query_extracted (E : Env) (self : chatbot) (user_query : string)
    (parameters : pyval) (st : state) :
  extract_parameters E user_query = Ok parameters ->
  handle_query E self user_query st
  = handle_parameters E self user_query parameters st.
Proof.
  intros H. unfold handle_query, bind, lift. rewrite H. reflexivity.
Qed.

Lemma gate_of_record (d : list (string * pyval)) (x : pyfloat) :
  number (field d "confidence" (PInt 0)) = Some x ->
  gate (PDict d)
  = Ok (float_lt x (FFinite (1 # 2)) || truthy (field d "missing_info" PNone)).
Proof.
  intros Hx. unfold gate. rewrite !get_field. cbn [rbind].
  unfold lt_float. rewrite Hx. cbn [rbind].
  destruct (float_lt x (FFinite (1 # 2))); reflexivity.
Qed.

Lemma passes_gate_false (d : list (string * pyval)) :
  passes_gate d -> gate (PDict d) = Ok false.
Proof.
  intros (x & Hx & Hlt & Hm). rewrite (gate_of_record d x Hx), Hlt, Hm.
  reflexivity.
Qed.

(** C1. A record whose confidence is below 0.5, or whose [missing_info] is
    non-empty, is answered with its [clarification_needed] value (the generic
    message when the key is absent); the state is returned as it was, so no
    analytics operation is invoked and nothing is recorded.  The confidence is
    a number, as in a ParameterRecord; [truthy] of a list is its
    non-emptiness. *)
Theorem gated_record_is_answered_with_clarification :
  forall (E : Env) (self : chatbot) (user_query : string)
         (d : list (string * pyval)) (x : pyfloat) (st : state),
    extract_parameters E user_query = Ok (PDict d) ->
    number (field d "confidence" (PInt 0)) = Some x ->
    float_lt x (FFinite (1 # 2)) = true
    \/ truthy (field d "missing_info" PNone) = true ->
    handle_query E self user_query st
    = (Ok (Value (field d "clarification_needed" generic_clarification)), st).
Proof.
  intros E self user_query d x st Hex Hx Hgate.
  rewrite (handle_query_extracted _ _ _ _ _ Hex).
  unfold handle_parameters, bind, lift.
  rewrite (gate_of_record d x Hx).
  assert (Hb : float_lt x (FFinite (1 # 2))
               || truthy (field d "missing_info" PNone) = true).
  { destruct Hgate as [H | H]; rewrite H; auto using orb_true_r. }
  rewrite Hb. rewrite get_field. reflexivity.
Qed.

(** A confidence of 0.49 with an empty [missing_info] and no clarification
    text: the generic message is returned. *)
Lemma gated_record_witness :
  handle_query
    (scripted (Some (PDict [("query_type", PStr "most_sold");
                            ("confidence", PFloat (FFinite (49 # 100)));
                            ("missing_info", PList [])]))
       (Loaded sample_sales) false)
    {| df := Some sample_sales; available_items := [1; 2; 3] |}
    "most sold item?" fresh
  = (Ok (Value generic_clarification), fresh).
Proof.
  apply (gated_record_is_answered_with_clarification _ _ _
           [("query_type", PStr "most_sold");
            ("confidence", PFloat (FFinite (49 # 100)));
            ("missing_info", PList [])]
           (FFinite (49 # 100))).
  - reflexivity.
  - reflexivity.
  - left. reflexivity.
Defined.

(** ** The prediction branch *)

Lemma handle_prediction (E : Env) (self : chatbot) (user_query : string)
    (d : list (string * pyval)) (st : state) :
  passes_gate d ->
  selects_prediction (field d "query_type" (PStr "prediction")) ->
  handle_parameters E self user_query (PDict d) st
  = try_except (prediction_branch E self user_query (PDict d))
      (fun e => ret (processing_error e)) st.
Proof.
  intros Hgate (H1 & H2 & H3).
  unfold handle_parameters, bind, lift.
  rewrite (passes_gate_false d Hgate), get_field.
  unfold dispatch. rewrite H1, H2, H3. reflexivity.
Qed.

Lemma prediction_unknown_item (E : Env) (self : chatbot) (user_query : string)
    (d : list (string * pyval)) (st : state) :
  in_ints (field d "item_id" PNone) (available_items self) = false ->
  prediction_branch E self user_query (PDict d) st
  = (Ok (Text (not_available self (field d "item_id" PNone))), st).
Proof.
  intros H. unfold prediction_branch, bind, lift. rewrite !get_field, H.
  reflexivity.
Qed.

Lemma prediction_no_date (E : Env) (self : chatbot) (user_query : string)
    (d : list (string * pyval)) (st : state) :
  in_ints (field d "item_id" PNone) (available_items self) = true ->
  truthy (field d "date" PNone) = false ->
  prediction_branch E self user_query (PDict d) st = (Ok date_please, st).
Proof.
  intros Hi Hd. unfold prediction_branch, bind, lift.
  rewrite !get_field, Hi, Hd. reflexivity.
Qed.

Lemma prediction_bad_date (E : Env) (self : chatbot) (user_query : string)
    (d : list (string * pyval)) (s : string) (st : state) :
  in_ints (field d "item_id" PNone) (available_items self) = true ->
  field d "date" PNone = PStr s ->
  s <> "" ->
  strptime_ymd s = None ->
  prediction_branch E self user_query (PDict d) st
  = (Ok invalid_date_format, st).
Proof.
  intros Hi Hd Hs Hp. unfold prediction_branch, bind, lift.
  rewrite !get_field, Hi, Hd. cbn [negb truthy].
  destruct (String.eqb_spec s "") as [-> | _]; [congruence |].
  cbn [negb]. rewrite Hp. reflexivity.
Qed.

Lemma try_except_ok {A : Type} (body : M A) (handler : exn -> M A)
    (st st' : state) (a : A) :
  body st = (Ok a, st') -> try_except body handler st = (Ok a, st').
Proof.
  intros H. unfold try_except. rewrite H. reflexivity.
Qed.

Lemma logs_ret {A : Type} (a : A) : logs (ret a).
Proof.
  intros st r st' H. inversion H; subst. exists []. now rewrite app_nil_r.
Qed.

Lemma logs_raise {A : Type} (e : exn) : logs (@raise A e).
Proof.
  intros st r st' H. inversion H; subst. exists []. now rewrite app_nil_r.
Qed.

Lemma logs_lift {A : Type} (r : res A) : logs (lift r).
Proof.
  intros st r' st' H. inversion H; subst. exists []. now rewrite app_nil_r.
Qed.

Lemma logs_log (ev : event) : logs (log ev).
Proof.
  intros st r st' H. inversion H; subst. exists [ev]. reflexivity.
Qed.

Lemma logs_append_turn (t : turn) : logs (append_turn t).
Proof.
  intros st r st' H. inversion H; subst. exists []. cbn. now rewrite app_nil_r.
Qed.

Lemma logs_bind {A B : Type} (m : M A) (k : A -> M B) :
  logs m -> (forall a, logs (k a)) -> logs (bind m k).
Proof.
  intros Hm Hk st r st' H. unfold bind in H.
  destruct (m st) as [[a | e] st1] eqn:Em.
  - destruct (Hm _ _ _ Em) as [evs1 H1].
    destruct (Hk a _ _ _ H) as [evs2 H2].
    exists (evs1 ++ evs2). now rewrite H2, H1, app_assoc.
  - inversion H; subst. exact (Hm _ _ _ Em).
Qed.

Lemma logs_try_except {A : Type} (body : M A) (handler : exn -> M A) :
  logs body -> (forall e, logs (handler e)) -> logs (try_except body handler).
Proof.
  intros Hm Hk st r st' H. unfold try_except in H.
  destruct (body st) as [[a | e] st1] eqn:Em.
  - inversion H; subst. exact (Hm _ _ _ Em).
  - destruct (Hm _ _ _ Em) as [evs1 H1].
    destruct (Hk e _ _ _ H) as [evs2 H2].
    exists (evs1 ++ evs2). now rewrite H2, H1, app_assoc.
Qed.

Ltac logs_step :=
  repeat first
    [ apply logs_bind; [| intros ?]
    | apply logs_ret | apply logs_raise | apply logs_lift | apply logs_log
    | apply logs_append_turn ].

Lemma logs_predict_sales (E : Env) (item_id : pyval) (date_str : string) :
  logs (predict_sales E item_id date_str).
Proof.
  unfold predict_sales.
  destruct (load_files E); [logs_step | logs_step |].
  destruct (strptime_ymd date_str) as [[[y m] d] |]; [| logs_step].
  apply logs_bind; [logs_step | intros rows].
  destruct rows; logs_step.
Qed.

Lemma prediction_runs (E : Env) (self : chatbot) (user_query : string)
    (d : list (string * pyval)) (s : string) (st : state) :
  in_ints (field d "item_id" PNone) (available_items self) = true ->
  field d "date" PNone = PStr s ->
  strptime_ymd s <> None ->
  exists r st' evs,
    prediction_branch E self user_query (PDict d) st = (r, st')
    /\ invoked st'
       = invoked st ++ PredictSales (field d "item_id" PNone) s :: evs.
Proof.
  intros Hi Hd Hp. unfold prediction_branch.
  unfold bind at 1 2, lift at 1 2. rewrite !get_field, Hi, Hd.
  assert (Hs : truthy (PStr s) = true).
  { destruct s; [| reflexivity]. now contradiction Hp. }
  rewrite Hs. cbn [negb].
  destruct (strptime_ymd s) as [ymd |]; [| congruence].
  match goal with
  | |- exists r st' evs, bind (log ?ev) ?k st = _ /\ _ =>
      set (rest := k)
  end.
  unfold bind, log. cbn.
  destruct (rest tt {| conversation_history := conversation_history st;
                       invoked := invoked st ++ [PredictSales (field d "item_id" PNone) s] |})
    as [r st'] eqn:Er.
  assert (Hl : logs (rest tt)).
  { subst rest. cbn beta.
    apply logs_bind; [apply logs_predict_sales | intros ?]. logs_step. }
  destruct (Hl _ _ _ Er) as [evs Hevs]. cbn in Hevs.
  exists r, st', evs. split; [reflexivity |].
  now rewrite Hevs, <- app_assoc.
Qed.

(** The text [generate_response] returns for a record. *)
Lemma generate_response_total (E : Env) (prediction_result : text)
    (user_query : string) (d : list (string * pyval)) :
  exists response,
    generate_response E prediction_result user_query (PDict d) = Ok response.
Proof.
  unfold generate_response. rewrite !get_field. cbn [rbind].
  destruct (chat_render E user_query (PDict d) prediction_result);
    cbn; eauto.
Qed.

(** The prediction branch once the three checks are passed. *)
Lemma prediction_branch_run (E : Env) (self : chatbot) (user_query : string)
    (d : list (string * pyval)) (s : string) (st : state) :
  in_ints (field d "item_id" PNone) (available_items self) = true ->
  field d "date" PNone = PStr s ->
  strptime_ymd s <> None ->
  prediction_branch E self user_query (PDict d) st
  = match predict_sales E (field d "item_id" PNone) s
            (logged st (PredictSales (field d "item_id" PNone) s)) with
    | (Ok prediction_result, st1) =>
        match generate_response E prediction_result user_query (PDict d) with
        | Ok response =>
            (Ok (Text response),
             recorded st1 {| query := user_query;
                             parameters := PDict d;
                             result := prediction_result;
                             response := response |})
        | Raise e => (Raise e, st1)
        end
    | (Raise e, st1) => (Raise e, st1)
    end.
Proof.
  intros Hi Hd Hp. unfold prediction_branch.
  unfold bind at 1 2, lift at 1 2. rewrite !get_field, Hi, Hd.
  assert (Hs : truthy (PStr s) = true).
  { destruct s; [| reflexivity]. now contradiction Hp. }
  rewrite Hs. cbn [negb].
  destruct (strptime_ymd s) as [ymd |]; [| congruence].
  unfold bind, log, lift, append_turn, logged, recorded, ret.
  destruct (predict_sales _ _ _ _) as [[res | e] st1]; [| reflexivity].
  destruct (generate_response _ _ _ _); reflexivity.
Qed.

(** C10. A record that passes the gate and whose query type is none of
    "most_sold", "summary" and "analysis" (absent, null, or any other value)
    is handled as a prediction.  An item id outside [available_items] is
    rejected, then a missing date, then a date that is not YYYY-MM-DD, each
    with its message and with nothing invoked; a date that is no string is
    reported as a processing error.  A record that passes the checks is
    executed: [predict_sales] is called with its item id and date, its
    result is phrased by [generate_response], the turn is recorded and the
    response returned; when [predict_sales] raises, the exception is reported
    as a processing error and nothing is recorded. *)
Theorem other_query_types_run_the_prediction_branch :
  forall (E : Env) (self : chatbot) (user_query : string)
         (d : list (string * pyval)) (st : state),
    extract_parameters E user_query = Ok (PDict d) ->
    passes_gate d ->
    selects_prediction (field d "query_type" (PStr "prediction")) ->
    let item_id := field d "item_id" PNone in
    let date := field d "date" PNone in
    (in_ints item_id (available_items self) = false ->
     handle_query E self user_query st
     = (Ok (Text (not_available self item_id)), st))
    /\ (in_ints item_id (available_items self) = true ->
        truthy date = false ->
        handle_query E self user_query st = (Ok date_please, st))
    /\ (in_ints item_id (available_items self) = true ->
        forall s, date = PStr s -> s <> "" -> strptime_ymd s = None ->
        handle_query E self user_query st = (Ok invalid_date_format, st))
    /\ (in_ints item_id (available_items self) = true ->
        truthy date = true ->
        (forall s, date <> PStr s) ->
        handle_query E self user_query st
        = (Ok (processing_error TypeError), st))
    /\ (in_ints item_id (available_items self) = true ->
        forall s, date = PStr s -> strptime_ymd s <> None ->
        match predict_sales E item_id s (logged st (PredictSales item_id s)) with
        | (Ok prediction_result, st1) =>
            exists response,
              generate_response E prediction_result user_query (PDict d)
              = Ok response
              /\ handle_query E self user_query st
                 = (Ok (Text response),
                    recorded st1 {| query := user_query;
                                    parameters := PDict d;
                                    result := prediction_result;
                                    response := response |})
        | (Raise e, st1) =>
            handle_query E self user_query st = (Ok (processing_error e), st1)
        end)
    /\ (in_ints item_id (available_items self) = true ->
        forall s, date = PStr s -> strptime_ymd s <> None ->
        exists r st' evs,
          handle_query E self user_query st = (r, st')
          /\ invoked st' = invoked st ++ PredictSales item_id s :: evs).
Proof.
  intros E self user_query d st Hex Hgate Hsel item_id date.
  rewrite (handle_query_extracted _ _ _ _ _ Hex).
  rewrite (handle_prediction _ _ _ _ _ Hgate Hsel).
  split; [| split; [| split; [| split; [| split]]]].
  - intros Hi. apply try_except_ok. now apply prediction_unknown_item.
  - intros Hi Hd. apply try_except_ok. now apply prediction_no_date.
  - intros Hi s Hd Hs Hp. apply try_except_ok.
    now apply prediction_bad_date with (s := s).
  - intros Hi Hd Hns. unfold try_except, prediction_branch, bind, lift.
    rewrite !get_field. fold item_id date. rewrite Hi, Hd. cbn [negb].
    destruct date as [| b | n | x | s | l | d']; try reflexivity.
    now contradiction (Hns s).
  - intros Hi s Hd Hp. unfold try_except.
    rewrite (prediction_branch_run E self user_query d s st Hi Hd Hp).
    fold item_id.
    destruct (predict_sales E item_id s (logged st (PredictSales item_id s)))
      as [[prediction_result | e] st1]; [| reflexivity].
    destruct (generate_response_total E prediction_result user_query d)
      as [response Hresponse].
    exists response. rewrite Hresponse. split; reflexivity.
  - intros Hi s Hd Hp.
    destruct (prediction_runs E self user_query d s st Hi Hd Hp)
      as (r & st1 & evs & Hrun & Hlog).
    unfold try_except. rewrite Hrun.
    destruct r as [a | e].
    + exists (Ok a), st1, evs. split; [reflexivity | exact Hlog].
    + exists (Ok (processing_error e)), st1, evs.
      split; [reflexivity | exact Hlog].
Qed.

(** An unrecognised query type with an item and a date of the table: the
    prediction is executed, phrased and recorded. *)
Lemma other_query_types_witness :
  handle_query
    (scripted (Some (PDict [("query_type", PStr "forecast");
                            ("item_id", PInt 3);
                            ("date", PStr "2024-05-01");
                            ("confidence", PFloat (FFinite 1))]))
       (Loaded sample_sales) false)
    standard_bot "forecast item 3 on 2024-05-01" fresh
  = (Ok (Text [Lit "Item 3 should sell about 40 units."]),
     {| conversation_history :=
          [{| query := "forecast item 3 on 2024-05-01";
              parameters :=
                PDict [("query_type", PStr "forecast"); ("item_id", PInt 3);
                       ("date", PStr "2024-05-01");
                       ("confidence", PFloat (FFinite 1))];
              result := [Lit "Actual: 42, Predicted: 40"];
              response := [Lit "Item 3 should sell about 40 units."] |}];
        invoked :=
          [PredictSales (PInt 3) "2024-05-01";
           ModelPredict (features_for_prediction (sale 3 2024 5 1 42))] |}).
Proof.
  destruct (other_query_types_run_the_prediction_branch
              (scripted (Some (PDict [("query_type", PStr "forecast");
                                      ("item_id", PInt 3);
                                      ("date", PStr "2024-05-01");
                                      ("confidence", PFloat (FFinite 1))]))
                 (Loaded sample_sales) false)
              standard_bot "forecast item 3 on 2024-05-01"
              [("query_type", PStr "forecast"); ("item_id", PInt 3);
               ("date", PStr "2024-05-01"); ("confidence", PFloat (FFinite 1))]
              fresh)
    as (_ & _ & _ & _ & Hrun & _).
  - reflexivity.
  - exists (FFinite 1). repeat split; reflexivity.
  - repeat split; reflexivity.
  - specialize (Hrun eq_refl "2024-05-01" eq_refl ltac:(discriminate)).
    cbn in Hrun. destruct Hrun as (response & Hresponse & Hrun).
    injection Hresponse as <-. exact Hrun.
Defined.

(** C2, as amended. For a record that passes the gate with query type
    "prediction": an item id outside [available_items] is rejected with a
    message that lists the first ten available ids at most; with a valid item
    id, a non-empty date string that is not YYYY-MM-DD is rejected as an
    invalid date format, and an absent or empty date is asked for.  In the
    three cases the state is returned as it was: [predict_sales] is not
    invoked. *)
Theorem prediction_is_validated_before_it_runs :
  forall (E : Env) (self : chatbot) (user_query : string)
         (d : list (string * pyval)) (st : state),
    extract_parameters E user_query = Ok (PDict d) ->
    passes_gate d ->
    field d "query_type" (PStr "prediction") = PStr "prediction" ->
    let item_id := field d "item_id" PNone in
    let date := field d "date" PNone in
    let sample := firstn 10 (available_items self) in
    (in_ints item_id (available_items self) = false ->
     handle_query E self user_query st
     = (Ok (Text [Lit "Item ID "; Val item_id;
                  Lit (" is not available. Available items: "
                       ++ join ", " (map str_int sample)
                       ++ (if (10 <? List.length (available_items self))%nat
                           then "..." else ""))]), st)
     /\ (List.length sample <= 10)%nat
     /\ incl sample (available_items self))
    /\ (in_ints item_id (available_items self) = true ->
        forall s, date = PStr s -> s <> "" -> strptime_ymd s = None ->
        handle_query E self user_query st = (Ok invalid_date_format, st))
    /\ (in_ints item_id (available_items self) = true ->
        truthy date = false ->
        handle_query E self user_query st = (Ok date_please, st)).
Proof.
  intros E self user_query d st Hex Hgate Hqt item_id date sample.
  assert (Hsel : selects_prediction (field d "query_type" (PStr "prediction"))).
  { rewrite Hqt. repeat split; reflexivity. }
  rewrite (handle_query_extracted _ _ _ _ _ Hex).
  rewrite (handle_prediction _ _ _ _ _ Hgate Hsel).
  split; [| split].
  - intros Hi. split; [| split].
    + apply try_except_ok. now apply prediction_unknown_item.
    + subst sample. rewrite length_firstn. apply Nat.le_min_l.
    + subst sample. intros i Hin.
      rewrite <- (firstn_skipn 10 (available_items self)).
      apply in_or_app. now left.
  - intros Hi s Hd Hs Hp. apply try_except_ok.
    now apply prediction_bad_date with (s := s).
  - intros Hi Hd. apply try_except_ok. now apply prediction_no_date.
Qed.

(** A known item with the date "05/01/2024": rejected as an invalid date
    format. *)
Lemma prediction_is_validated_witness :
  handle_query
    (scripted (Some (PDict [("query_type", PStr "prediction");
                            ("item_id", PInt 3);
                            ("date", PStr "05/01/2024");
                            ("confidence", PFloat (FFinite 1));
                            ("missing_info", PList [])]))
       (Loaded sample_sales) false)
    {| df := Some sample_sales; available_items := [1; 2; 3] |}
    "predict item 3 on 05/01/2024" fresh
  = (Ok invalid_date_format, fresh).
Proof.
  refine (proj1 (proj2
    (prediction_is_validated_before_it_runs _ _ _
       [("query_type", PStr "prediction"); ("item_id", PInt 3);
        ("date", PStr "05/01/2024"); ("confidence", PFloat (FFinite 1));
        ("missing_info", PList [])] _ _ _ _)) _ "05/01/2024" _ _ _).
  - reflexivity.
  - exists (FFinite 1). repeat split; reflexivity.
  - reflexivity.
  - reflexivity.
  - reflexivity.
  - discriminate.
  - reflexivity.
Defined.

(** C2 as stated fails on the empty date string: it does not parse as
    YYYY-MM-DD, the item id is valid, and the answer is the request for a
    date, not the invalid-format message. *)
Lemma empty_date_is_asked_for_not_rejected :
  let d := [("query_type", PStr "prediction"); ("item_id", PInt 3);
            ("date", PStr ""); ("confidence", PFloat (FFinite 1));
            ("missing_info", PList [])] in
  let E := scripted (Some (PDict d)) (Loaded sample_sales) false in
  let self := {| df := Some sample_sales; available_items := [1; 2; 3] |} in
  extract_parameters E "predict item 3" = Ok (PDict d)
  /\ gate (PDict d) = Ok false
  /\ in_ints (field d "item_id" PNone) (available_items self) = true
  /\ field d "date" PNone = PStr ""
  /\ strptime_ymd "" = None
  /\ handle_query E self "predict item 3" fresh = (Ok date_please, fresh)
  /\ handle_query E self "predict item 3" fresh
     <> (Ok invalid_date_format, fresh).
Proof.
  cbv zeta. repeat split; try reflexivity. vm_compute. discriminate.
Qed.

(** ** The conversation history *)

Lemma keeps_ret {A : Type} (a : A) : keeps_history (ret a).
Proof. intros st r st' H. now inversion H. Qed.

Lemma keeps_raise {A : Type} (e : exn) : keeps_history (@raise A e).
Proof. intros st r st' H. now inversion H. Qed.

Lemma keeps_lift {A : Type} (r : res A) : keeps_history (lift r).
Proof. intros st r' st' H. now inversion H. Qed.

Lemma keeps_log (ev : event) : keeps_history (log ev).
Proof. intros st r st' H. now inversion H. Qed.

Lemma keeps_bind {A B : Type} (m : M A) (k : A -> M B) :
  keeps_history m -> (forall a, keeps_history (k a)) -> keeps_history (bind m k).
Proof.
  intros Hm Hk st r st' H. unfold bind in H.
  destruct (m st) as [[a | e] st1] eqn:Em.
  - rewrite (Hk a _ _ _ H). exact (Hm _ _ _ Em).
  - inversion H; subst. exact (Hm _ _ _ Em).
Qed.

Lemma keeps_try_except {A : Type} (body : M A) (handler : exn -> M A) :
  keeps_history body -> (forall e, keeps_history (handler e)) ->
  keeps_history (try_except body handler).
Proof.
  intros Hm Hk st r st' H. unfold try_except in H.
  destruct (body st) as [[a | e] st1] eqn:Em.
  - inversion H; subst. exact (Hm _ _ _ Em).
  - rewrite (Hk e _ _ _ H). exact (Hm _ _ _ Em).
Qed.

Ltac keeps_step :=
  repeat first
    [ apply keeps_bind; [| intros ?]
    | apply keeps_ret | apply keeps_raise | apply keeps_lift
    | apply keeps_log ].

Lemma keeps_predict_sales (E : Env) (item_id : pyval) (date_str : string) :
  keeps_history (predict_sales E item_id date_str).
Proof.
  unfold predict_sales.
  destruct (load_files E); [keeps_step | keeps_step |].
  destruct (strptime_ymd date_str) as [[[y m] d] |]; [| keeps_step].
  apply keeps_bind; [keeps_step | intros rows].
  destruct rows; keeps_step.
Qed.

Lemma keeps_most_sold (E : Env) (self : chatbot) (parameters : pyval) :
  keeps_history (most_sold_branch E self parameters).
Proof. unfold most_sold_branch. keeps_step. Qed.

Lemma keeps_summary (E : Env) (self : chatbot) (parameters : pyval) :
  keeps_history (summary_branch E self parameters).
Proof.
  unfold summary_branch. keeps_step.
  - destruct (truthy _ && truthy _); keeps_step.
    match goal with |- keeps_history (if ?c then _ else _) => destruct c end;
      keeps_step.
Qed.

Lemma keeps_analysis (E : Env) (self : chatbot) (parameters : pyval) :
  keeps_history (analysis_branch E self parameters).
Proof.
  unfold analysis_branch. keeps_step.
  destruct (truthy _ && truthy _); keeps_step.
Qed.

Lemma gate_false_passes (d : list (string * pyval)) :
  gate (PDict d) = Ok false -> passes_gate d.
Proof.
  unfold gate. rewrite !get_field. cbn [rbind]. unfold lt_float.
  destruct (number (field d "confidence" (PInt 0))) as [x |] eqn:Hx;
    [| discriminate].
  cbn [rbind]. destruct (float_lt x (FFinite (1 # 2))) eqn:Hlt;
    [discriminate |].
  intros H. exists x. repeat split; try assumption. congruence.
Qed.

Lemma handle_ungated (E : Env) (self : chatbot) (user_query : string)
    (d : list (string * pyval)) (st : state) :
  gate (PDict d) = Ok false ->
  handle_parameters E self user_query (PDict d) st
  = try_except
      (dispatch E self user_query (PDict d)
         (field d "query_type" (PStr "prediction")))
      (fun e => ret (processing_error e)) st.
Proof.
  intros Hg. unfold handle_parameters, bind, lift. rewrite Hg, get_field.
  reflexivity.
Qed.

Lemma keeps_handler (body : M reply) :
  keeps_history body ->
  keeps_history (try_except body (fun e => ret (processing_error e))).
Proof.
  intros H. apply keeps_try_except; [exact H | intros e; apply keeps_ret].
Qed.

(** Every run of [handle_query] either leaves the history as it is, and
    then the query was not an executed prediction, or appends the turn of
    the executed prediction and answers with its response. *)
Lemma handle_query_history (E : Env) (self : chatbot) (user_query : string)
    (st st' : state) (r : res reply) :
  handle_query E self user_query st = (r, st') ->
  (conversation_history st' = conversation_history st
   /\ forall t, ~ executed_prediction E self user_query st t)
  \/ (exists t,
        executed_prediction E self user_query st t
        /\ conversation_history st' = conversation_history st ++ [t]
        /\ r = Ok (Text (response t))).
Proof.
  intros H.
  destruct (extract_parameters E user_query) as [p | e] eqn:Hex.
  2:{ unfold handle_query, bind, lift in H. rewrite Hex in H.
      inversion H; subst. left. split; [reflexivity |].
      intros t Ht. inversion Ht; congruence. }
  rewrite (handle_query_extracted _ _ _ _ _ Hex) in H.
  assert (Hnodict : (forall d, p <> PDict d) ->
            conversation_history st' = conversation_history st
            /\ forall t, ~ executed_prediction E self user_query st t).
  { intros Hp. split.
    - destruct p; try (now inversion H). now contradiction (Hp d).
    - intros t Ht. inversion Ht; subst.
      match goal with
      | Hd : extract_parameters _ _ = Ok (PDict ?d0) |- _ =>
          rewrite Hex in Hd; inversion Hd; now contradiction (Hp d0)
      end. }
  destruct p as [| | | | | | d]; try (left; apply Hnodict; discriminate).
  clear Hnodict.
  assert (Hinv : forall t, executed_prediction E self user_query st t ->
            exists s st1,
              passes_gate d
              /\ selects_prediction (field d "query_type" (PStr "prediction"))
              /\ in_ints (field d "item_id" PNone) (available_items self) = true
              /\ field d "date" PNone = PStr s
              /\ strptime_ymd s <> None
              /\ predict_sales E (field d "item_id" PNone) s
                   (logged st (PredictSales (field d "item_id" PNone) s))
                 = (Ok (result t), st1)).
  { intros t Ht. inversion Ht; subst.
    match goal with
    | Hd : extract_parameters _ _ = Ok (PDict ?d0) |- _ =>
        rewrite Hex in Hd; inversion Hd; subst d0
    end.
    eauto 10. }
  destruct (gate (PDict d)) as [[|] | e] eqn:Hg.
  - (* gated *)
    unfold handle_parameters, bind, lift in H. rewrite Hg, get_field in H.
    inversion H; subst. left. split; [reflexivity |].
    intros t Ht. destruct (Hinv t Ht) as (s & st1 & Hpass & _).
    rewrite (passes_gate_false d Hpass) in Hg. discriminate.
  - (* not gated *)
    rewrite (handle_ungated _ _ _ _ _ Hg) in H.
    unfold dispatch in H.
    destruct (eq_str (field d "query_type" (PStr "prediction")) "most_sold")
      eqn:H1.
    { left. split.
      - exact (keeps_handler _ (keeps_most_sold E self (PDict d)) _ _ _ H).
      - intros t Ht. destruct (Hinv t Ht) as (s & st1 & _ & (Hs & _) & _).
        congruence. }
    destruct (eq_str (field d "query_type" (PStr "prediction")) "summary")
      eqn:H2.
    { left. split.
      - exact (keeps_handler _ (keeps_summary E self (PDict d)) _ _ _ H).
      - intros t Ht. destruct (Hinv t Ht) as (s & st1 & _ & (_ & Hs & _) & _).
        congruence. }
    destruct (eq_str (field d "query_type" (PStr "prediction")) "analysis")
      eqn:H3.
    { left. split.
      - exact (keeps_handler _ (keeps_analysis E self (PDict d)) _ _ _ H).
      - intros t Ht. destruct (Hinv t Ht) as (s & st1 & _ & (_ & _ & Hs) & _).
        congruence. }
    destruct (in_ints (field d "item_id" PNone) (available_items self)) eqn:Hi.
    2:{ rewrite (try_except_ok _ _ _ _ _
                   (prediction_unknown_item E self user_query d st Hi)) in H.
        inversion H; subst. left. split; [reflexivity |].
        intros t Ht. destruct (Hinv t Ht) as (s & st1 & _ & _ & Hc & _).
        congruence. }
    destruct (truthy (field d "date" PNone)) eqn:Hd.
    2:{ rewrite (try_except_ok _ _ _ _ _
                   (prediction_no_date E self user_query d st Hi Hd)) in H.
        inversion H; subst. left. split; [reflexivity |].
        intros t Ht.
        destruct (Hinv t Ht) as (s & st1 & _ & _ & _ & Hs & Hp & _).
        rewrite Hs in Hd. destruct s; [now contradiction Hp | discriminate]. }
    destruct (field d "date" PNone) as [| | | | s | |] eqn:Hf.
    5:{ destruct (strptime_ymd s) as [ymd |] eqn:Hp.
        - assert (Hp' : strptime_ymd s <> None) by congruence.
          unfold try_except in H.
          rewrite (prediction_branch_run E self user_query d s st Hi Hf Hp')
            in H.
          destruct (predict_sales E (field d "item_id" PNone) s
                      (logged st (PredictSales (field d "item_id" PNone) s)))
            as [[res | e] st1] eqn:Eps.
          + destruct (generate_response_total E res user_query d)
              as [resp Hresp].
            rewrite Hresp in H. inversion H; subst. right.
            eexists. split; [| split].
            * eapply executed with (d := d) (date_str := s); eauto.
              -- now apply gate_false_passes.
              -- repeat split; assumption.
            * cbn. now rewrite (keeps_predict_sales _ _ _ _ _ _ Eps).
            * reflexivity.
          + cbn in H. inversion H; subst. left. split.
            * now rewrite (keeps_predict_sales _ _ _ _ _ _ Eps).
            * intros t Ht.
              destruct (Hinv t Ht) as (s0 & st0 & _ & _ & _ & Hs & _ & Hr).
              inversion Hs; subst s0. rewrite Eps in Hr. discriminate.
        - assert (Hne : s <> "").
          { intros ->. discriminate. }
          rewrite (try_except_ok _ _ _ _ _
                     (prediction_bad_date E self user_query d s st Hi Hf Hne Hp))
            in H.
          inversion H; subst. left. split; [reflexivity |].
          intros t Ht.
          destruct (Hinv t Ht) as (s0 & st0 & _ & _ & _ & Hs & Hq & _).
          inversion Hs; subst s0. congruence. }
    all: left; split;
      [ try solve [cbn in Hd; discriminate Hd];
        unfold try_except, prediction_branch, bind, lift, raise in H;
        rewrite !get_field, Hi, Hf, Hd in H; cbn in H; now inversion H
      | intros t Ht;
        destruct (Hinv t Ht) as (s0 & st0 & _ & _ & _ & Hs & _); discriminate ].
  - (* the gate raises *)
    unfold handle_parameters, bind, lift in H. rewrite Hg in H.
    inversion H; subst. left. split; [reflexivity |].
    intros t Ht. destruct (Hinv t Ht) as (s & st1 & Hpass & _).
    rewrite (passes_gate_false d Hpass) in Hg. discriminate.
Qed.

Lemma executed_prediction_unique (E : Env) (self : chatbot)
    (user_query : string) (st : state) (t1 t2 : turn) :
  executed_prediction E self user_query st t1 ->
  executed_prediction E self user_query st t2 ->
  t1 = t2.
Proof.
  intros H1 H2. inversion H1; subst. inversion H2; subst.
  repeat match goal with
  | Ha : extract_parameters E user_query = Ok (PDict ?a),
    Hb : extract_parameters E user_query = Ok (PDict ?b) |- _ =>
      assert (a = b) by congruence; subst b; clear Hb
  | Ha : field ?d "date" PNone = PStr ?a,
    Hb : field ?d "date" PNone = PStr ?b |- _ =>
      assert (a = b) by congruence; subst b; clear Hb
  | Ha : predict_sales ?E ?i ?s ?st0 = (Ok ?a, _),
    Hb : predict_sales ?E ?i ?s ?st0 = (Ok ?b, _) |- _ =>
      assert (a = b) by congruence; subst b; clear Hb
  | Ha : generate_response ?E ?p ?q ?d = Ok ?a,
    Hb : generate_response ?E ?p ?q ?d = Ok ?b |- _ =>
      assert (a = b) by congruence; subst b; clear Hb
  end.
  reflexivity.
Qed.

Lemma app_one_neq_self {A : Type} (l : list A) (x : A) : l ++ [x] <> l.
Proof.
  intros H. apply (f_equal (@List.length A)) in H.
  rewrite length_app in H. cbn in H. lia.
Qed.

(** C9. A run of [handle_query] appends exactly one turn -- the query, the
    extracted parameters, the result of [predict_sales] and the response --
    when the query is executed as a prediction, and leaves the history as it
    was in every other case: an analytic query type (most_sold, summary,
    analysis), a gated record, a record rejected by the validation of the
    prediction branch.  The turns already recorded stay in place.  A
    prediction counts as executed when [predict_sales] returns rather than
    raises, whichever string it returns. *)
Theorem history_grows_exactly_by_executed_predictions :
  forall (E : Env) (self : chatbot) (user_query : string) (st st' : state)
         (r : res reply),
    handle_query E self user_query st = (r, st') ->
    ((exists t, conversation_history st' = conversation_history st ++ [t])
     <-> (exists t, executed_prediction E self user_query st t))
    /\ (forall t, executed_prediction E self user_query st t ->
        conversation_history st' = conversation_history st ++ [t]
        /\ query t = user_query
        /\ extract_parameters E user_query = Ok (parameters t)
        /\ r = Ok (Text (response t)))
    /\ ((forall t, ~ executed_prediction E self user_query st t) ->
        conversation_history st' = conversation_history st)
    /\ (forall d, extract_parameters E user_query = Ok (PDict d) ->
        ~ selects_prediction (field d "query_type" (PStr "prediction")) ->
        conversation_history st' = conversation_history st)
    /\ (forall d, extract_parameters E user_query = Ok (PDict d) ->
        gate (PDict d) = Ok true ->
        conversation_history st' = conversation_history st)
    /\ (forall d, extract_parameters E user_query = Ok (PDict d) ->
        in_ints (field d "item_id" PNone) (available_items self) = false
        \/ (forall s, field d "date" PNone = PStr s -> strptime_ymd s = None) ->
        conversation_history st' = conversation_history st)
    /\ (exists added,
          conversation_history st' = conversation_history st ++ added
          /\ (List.length added <= 1)%nat).
Proof.
  intros E self user_query st st' r H.
  pose proof (handle_query_history E self user_query st st' r H) as Hcase.
  assert (Hstay : (forall t, ~ executed_prediction E self user_query st t) ->
            conversation_history st' = conversation_history st).
  { intros Hno. destruct Hcase as [[Hsame _] | (t & Ht & _)];
      [exact Hsame | now contradiction (Hno t)]. }
  split; [| split; [| split; [| split; [| split; [| split]]]]].
  - split.
    + intros (t & Ht).
      destruct Hcase as [[Hsame _] | (t0 & Ht0 & _)]; [| eauto].
      rewrite Hsame in Ht. symmetry in Ht.
      now contradiction (app_one_neq_self _ _ Ht).
    + intros (t & Ht).
      destruct Hcase as [[_ Hno] | (t0 & _ & Happ & _)];
        [now contradiction (Hno t) | eauto].
  - intros t Ht.
    destruct Hcase as [[_ Hno] | (t0 & Ht0 & Happ & Hr)];
      [now contradiction (Hno t) |].
    rewrite (executed_prediction_unique _ _ _ _ _ _ Ht Ht0).
    repeat split; try assumption; inversion Ht0; subst; try reflexivity.
    cbn. assumption.
  - exact Hstay.
  - intros d Hex Hsel. apply Hstay. intros t Ht. inversion Ht; subst.
    apply Hsel.
    match goal with
    | Hd : extract_parameters _ _ = Ok (PDict ?d0) |- _ =>
        rewrite Hex in Hd; inversion Hd; subst d0
    end.
    assumption.
  - intros d Hex Hg. apply Hstay. intros t Ht. inversion Ht; subst.
    match goal with
    | Hd : extract_parameters _ _ = Ok (PDict ?d0) |- _ =>
        rewrite Hex in Hd; inversion Hd; subst d0
    end.
    match goal with
    | Hp : passes_gate d |- _ => rewrite (passes_gate_false d Hp) in Hg
    end.
    discriminate.
  - intros d Hex Hrej. apply Hstay. intros t Ht. inversion Ht; subst.
    match goal with
    | Hd : extract_parameters _ _ = Ok (PDict ?d0) |- _ =>
        rewrite Hex in Hd; inversion Hd; subst d0
    end.
    destruct Hrej as [Hi | Hdate]; [congruence |].
    match goal with
    | Hs : field d "date" PNone = PStr ?s, Hp : strptime_ymd ?s <> None |- _ =>
        exact (Hp (Hdate s Hs))
    end.
  - destruct Hcase as [[Hsame _] | (t & _ & Happ & _)].
    + exists []. rewrite app_nil_r. split; [exact Hsame | cbn; lia].
    + exists [t]. split; [exact Happ | cbn; lia].
Qed.

(** The end-to-end scenario: item 3 on 2024-05-01 is predicted and recorded. *)
Lemma history_grows_witness :
  conversation_history
    (snd (handle_query (answering may_first_request) standard_bot
            "Predict sales for item 3 on 2024-05-01" fresh))
  = conversation_history fresh
    ++ [{| query := "Predict sales for item 3 on 2024-05-01";
           parameters := PDict may_first_request;
           result := [Lit "Actual: 42, Predicted: 40"];
           response := [Lit "Item 3 should sell about 40 units."] |}].
Proof.
  refine (proj1 (proj1 (proj2
    (history_grows_exactly_by_executed_predictions
       (answering may_first_request) standard_bot
       "Predict sales for item 3 on 2024-05-01" fresh
       (snd (handle_query (answering may_first_request) standard_bot
               "Predict sales for item 3 on 2024-05-01" fresh))
       (fst (handle_query (answering may_first_request) standard_bot
               "Predict sales for item 3 on 2024-05-01" fresh)) _)) _ _)).
  - reflexivity.
  - eapply executed with (d := may_first_request) (date_str := "2024-05-01").
    + reflexivity.
    + exists (FFinite 1). repeat split; reflexivity.
    + repeat split; reflexivity.
    + reflexivity.
    + reflexivity.
    + discriminate.
    + vm_compute. reflexivity.
    + reflexivity.
Defined.

(** ** The extractor fails soft *)

Lemma extract_parameters_total (E : Env) (user_query : string) :
  exists parameters, extract_parameters E user_query = Ok parameters.
Proof.
  unfold extract_parameters, rcatch.
  destruct (extract_body E user_query); eauto.
Qed.

(** When nothing of the completion parses, the [except] clause returns
    the fallback record. *)
Lemma failed_extraction (E : Env) (user_query : string) :
  nothing_parses E user_query ->
  extract_parameters E user_query = Ok fallback_parameters.
Proof.
  intros H. unfold extract_parameters, extract_body.
  destruct H as [e H | H | c H Hload Hsearch]; rewrite H; try reflexivity.
  destruct (json_loads E (strip c)) as [p | e] eqn:Hp.
  { now contradiction (Hload p). }
  destruct e; try reflexivity.
  destruct (search_braces (strip c)) as [m |] eqn:Hm; [| reflexivity].
  destruct (json_loads E m) as [p | e] eqn:Hq; [| reflexivity].
  now contradiction (Hsearch m p eq_refl).
Qed.

(** X21. [extract_parameters] never raises.  When the collaborator call
    fails, or [json.loads] raises on its response (on the whole of it and on
    the text between its outer braces), it returns the fallback record: query
    type "prediction", confidence 0.0, [missing_info] made of item_id and
    date, and a clarification prompt.  A response that [json.loads] accepts
    is returned as it was parsed, whether it is an object or not; nothing
    else is ever returned. *)
Theorem extract_parameters_fails_soft :
  forall (E : Env) (user_query : string),
    (nothing_parses E user_query ->
     extract_parameters E user_query = Ok fallback_parameters)
    /\ get fallback_parameters "query_type" PNone = Ok (PStr "prediction")
    /\ get fallback_parameters "confidence" PNone = Ok (PFloat (FFinite 0))
    /\ get fallback_parameters "missing_info" PNone
       = Ok (PList [PStr "item_id"; PStr "date"])
    /\ (exists prompt,
          get fallback_parameters "clarification_needed" PNone
          = Ok (PStr prompt)
          /\ prompt <> "")
    /\ (exists parameters, extract_parameters E user_query = Ok parameters)
    /\ (forall c parameters,
          chat_extract E user_query = Content c ->
          json_loads E (strip c) = Ok parameters ->
          extract_parameters E user_query = Ok parameters)
    /\ (forall parameters,
          extract_parameters E user_query = Ok parameters ->
          parameters = fallback_parameters
          \/ exists c json,
               chat_extract E user_query = Content c
               /\ json_loads E json = Ok parameters
               /\ (json = strip c
                   \/ (json_loads E (strip c) = Raise JSONDecodeError
                       /\ search_braces (strip c) = Some json))).
Proof.
  intros E user_query.
  split; [apply failed_extraction |].
  split; [reflexivity |]. split; [reflexivity |]. split; [reflexivity |].
  split; [eexists; split; [reflexivity | discriminate] |].
  split; [apply extract_parameters_total |].
  unfold extract_parameters, extract_body. split.
  - intros c parameters Hc Hp. now rewrite Hc, Hp.
  - intros parameters.
    destruct (chat_extract E user_query) as [e | | c];
      try (cbn; intros [= <-]; now left).
    destruct (json_loads E (strip c)) as [p | e] eqn:Hp.
    { cbn. intros [= <-]. right. exists c, (strip c). auto. }
    destruct e; try (cbn; intros [= <-]; now left).
    destruct (search_braces (strip c)) as [m |] eqn:Hm;
      [| cbn; intros [= <-]; now left].
    destruct (json_loads E m) as [p | e] eqn:Hq;
      [| cbn; intros [= <-]; now left].
    cbn. intros [= <-]. right. exists c, m. auto.
Qed.

(** A refused connection is answered with the fallback record. *)
Lemma fails_soft_witness :
  extract_parameters (scripted None (Loaded sample_sales) false)
    "sales for item 3?"
  = Ok fallback_parameters.
Proof.
  refine (proj1 (extract_parameters_fails_soft
                   (scripted None (Loaded sample_sales) false)
                   "sales for item 3?") _).
  apply call_fails with (e := Failure "connection refused"). reflexivity.
Defined.

(** C6. The extractor does not fail soft on the completion [null].  It
    is JSON, so [json.loads] succeeds and nothing is caught, and no object is
    recovered from it: [extract_parameters], documented to return a [Dict],
    returns [None] instead of the fallback record, and [handle_query] raises
    on it. *)
Lemma json_null_is_returned_as_it_is :
  chat_extract null_reply "sales for item 3?" = Content "null"
  /\ json_loads null_reply "null" = Ok PNone
  /\ extract_parameters null_reply "sales for item 3?" = Ok PNone
  /\ PNone <> fallback_parameters
  /\ handle_query null_reply standard_bot "sales for item 3?" fresh
     = (Raise AttributeError, fresh).
Proof.
  repeat split; try reflexivity. discriminate.
Qed.

(** ** Empty results *)

Lemma select_map (f : row -> bool) (df : dataframe) :
  select (map f df) df = filter f df.
Proof.
  induction df as [| r df IH]; [reflexivity |].
  cbn. rewrite IH. reflexivity.
Qed.

Lemma series_eq_scalar (E : Env) (column : list Z) (v : pyval) :
  scalar v -> series_eq E column v = Ok (map (eq_int v) column).
Proof.
  destruct v; cbn; intros H; try reflexivity; contradiction.
Qed.

Lemma in_ints_scalar (v : pyval) (items : list Z) :
  in_ints v items = true -> scalar v.
Proof.
  unfold in_ints. intros H. apply existsb_exists in H.
  destruct H as (n & _ & Hn). destruct v; cbn in *; trivial; discriminate.
Qed.

Lemma filter_nil_iff {A : Type} (f : A -> bool) (l : list A) :
  filter f l = [] <-> forall x, In x l -> f x = false.
Proof.
  induction l as [| a l IH]; cbn.
  - split; [intros _ x [] | reflexivity].
  - destruct (f a) eqn:Ha.
    + split; [discriminate |]. intros H.
      specialize (H a (or_introl eq_refl)). congruence.
    + rewrite IH. split.
      * intros H x [-> | Hx]; auto.
      * intros H x Hx. apply H. now right.
Qed.

(** C8. For a validated item id and a date that parses, with the files
    loaded and no row of the table for that item on that date,
    [predict_sales] returns the "no historical data" message as its result;
    the state is returned as it was, so the regression model is not
    invoked. *)
Theorem no_matching_row_is_a_normal_result :
  forall (E : Env) (items : list Z) (item_id : pyval) (date_str : string)
         (df : dataframe) (y m d : Z) (st : state),
    in_ints item_id items = true ->
    strptime_ymd date_str = Some (y, m, d) ->
    load_files E = Loaded df ->
    (forall r, In r df -> is_target item_id y m d r = false) ->
    predict_sales E item_id date_str st
    = (Ok [Lit "No historical data found for Mapped ITEMID "; Val item_id;
           Lit (" on " ++ date_str ++ ".")], st).
Proof.
  intros E items item_id date_str df y m d st Hi Hp Hl Hrows.
  unfold predict_sales. rewrite Hl, Hp.
  unfold bind, lift, target_rows.
  rewrite (series_eq_scalar _ _ _ (in_ints_scalar _ _ Hi)).
  cbn [rbind]. rewrite map_map, select_map.
  assert (Hnil : filter (on_date y m d)
                   (filter (fun r => eq_int item_id (ITEMID_Mapped r)) df) = []).
  { apply filter_nil_iff. intros r Hr. apply filter_In in Hr.
    destruct Hr as [Hin Heq]. specialize (Hrows r Hin).
    unfold is_target in Hrows. rewrite Heq in Hrows. exact Hrows. }
  rewrite Hnil. reflexivity.
Qed.

(** Item 3 has no row on 2024-05-09. *)
Lemma no_matching_row_witness :
  predict_sales (answering may_first_request) (PInt 3) "2024-05-09" fresh
  = (Ok [Lit "No historical data found for Mapped ITEMID "; Val (PInt 3);
         Lit " on 2024-05-09."], fresh).
Proof.
  apply (no_matching_row_is_a_normal_result
           (answering may_first_request) [1; 2; 3] (PInt 3) "2024-05-09"
           sample_sales 2024 5 9 fresh).
  - reflexivity.
  - reflexivity.
  - reflexivity.
  - intros r Hr. cbn in Hr.
    repeat (destruct Hr as [<- | Hr]; [reflexivity |]). contradiction.
Defined.

Lemma filter_if_scalar (E : Env) (column : row -> Z) (v : pyval)
    (df : dataframe) :
  scalar v ->
  filter_if E column v df
  = Ok (filter (fun r => negb (truthy v) || eq_int v (column r)) df).
Proof.
  intros Hv. unfold filter_if. destruct (truthy v) eqn:Ht; cbn [negb orb].
  - rewrite (series_eq_scalar _ _ _ Hv). cbn [rbind].
    now rewrite map_map, select_map.
  - f_equal. symmetry. apply forallb_filter_id.
    now apply forallb_forall.
Qed.


Lemma filter_filter {A : Type} (f g : A -> bool) (l : list A) :
  filter g (filter f l) = filter (fun x => f x && g x) l.
Proof.
  induction l as [| a l IH]; [reflexivity |]. cbn.
  destruct (f a); cbn; [destruct (g a) |]; now rewrite IH.
Qed.








(** ** Month expansion *)

Lemma range_length (lo hi : Z) :
  List.length (range lo hi) = Z.to_nat (hi - lo).
Proof.
  unfold range. now rewrite length_map, length_seq.
Qed.

Lemma one_to_twelve (m : Z) :
  1 <= m <= 12 ->
  m = 1 \/ m = 2 \/ m = 3 \/ m = 4 \/ m = 5 \/ m = 6 \/ m = 7 \/ m = 8
  \/ m = 9 \/ m = 10 \/ m = 11 \/ m = 12.
Proof. lia. Qed.

Ltac each_month H :=
  apply one_to_twelve in H;
  repeat (destruct H as [H | H]; [subst |]); [.. | subst].

Lemma divisible_by_400 (year : Z) : year mod 400 = 0 -> year mod 4 = 0.
Proof.
  intros H. apply Z.mod_divide; [lia |].
  apply Z.divide_trans with 400; [now exists 100 |].
  apply Z.mod_divide; [lia | assumption].
Qed.

(** [calendar.monthrange] agrees with the Gregorian calendar. *)
Lemma days_in_month_gregorian (year month : Z) :
  1 <= month <= 12 -> days_in_month year month = gregorian_days year month.
Proof.
  intros Hm. each_month Hm; try reflexivity.
  unfold days_in_month, gregorian_days, isleap. cbn [mdays Z.eqb Pos.eqb andb].
  destruct (year mod 4 =? 0) eqn:H4, (year mod 100 =? 0) eqn:H100,
    (year mod 400 =? 0) eqn:H400; cbn; try reflexivity;
    rewrite ?Z.eqb_eq, ?Z.eqb_neq in *; exfalso;
    apply H4; now apply divisible_by_400.
Qed.

Lemma month_dates_of_ints (year month : Z) :
  1 <= month <= 12 ->
  month_dates (PInt year) (PInt month) = Ok (dates_of_month year month).
Proof.
  intros Hm. unfold dates_of_month.
  rewrite <- (days_in_month_gregorian year month Hm).
  each_month Hm; reflexivity.
Qed.

Lemma dates_of_month_length (year month : Z) :
  Z.of_nat (List.length (dates_of_month year month)) = gregorian_days year month.
Proof.
  unfold dates_of_month. rewrite length_map, range_length.
  assert (28 <= gregorian_days year month).
  { unfold gregorian_days.
    repeat match goal with |- context [if ?c then _ else _] => destruct c end;
      lia. }
  lia.
Qed.

Lemma truthy_int (n : Z) : n <> 0 -> truthy (PInt n) = true.
Proof.
  intros H. cbn. now apply negb_true_iff, Z.eqb_neq.
Qed.

(** What [_parse_date_input] returns for a text that mentions "may", and
    for one that does not. *)
Lemma parse_date_input_may (now_year : Z) (date_str : string) :
  date_str <> "" ->
  (contains "may" (strip (lower date_str)) = true ->
   _parse_date_input now_year date_str
   = may_dates (resolve_year now_year (strip (lower date_str))))
  /\ (contains "may" (strip (lower date_str)) = false ->
      (List.length (_parse_date_input now_year date_str) <= 1)%nat).
Proof.
  intros Hne. unfold _parse_date_input.
  destruct (String.eqb_spec date_str "") as [-> | _]; [congruence |].
  split; intros Hmay; rewrite Hmay.
  - now destruct (has_whole_word _).
  - rewrite andb_false_r.
    destruct (match_dmy _).
    + destruct (split "-" _) as [| a [| b [| c [| ? ?]]]]; cbn;
        try (destruct (strptime_ymd _) as [[[? ?] ?] |]; cbn); lia.
    + destruct (strptime_ymd _) as [[[? ?] ?] |]; cbn; lia.
Qed.

Lemma may_dates_of_month (year : Z) :
  map PStr (may_dates year) = dates_of_month year 5.
Proof. reflexivity. Qed.

Lemma summary_branch_month (E : Env) (self : chatbot)
    (d : list (string * pyval)) (year month : Z) (st : state) :
  year <> 0 -> 1 <= month <= 12 ->
  field d "month" PNone = PInt month ->
  field d "year" (PInt (now_year E)) = PInt year ->
  summary_branch E self (PDict d) st
  = (Ok (Text (get_sales_summary E (df self) (field d "item_id" PNone)
                 (Some (dates_of_month year month)))),
     logged st (SalesSummary (field d "item_id" PNone)
                  (Some (dates_of_month year month)))).
Proof.
  intros Hy Hm Hfm Hfy. unfold summary_branch, bind, lift.
  rewrite !get_field, Hfm, Hfy.
  rewrite (truthy_int month), (truthy_int year) by lia.
  cbn [andb]. rewrite (month_dates_of_ints year month Hm). reflexivity.
Qed.

Lemma analysis_branch_month (E : Env) (self : chatbot)
    (d : list (string * pyval)) (year month : Z) (st : state) :
  year <> 0 -> 1 <= month <= 12 ->
  field d "month" PNone = PInt month ->
  field d "year" (PInt (now_year E)) = PInt year ->
  analysis_branch E self (PDict d) st
  = (Ok (Text (get_sales_summary E (df self) (field d "item_id" PNone)
                 (Some (dates_of_month year month)))),
     logged st (SalesSummary (field d "item_id" PNone)
                  (Some (dates_of_month year month)))).
Proof.
  intros Hy Hm Hfm Hfy. unfold analysis_branch, bind, lift.
  rewrite !get_field, Hfm, Hfy.
  rewrite (truthy_int month), (truthy_int year) by lia.
  cbn [andb]. rewrite (month_dates_of_ints year month Hm). reflexivity.
Qed.

(** C3, as amended. The dispatcher's expansion of a month, for summary and
    for analysis, lists exactly the days of that month in that year (28, 29,
    30 or 31), and hands that list to [get_sales_summary].  The date
    normaliser expands a text only when it mentions "may", and then always
    to the 31 days of May of the resolved year; any other text yields one
    date at most. *)
Theorem month_expansion_follows_the_calendar :
  forall (E : Env) (self : chatbot) (d : list (string * pyval))
         (year month : Z) (st : state),
    1 <= year <= 9999 ->
    1 <= month <= 12 ->
    field d "month" PNone = PInt month ->
    field d "year" (PInt (now_year E)) = PInt year ->
    let item_id := field d "item_id" PNone in
    let dates := dates_of_month year month in
    Z.of_nat (List.length dates) = gregorian_days year month
    /\ month_dates (PInt year) (PInt month) = Ok dates
    /\ summary_branch E self (PDict d) st
       = (Ok (Text (get_sales_summary E (df self) item_id (Some dates))),
          logged st (SalesSummary item_id (Some dates)))
    /\ analysis_branch E self (PDict d) st
       = (Ok (Text (get_sales_summary E (df self) item_id (Some dates))),
          logged st (SalesSummary item_id (Some dates)))
    /\ (forall now_year text,
          text <> "" ->
          contains "may" (strip (lower text)) = true ->
          map PStr (_parse_date_input now_year text)
          = dates_of_month (resolve_year now_year (strip (lower text))) 5
          /\ List.length (_parse_date_input now_year text) = 31%nat)
    /\ (forall now_year text,
          text <> "" ->
          contains "may" (strip (lower text)) = false ->
          (List.length (_parse_date_input now_year text) <= 1)%nat).
Proof.
  intros E self d year month st Hy Hm Hfm Hfy item_id dates.
  split; [apply dates_of_month_length |].
  split; [now apply month_dates_of_ints |].
  split; [apply summary_branch_month; (lia || assumption) |].
  split; [apply analysis_branch_month; (lia || assumption) |].
  split.
  - intros now_year text Hne Hmay.
    destruct (parse_date_input_may now_year text Hne) as [Hyes _].
    rewrite (Hyes Hmay). split; [apply may_dates_of_month | reflexivity].
  - intros now_year text Hne Hmay.
    destruct (parse_date_input_may now_year text Hne) as [_ Hno]. auto.
Qed.

(** February 2024 is expanded to 29 dates, February 2023 to 28. *)
Lemma month_expansion_witness :
  (Z.of_nat (List.length (dates_of_month 2024 2)) = 29
   /\ month_dates (PInt 2024) (PInt 2) = Ok (dates_of_month 2024 2))
  /\ (Z.of_nat (List.length (dates_of_month 2023 2)) = 28
      /\ month_dates (PInt 2023) (PInt 2) = Ok (dates_of_month 2023 2)).
Proof.
  split.
  - pose proof (month_expansion_follows_the_calendar
                  (answering [("month", PInt 2); ("year", PInt 2024)])
                  standard_bot [("month", PInt 2); ("year", PInt 2024)]
                  2024 2 fresh) as H.
    destruct H as (Hlen & Hdates & _); try reflexivity; try lia.
    split; [exact Hlen | exact Hdates].
  - pose proof (month_expansion_follows_the_calendar
                  (answering [("month", PInt 2); ("year", PInt 2023)])
                  standard_bot [("month", PInt 2); ("year", PInt 2023)]
                  2023 2 fresh) as H.
    destruct H as (Hlen & Hdates & _); try reflexivity; try lia.
    split; [exact Hlen | exact Hdates].
Defined.

(** C3 as stated fails in the date normaliser: "whole february 2024" is not
    expanded at all, where February 2024 has 29 days. *)
Lemma whole_february_is_not_expanded :
  _parse_date_input 2026 "whole february 2024" = []
  /\ gregorian_days 2024 2 = 29
  /\ Z.of_nat (List.length (_parse_date_input 2026 "whole february 2024"))
     <> gregorian_days 2024 2.
Proof.
  repeat split. vm_compute. discriminate.
Qed.

(** ** Numeric dates *)

Lemma all_chars_app (P : ascii -> bool) (s t : string) :
  all_chars P (s ++ t) = all_chars P s && all_chars P t.
Proof.
  induction s as [| c s IH]; [reflexivity |].
  cbn. now rewrite IH, andb_assoc.
Qed.

Lemma all_chars_weaken (P Q : ascii -> bool) (s : string) :
  (forall c, P c = true -> Q c = true) ->
  all_chars P s = true -> all_chars Q s = true.
Proof.
  intros HPQ. induction s as [| c s IH]; [reflexivity |].
  cbn. rewrite !andb_true_iff. intros [Hc Hs]. auto.
Qed.

Lemma is_digit_cases (c : ascii) :
  is_digit c = true ->
  c = "0"%char \/ c = "1"%char \/ c = "2"%char \/ c = "3"%char
  \/ c = "4"%char \/ c = "5"%char \/ c = "6"%char \/ c = "7"%char
  \/ c = "8"%char \/ c = "9"%char.
Proof.
  unfold is_digit, code. intros H. apply andb_true_iff in H.
  destruct H as [Hlo Hhi]. apply Z.leb_le in Hlo, Hhi.
  rewrite <- (ascii_nat_embedding c).
  assert (Hn : (48 <= nat_of_ascii c <= 57)%nat) by lia.
  generalize dependent (nat_of_ascii c). intros n _ _ Hn.
  assert (n = 48 \/ n = 49 \/ n = 50 \/ n = 51 \/ n = 52 \/ n = 53 \/ n = 54
          \/ n = 55 \/ n = 56 \/ n = 57)%nat as Hc by lia.
  repeat (destruct Hc as [-> | Hc]; [auto 10 |]). subst. auto 10.
Qed.

Ltac each_digit H :=
  apply is_digit_cases in H;
  repeat (destruct H as [H | H]; [subst |]); [.. | subst].

Lemma dateish_cases (c : ascii) :
  dateish c = true -> is_digit c = true \/ c = "-"%char.
Proof.
  unfold dateish. intros H. apply orb_true_iff in H.
  destruct H as [H | H]; [now left | right]. now apply Ascii.eqb_eq.
Qed.

Lemma dateish_plain (c : ascii) :
  dateish c = true -> lower_char c = c /\ is_space c = false.
Proof.
  intros H. apply dateish_cases in H. destruct H as [H | ->].
  - each_digit H; split; reflexivity.
  - split; reflexivity.
Qed.

Lemma lower_dateish (s : string) :
  all_chars dateish s = true -> lower s = s.
Proof.
  induction s as [| c s IH]; [reflexivity |].
  cbn. rewrite andb_true_iff. intros [Hc Hs].
  now rewrite (proj1 (dateish_plain c Hc)), IH.
Qed.

Lemma rstrip_no_space (s : string) :
  all_chars (fun c => negb (is_space c)) s = true -> rstrip s = s.
Proof.
  induction s as [| c s IH]; [reflexivity |].
  cbn. rewrite andb_true_iff, negb_true_iff. intros [Hc Hs].
  rewrite (IH Hs), Hc. now destruct s.
Qed.

Lemma lstrip_no_space (s : string) :
  all_chars (fun c => negb (is_space c)) s = true -> lstrip s = s.
Proof.
  destruct s as [| c s]; [reflexivity |].
  cbn. rewrite andb_true_iff, negb_true_iff. now intros [-> _].
Qed.

Lemma strip_dateish (s : string) :
  all_chars dateish s = true -> strip s = s.
Proof.
  intros H.
  assert (Hs : all_chars (fun c => negb (is_space c)) s = true).
  { apply (all_chars_weaken dateish); [| exact H].
    intros c Hc. now rewrite (proj2 (dateish_plain c Hc)). }
  unfold strip. now rewrite (lstrip_no_space s Hs), (rstrip_no_space s Hs).
Qed.

(** A word that starts with a letter does not occur in a numeric date. *)
Lemma contains_dateish (c0 : ascii) (rest s : string) :
  dateish c0 = false ->
  all_chars dateish s = true ->
  contains (String c0 rest) s = false.
Proof.
  intros Hc0. induction s as [| c s IH]; [reflexivity |].
  cbn. rewrite andb_true_iff. intros [Hc Hs].
  rewrite (IH Hs), orb_false_r.
  destruct (ascii_dec c0 c) as [-> | _]; [congruence | reflexivity].
Qed.

Lemma no_month_name (s : string) :
  all_chars dateish s = true ->
  has_whole_word s = false /\ contains "may" s = false.
Proof.
  intros H. unfold has_whole_word. cbn [existsb].
  rewrite !(contains_dateish _ _ s) by (reflexivity || exact H).
  split; reflexivity.
Qed.

Lemma digits_dateish (s : string) :
  digits s = true -> all_chars dateish s = true.
Proof.
  apply all_chars_weaken. intros c Hc. unfold dateish. now rewrite Hc.
Qed.

Lemma split_digits (d rest : string) :
  digits d = true ->
  split "-" (d ++ String "-" rest) = d :: split "-" rest.
Proof.
  induction d as [| c d IH]; [reflexivity |].
  cbn. rewrite andb_true_iff. intros [Hc Hd]. rewrite (IH Hd).
  each_digit Hc; reflexivity.
Qed.

Lemma split_last_digits (y : string) :
  digits y = true -> split "-" y = [y].
Proof.
  induction y as [| c y IH]; [reflexivity |].
  cbn. rewrite andb_true_iff. intros [Hc Hy]. rewrite (IH Hy).
  each_digit Hc; reflexivity.
Qed.

Lemma match_d12_dash_digits (d rest : string) :
  digits d = true ->
  (1 <= String.length d <= 2)%nat ->
  match_d12_dash (d ++ String "-" rest) = Some rest.
Proof.
  intros Hd Hlen.
  destruct d as [| a [| b [| c d]]]; cbn in Hlen; try lia;
    cbn in Hd; rewrite ?andb_true_iff in Hd.
  - destruct Hd as [Ha _]. unfold match_d12_dash. cbn. now rewrite Ha.
  - destruct Hd as [Ha [Hb _]]. unfold match_d12_dash. cbn.
    now rewrite Ha, Hb.
Qed.

Lemma match_d4_digits (y : string) :
  digits y = true -> String.length y = 4%nat -> match_d4 y = true.
Proof.
  intros Hy Hlen.
  destruct y as [| a [| b [| c [| e [| f y]]]]]; cbn in Hlen; try lia.
  cbn in Hy. rewrite !andb_true_iff in Hy.
  destruct Hy as (Ha & Hb & Hc & He & _).
  unfold match_d4. cbn. now rewrite Ha, Hb, Hc, He.
Qed.

(** A numeric [D-M-YYYY] text is reordered, day first, whatever the
    numbers: the parts are not checked against the calendar. *)
Lemma parse_dmy_strings (now_year : Z) (d m y : string) :
  digits d = true -> (1 <= String.length d <= 2)%nat ->
  digits m = true -> (1 <= String.length m <= 2)%nat ->
  digits y = true -> String.length y = 4%nat ->
  _parse_date_input now_year (d ++ "-" ++ m ++ "-" ++ y)
  = [(y ++ "-" ++ zfill 2 m ++ "-" ++ zfill 2 d)%string].
Proof.
  intros Hd Hld Hm Hlm Hy Hly.
  set (s := (d ++ "-" ++ m ++ "-" ++ y)%string).
  assert (Hs : all_chars dateish s = true).
  { subst s. rewrite !all_chars_app.
    rewrite (digits_dateish d Hd), (digits_dateish m Hm), (digits_dateish y Hy).
    reflexivity. }
  unfold _parse_date_input.
  destruct (String.eqb_spec s "") as [He | _].
  { exfalso. subst s. destruct d; cbn in *; [lia | discriminate]. }
  rewrite (lower_dateish s Hs), (strip_dateish s Hs).
  destruct (no_month_name s Hs) as [-> ->]. cbn [andb].
  subst s. cbn [append].
  unfold match_dmy.
  rewrite (match_d12_dash_digits d _ Hd Hld).
  rewrite (match_d12_dash_digits m _ Hm Hlm).
  rewrite (match_d4_digits y Hy Hly).
  rewrite (split_digits d _ Hd), (split_digits m _ Hm), (split_last_digits y Hy).
  reflexivity.
Qed.

Lemma range_In (lo hi k : Z) : lo <= k < hi -> In k (range lo hi).
Proof.
  intros H. unfold range. apply in_map_iff.
  exists (Z.to_nat (k - lo)). split; [lia |].
  apply in_seq. lia.
Qed.

Lemma range_forallb (f : Z -> bool) (lo hi k : Z) :
  forallb f (range lo hi) = true -> lo <= k < hi -> f k = true.
Proof.
  intros Hall Hk. rewrite forallb_forall in Hall.
  apply Hall. now apply range_In.
Qed.

Lemma spelling_two_digits (n : Z) (s : string) :
  1 <= n <= 31 ->
  spelling n s ->
  digits s = true /\ (1 <= String.length s <= 2)%nat /\ zfill 2 s = pad2 n.
Proof.
  intros Hn Hs.
  assert (Hall : forallb spells_two_digits (range 1 32) = true)
    by (vm_compute; reflexivity).
  pose proof (range_forallb _ 1 32 n Hall ltac:(lia)) as H.
  unfold spells_two_digits in H. cbn [forallb] in H.
  rewrite !andb_true_iff in H.
  destruct H as [(((H1 & H2) & H3) & H4) [(((H5 & H6) & H7) & H8) _]].
  apply Nat.leb_le in H2, H3, H6, H7. apply String.eqb_eq in H4, H8.
  destruct Hs as [-> | ->]; auto.
Qed.

Lemma reads_back_all (m d : Z) :
  1 <= m <= 12 -> 1 <= d <= 31 ->
  first_some after_month (match_m (pad2 m ++ "-" ++ pad2 d))
  = Some (m, d, EmptyString).
Proof.
  intros Hm Hd.
  assert (Hall : forallb (fun m => forallb (reads_back m) (range 1 32))
                   (range 1 13) = true)
    by (vm_compute; reflexivity).
  pose proof (range_forallb _ 1 13 m Hall ltac:(lia)) as H1.
  pose proof (range_forallb _ 1 32 d H1 ltac:(lia)) as H2.
  unfold reads_back in H2.
  destruct (first_some after_month _) as [[[m' d'] [| ? ?]] |];
    try discriminate.
  apply andb_true_iff in H2. destruct H2 as [Hm' Hd'].
  apply Z.eqb_eq in Hm', Hd'. now subst.
Qed.

Lemma digit_char_digit (k : Z) :
  0 <= k <= 9 ->
  is_digit (digit_char k) = true /\ digit_value (digit_char k) = k.
Proof.
  intros Hk.
  assert (k = 0 \/ k = 1 \/ k = 2 \/ k = 3 \/ k = 4 \/ k = 5 \/ k = 6
          \/ k = 7 \/ k = 8 \/ k = 9) as H by lia.
  repeat (destruct H as [-> | H]; [split; reflexivity |]).
  subst. split; reflexivity.
Qed.

(** The four digits of a year. *)
Lemma pad4_shape (y : Z) :
  0 <= y <= 9999 ->
  exists a b c e,
    pad4 y = String a (String b (String c (String e EmptyString)))
    /\ is_digit a = true /\ is_digit b = true
    /\ is_digit c = true /\ is_digit e = true
    /\ 1000 * digit_value a + 100 * digit_value b + 10 * digit_value c
       + digit_value e = y.
Proof.
  intros Hy.
  exists (digit_char (y / 1000 mod 10)), (digit_char (y / 100 mod 10)),
         (digit_char (y / 10 mod 10)), (digit_char (y mod 10)).
  split; [reflexivity |].
  assert (H1 : 0 <= y / 1000 mod 10 <= 9) by (pose proof (Z.mod_pos_bound (y / 1000) 10); lia).
  assert (H2 : 0 <= y / 100 mod 10 <= 9) by (pose proof (Z.mod_pos_bound (y / 100) 10); lia).
  assert (H3 : 0 <= y / 10 mod 10 <= 9) by (pose proof (Z.mod_pos_bound (y / 10) 10); lia).
  assert (H4 : 0 <= y mod 10 <= 9) by (pose proof (Z.mod_pos_bound y 10); lia).
  destruct (digit_char_digit _ H1) as [-> ->].
  destruct (digit_char_digit _ H2) as [-> ->].
  destruct (digit_char_digit _ H3) as [-> ->].
  destruct (digit_char_digit _ H4) as [-> ->].
  repeat split. clear H1 H2 H3 H4.
  Z.to_euclidean_division_equations. lia.
Qed.

Lemma pad2_dateish (n : Z) :
  0 <= n <= 99 -> all_chars dateish (pad2 n) = true.
Proof.
  intros Hn. unfold pad2. cbn. unfold dateish.
  assert (H1 : 0 <= n / 10 mod 10 <= 9) by (pose proof (Z.mod_pos_bound (n / 10) 10); lia).
  assert (H2 : 0 <= n mod 10 <= 9) by (pose proof (Z.mod_pos_bound n 10); lia).
  rewrite (proj1 (digit_char_digit _ H1)), (proj1 (digit_char_digit _ H2)).
  reflexivity.
Qed.

Lemma valid_date_bounds (y m d : Z) :
  valid_date y m d = true -> 1 <= y <= 9999 /\ 1 <= m <= 12 /\ 1 <= d <= 31.
Proof.
  unfold valid_date. rewrite !andb_true_iff, !Z.leb_le.
  intros (((((Hy1 & Hy2) & Hm1) & Hm2) & Hd1) & Hd2).
  assert (Hm : 1 <= m <= 12) by lia.
  assert (days_in_month y m <= 31).
  { unfold days_in_month. each_month Hm; cbn;
      try destruct (isleap y); lia. }
  lia.
Qed.

(** A canonical date is passed through. *)
Lemma parse_iso (now_year y m d : Z) :
  valid_date y m d = true ->
  _parse_date_input now_year (strftime_ymd y m d) = [strftime_ymd y m d].
Proof.
  intros Hv. destruct (valid_date_bounds y m d Hv) as (Hy & Hm & Hd).
  destruct (pad4_shape y ltac:(lia)) as (a & b & c & e & Hy4 & Ha & Hb & Hc & He & Hval).
  set (s := strftime_ymd y m d).
  assert (Hs : all_chars dateish s = true).
  { subst s. unfold strftime_ymd. rewrite !all_chars_app.
    rewrite (pad2_dateish m), (pad2_dateish d) by lia.
    rewrite Hy4. cbn. unfold dateish. now rewrite Ha, Hb, Hc, He. }
  unfold _parse_date_input.
  destruct (String.eqb_spec s "") as [Hemp | _].
  { exfalso. subst s. unfold strftime_ymd in Hemp. rewrite Hy4 in Hemp.
    discriminate. }
  rewrite (lower_dateish s Hs), (strip_dateish s Hs).
  destruct (no_month_name s Hs) as [-> ->]. cbn [andb].
  assert (Hdmy : match_dmy s = false).
  { subst s. unfold strftime_ymd. rewrite Hy4. unfold match_dmy, match_d12_dash.
    cbn. rewrite Ha, Hb. each_digit Hc; reflexivity. }
  rewrite Hdmy.
  assert (Hparse : strptime_ymd s = Some (y, m, d)).
  { subst s. unfold strftime_ymd, strptime_ymd, match_ymd. rewrite Hy4.
    cbn [append match_Y]. rewrite Ha, Hb, Hc, He. cbn [andb]. rewrite Hval.
    cbn [expect_dash Ascii.eqb Bool.eqb].
    pose proof (reads_back_all m d Hm Hd) as Hrb. cbn [append] in Hrb.
    rewrite Hrb. now rewrite Hv. }
  rewrite Hparse. reflexivity.
Qed.

Lemma pad2_injective (m d : Z) :
  0 <= m <= 99 -> 0 <= d <= 99 -> pad2 m = pad2 d -> m = d.
Proof.
  intros Hm Hd H. unfold pad2 in H. injection H as H1 H2.
  apply (f_equal digit_value) in H1, H2.
  assert (B1 : 0 <= m / 10 mod 10 <= 9) by (pose proof (Z.mod_pos_bound (m / 10) 10); lia).
  assert (B2 : 0 <= m mod 10 <= 9) by (pose proof (Z.mod_pos_bound m 10); lia).
  assert (B3 : 0 <= d / 10 mod 10 <= 9) by (pose proof (Z.mod_pos_bound (d / 10) 10); lia).
  assert (B4 : 0 <= d mod 10 <= 9) by (pose proof (Z.mod_pos_bound d 10); lia).
  rewrite !(proj2 (digit_char_digit _ B1)), !(proj2 (digit_char_digit _ B3)) in H1.
  rewrite !(proj2 (digit_char_digit _ B2)), !(proj2 (digit_char_digit _ B4)) in H2.
  clear B1 B2 B3 B4. Z.to_euclidean_division_equations. lia.
Qed.

Lemma strftime_day_month (y m d : Z) :
  0 <= y <= 9999 -> 0 <= m <= 99 -> 0 <= d <= 99 ->
  strftime_ymd y m d = strftime_ymd y d m -> m = d.
Proof.
  intros Hy Hm Hd H. unfold strftime_ymd in H.
  destruct (pad4_shape y Hy) as (a & b & c & e & Hp & _).
  rewrite Hp in H. cbn [append] in H. injection H as H1 H2 _ _.
  apply pad2_injective; try assumption.
  unfold pad2. now rewrite H1, H2.
Qed.

(** C5. A numeric text [D-M-YYYY], with the day and the month written
    plainly or zero-padded, is normalised to the single canonical date of
    day D, month M, year YYYY: the first number is the day.  Read month-first
    it would be another string whenever D and M differ.  The canonical
    spelling of the same date normalises to the same result (for the years
    from 1000 on, which [strftime] prints on four digits everywhere). *)
Theorem numeric_dates_are_read_day_first :
  forall (now_year y m d : Z) (ds ms : string),
    1 <= d <= 31 ->
    1 <= m <= 12 ->
    0 <= y <= 9999 ->
    spelling d ds ->
    spelling m ms ->
    _parse_date_input now_year (ds ++ "-" ++ ms ++ "-" ++ pad4 y)
    = [strftime_ymd y m d]
    /\ (d <> m ->
        _parse_date_input now_year (ds ++ "-" ++ ms ++ "-" ++ pad4 y)
        <> [strftime_ymd y d m])
    /\ (valid_date y m d = true ->
        1000 <= y ->
        _parse_date_input now_year (strftime_ymd y m d)
        = _parse_date_input now_year (ds ++ "-" ++ ms ++ "-" ++ pad4 y)).
Proof.
  intros now_year y m d ds ms Hd Hm Hy Hds Hms.
  destruct (spelling_two_digits d ds Hd Hds) as (Dd & Dl & Dz).
  destruct (spelling_two_digits m ms ltac:(lia) Hms) as (Md & Ml & Mz).
  assert (Hyd : digits (pad4 y) = true /\ String.length (pad4 y) = 4%nat).
  { destruct (pad4_shape y Hy) as (a & b & c & e & -> & Ha & Hb & Hc & He & _).
    cbn. now rewrite Ha, Hb, Hc, He. }
  destruct Hyd as [Yd Yl].
  assert (Hmain : _parse_date_input now_year (ds ++ "-" ++ ms ++ "-" ++ pad4 y)
                  = [strftime_ymd y m d]).
  { rewrite (parse_dmy_strings now_year ds ms (pad4 y) Dd Dl Md Ml Yd Yl).
    now rewrite Dz, Mz. }
  split; [exact Hmain |]. split.
  - intros Hne. rewrite Hmain. intros H.
    apply Hne. symmetry. apply (strftime_day_month y m d); try lia.
    congruence.
  - intros Hv _. rewrite Hmain. now apply parse_iso.
Qed.

(** "4-5-2024" is the fourth of May, and so is "2024-05-04". *)
Lemma numeric_dates_witness :
  _parse_date_input 2026 "4-5-2024" = ["2024-05-04"]
  /\ _parse_date_input 2026 "2024-05-04" = _parse_date_input 2026 "4-5-2024".
Proof.
  destruct (numeric_dates_are_read_day_first 2026 2024 5 4 "4" "5")
    as (H1 & _ & H2).
  - lia.
  - lia.
  - lia.
  - left. reflexivity.
  - left. reflexivity.
  - split; [exact H1 | apply H2; [reflexivity | lia]].
Defined.

(** ** The ranking of the most sold items *)


Lemma int64_small (z : Z) : - 2 ^ 63 <= z < 2 ^ 63 -> int64 z = z.
Proof. intros H. unfold int64. rewrite Z.mod_small; lia. Qed.

Lemma int64_add_l (a b : Z) : int64 (int64 a + b) = int64 (a + b).
Proof.
  unfold int64.
  replace ((a + 2 ^ 63) mod 2 ^ 64 - 2 ^ 63 + b + 2 ^ 63)
    with ((a + 2 ^ 63) mod 2 ^ 64 + (b + 2 ^ 63) - 2 ^ 63) by lia.
  replace (a + b + 2 ^ 63) with (a + 2 ^ 63 + (b + 2 ^ 63) - 2 ^ 63) by lia.
  rewrite <- !Z.add_sub_assoc.
  now rewrite Zplus_mod_idemp_l.
Qed.

Lemma int64_add_r (a b : Z) : int64 (a + int64 b) = int64 (a + b).
Proof. rewrite Z.add_comm, int64_add_l. f_equal. lia. Qed.


Lemma fold_add (l : list Z) (a : Z) : fold_left Z.add l a = a + exact_sum l.
Proof.
  unfold exact_sum. revert a.
  induction l as [| x l IH]; intros a; cbn; [lia |].
  rewrite (IH (a + x)), (IH x). lia.
Qed.

Lemma exact_sum_cons (x : Z) (l : list Z) :
  exact_sum (x :: l) = x + exact_sum l.
Proof. unfold exact_sum. cbn. now rewrite fold_add. Qed.

Lemma exact_sum_app (l1 l2 : list Z) :
  exact_sum (l1 ++ l2) = exact_sum l1 + exact_sum l2.
Proof.
  unfold exact_sum. rewrite fold_left_app, fold_add. reflexivity.
Qed.

(** [Series.sum()] is the sum of the integers, wrapped once. *)
Lemma sum_wraps (l : list Z) : sum l = int64 (exact_sum l).
Proof.
  unfold sum.
  assert (H : forall a,
             fold_left (fun a x => int64 (a + x)) l (int64 a)
             = int64 (a + exact_sum l)).
  { induction l as [| x l IH]; intros a; cbn [fold_left].
    - unfold exact_sum. cbn. now rewrite Z.add_0_r.
    - rewrite int64_add_l, IH, exact_sum_cons. f_equal. lia. }
  exact (H 0).
Qed.










Lemma insert_ranked_perm (after_equals : bool) (x : Z * Z) (s : list (Z * Z)) :
  Permutation (x :: s) (insert_ranked after_equals x s).
Proof.
  induction s as [| y s IH]; cbn; [reflexivity |].
  destruct (if after_equals then snd y <? snd x else snd y <=? snd x);
    [reflexivity |].
  rewrite perm_swap. now constructor.
Qed.

Lemma insert_ranked_sorted (after_equals : bool) (x : Z * Z)
    (s : list (Z * Z)) :
  StronglySorted (fun a b => snd b <= snd a) s ->
  StronglySorted (fun a b => snd b <= snd a) (insert_ranked after_equals x s).
Proof.
  induction s as [| y s IH]; cbn; intros Hs.
  - repeat constructor.
  - pose proof (StronglySorted_inv Hs) as [Hs' Hy].
    destruct (if after_equals then snd y <? snd x else snd y <=? snd x)
      eqn:Htest.
    + assert (Hyx : snd y <= snd x).
      { destruct after_equals; [apply Z.ltb_lt in Htest | apply Z.leb_le in Htest];
          lia. }
      constructor; [exact Hs |]. constructor; [exact Hyx |].
      eapply Forall_impl; [| exact Hy]. cbn. intros; lia.
    + assert (Hxy : snd x <= snd y).
      { destruct after_equals; [apply Z.ltb_ge in Htest | apply Z.leb_gt in Htest];
          lia. }
      constructor; [auto |].
      eapply Permutation_Forall; [apply insert_ranked_perm |].
      constructor; assumption.
Qed.

(** Both stub sorts meet what pandas documents of [sort_values]. *)
Lemma sort_ranked_sorts (after_equals : bool) :
  sorts_descending (sort_ranked after_equals).
Proof.
  intros s. unfold sort_ranked. induction s as [| x s [IHp IHs]]; cbn.
  - split; constructor.
  - split.
    + rewrite <- insert_ranked_perm. now constructor.
    + now apply insert_ranked_sorted.
Qed.








(** The rows [find_most_sold_item] keeps are the rows of the period. *)
Lemma period_rows_spec (E : Env) (table : dataframe) (month year : pyval) :
  scalar month -> scalar year ->
  period_rows E table month year = Ok (filter (in_period month year) table).
Proof.
  intros Hm Hy. unfold period_rows.
  rewrite (filter_if_scalar _ _ _ _ Hm). cbn [rbind].
  rewrite (filter_if_scalar _ _ _ _ Hy). now rewrite filter_filter.
Qed.




(** The contract of [sort_values] alone leaves the order of equal totals
    open: a sort that meets it may list item 2 before item 1 when both sold
    10 units. *)
Remark contract_leaves_ties_open :
  sorts_descending (sort_ranked true)
  /\ sort_ranked true (groupby_sum sample_sales) = [(3, 42); (2, 10); (1, 10)].
Proof.
  split; [apply sort_ranked_sorts | reflexivity].
Qed.

(* ------------------------------------------------------------------ *)
(** * Further properties *)

(** ** Recovery of a JSON object wrapped in prose *)

Lemma append_assoc (a b c : string) :
  ((a ++ b) ++ c)%string = (a ++ b ++ c)%string.
Proof.
  induction a as [| x a IH]; [reflexivity |]. cbn. now rewrite IH.
Qed.

Lemma from_first_brace_app (pre rest : string) :
  no_char "{" pre = true ->
  from_first_brace (pre ++ String "{" rest) = Some (String "{" rest).
Proof.
  unfold no_char. induction pre as [| c pre IH]; [reflexivity |].
  cbn. rewrite andb_true_iff, negb_true_iff. intros [-> Hpre]. auto.
Qed.

Lemma upto_last_brace_none (post : string) :
  no_char "}" post = true -> upto_last_brace post = None.
Proof.
  unfold no_char. induction post as [| c post IH]; [reflexivity |].
  cbn. rewrite andb_true_iff, negb_true_iff. intros [-> Hpost].
  now rewrite (IH Hpost).
Qed.

Lemma upto_last_brace_app (body post : string) :
  no_char "}" post = true ->
  upto_last_brace (body ++ String "}" post) = Some (body ++ "}")%string.
Proof.
  intros Hpost. induction body as [| c body IH]; cbn.
  - now rewrite (upto_last_brace_none post Hpost).
  - now rewrite IH.
Qed.

Lemma from_first_brace_inv (s t : string) :
  from_first_brace s = Some t ->
  exists pre rest,
    s = (pre ++ t)%string /\ t = String "{" rest /\ no_char "{" pre = true.
Proof.
  induction s as [| c s IH]; cbn; [discriminate |].
  destruct (Ascii.eqb c "{") eqn:Hc.
  - intros [= <-]. apply Ascii.eqb_eq in Hc. subst c.
    exists EmptyString, s. auto.
  - intros H. destruct (IH H) as (pre & rest & -> & -> & Hpre).
    exists (String c pre), rest. repeat split.
    unfold no_char in *. cbn. now rewrite Hc, Hpre.
Qed.

Lemma upto_last_brace_inv (t m : string) :
  upto_last_brace t = Some m ->
  exists body post,
    t = (m ++ post)%string /\ m = (body ++ "}")%string
    /\ no_char "}" post = true.
Proof.
  revert m. induction t as [| c t IH]; cbn; intros m; [discriminate |].
  destruct (upto_last_brace t) as [r |] eqn:Hr.
  - intros [= <-]. destruct (IH r eq_refl) as (body & post & -> & -> & Hpost).
    exists (String c body), post. auto.
  - destruct (Ascii.eqb c "}") eqn:Hc; [| discriminate].
    intros [= <-]. apply Ascii.eqb_eq in Hc. subst c.
    exists EmptyString, t. repeat split.
    clear IH. unfold no_char. induction t as [| x t IHt]; [reflexivity |].
    cbn in Hr |- *. destruct (upto_last_brace t); [discriminate |].
    destruct (Ascii.eqb x "}"); [discriminate |]. cbn. now apply IHt.
Qed.

Lemma brace_shape (pre body post : string) :
  (pre ++ (String "{" body ++ "}") ++ post)%string
  = (pre ++ String "{" (body ++ String "}" post))%string.
Proof.
  f_equal. cbn. f_equal. apply append_assoc.
Qed.

Lemma search_braces_found (pre body post : string) :
  no_char "{" pre = true ->
  no_char "}" post = true ->
  search_braces (pre ++ (String "{" body ++ "}") ++ post)
  = Some (String "{" body ++ "}")%string.
Proof.
  intros Hpre Hpost. unfold search_braces.
  rewrite brace_shape, (from_first_brace_app pre _ Hpre).
  exact (upto_last_brace_app (String "{" body) post Hpost).
Qed.

Lemma search_braces_inv (content m : string) :
  search_braces content = Some m ->
  exists pre body post,
    content = (pre ++ m ++ post)%string
    /\ m = (String "{" body ++ "}")%string
    /\ no_char "{" pre = true
    /\ no_char "}" post = true.
Proof.
  unfold search_braces.
  destruct (from_first_brace content) as [t |] eqn:Ht; [| discriminate].
  intros Hm.
  destruct (from_first_brace_inv _ _ Ht) as (pre & rest & -> & -> & Hpre).
  destruct (upto_last_brace_inv _ _ Hm) as (body & post & Ht' & -> & Hpost).
  destruct body as [| b body].
  - (* the brace found would be the opening one itself *)
    cbn in Ht'. discriminate.
  - cbn in Ht'. injection Ht' as <- Hrest.
    exists pre, body, post. cbn. rewrite Hrest. auto.
Qed.

(** X1. [re.search(r'\{.*\}', content, re.DOTALL)] finds exactly the text
    from the first opening brace of the content to its last closing brace,
    when the one comes before the other. *)
Theorem search_braces_spans_first_to_last :
  forall (content m : string),
    search_braces content = Some m
    <-> exists pre body post,
          content = (pre ++ m ++ post)%string
          /\ m = (String "{" body ++ "}")%string
          /\ no_char "{" pre = true
          /\ no_char "}" post = true.
Proof.
  intros content m. split.
  - apply search_braces_inv.
  - intros (pre & body & post & -> & -> & Hpre & Hpost).
    now apply search_braces_found.
Qed.

(** X2. A completion that is not JSON as a whole but carries one object
    between its first opening and last closing brace is answered with that
    object: the prose around it is dropped. *)
Theorem wrapped_object_is_recovered :
  forall (E : Env) (user_query c pre body post : string) (p : pyval),
    chat_extract E user_query = Content c ->
    strip c = (pre ++ (String "{" body ++ "}") ++ post)%string ->
    no_char "{" pre = true ->
    no_char "}" post = true ->
    json_loads E (strip c) = Raise JSONDecodeError ->
    json_loads E (String "{" body ++ "}") = Ok p ->
    extract_parameters E user_query = Ok p.
Proof.
  intros E user_query c pre body post p Hc Hs Hpre Hpost Hall Hobj.
  unfold extract_parameters, extract_body. rewrite Hc, Hall.
  rewrite Hs, (search_braces_found pre body post Hpre Hpost), Hobj.
  reflexivity.
Qed.

Lemma wrapped_object_witness :
  extract_parameters (chatty may_first_request) "predict item 3"
  = Ok (PDict may_first_request).
Proof.
  apply (wrapped_object_is_recovered (chatty may_first_request)
           "predict item 3" "Sure! Here it is: {json} Hope this helps."
           "Sure! Here it is: " "json" " Hope this helps.").
  - reflexivity.
  - reflexivity.
  - reflexivity.
  - reflexivity.
  - reflexivity.
  - reflexivity.
Defined.

(** ** The dispatcher: failures, operations invoked, periods *)

(** X3. When the completion call fails, or [json.loads] raises on the
    completion (on the whole of it and on the text between its outer
    braces), the user is asked to restate the request: [handle_query] answers
    with the clarification of the fallback record, invokes no operation and
    records nothing.  A completion that [json.loads] accepts but that is no
    object (null, a number, a list) is no such failure: nothing is asked, and
    [handle_query] raises [AttributeError]. *)
Theorem failed_extraction_asks_to_restate :
  forall (E : Env) (self : chatbot) (user_query : string) (st : state),
    (nothing_parses E user_query ->
     handle_query E self user_query st = (Ok (Value could_not_understand), st))
    /\ (forall c parameters,
          chat_extract E user_query = Content c ->
          json_loads E (strip c) = Ok parameters ->
          (forall d, parameters <> PDict d) ->
          handle_query E self user_query st = (Raise AttributeError, st)).
Proof.
  intros E self user_query st. split.
  - intros H.
    rewrite (handle_query_extracted _ _ _ _ _ (failed_extraction _ _ H)).
    reflexivity.
  - intros c parameters Hc Hp Hnd.
    assert (Hex : extract_parameters E user_query = Ok parameters).
    { unfold extract_parameters, extract_body. now rewrite Hc, Hp. }
    rewrite (handle_query_extracted _ _ _ _ _ Hex).
    destruct parameters; try reflexivity. now contradiction (Hnd d).
Qed.

Lemma failed_extraction_witness :
  handle_query (scripted None (Loaded sample_sales) false) standard_bot
    "sales for item 3?" fresh
  = (Ok (Value could_not_understand), fresh)
  /\ handle_query null_reply standard_bot "sales for item 3?" fresh
     = (Raise AttributeError, fresh).
Proof.
  split.
  - apply (proj1 (failed_extraction_asks_to_restate
                    (scripted None (Loaded sample_sales) false) standard_bot
                    "sales for item 3?" fresh)).
    apply call_fails with (e := Failure "connection refused"). reflexivity.
  - apply (proj2 (failed_extraction_asks_to_restate
                    null_reply standard_bot "sales for item 3?" fresh)
             "null" PNone); [reflexivity | reflexivity | discriminate].
Defined.

Lemma handler_returns (body : M reply) (st : state) :
  exists r st',
    try_except body (fun e => ret (processing_error e)) st = (Ok r, st').
Proof.
  unfold try_except. destruct (body st) as [[r | e] st1].
  - eauto.
  - unfold ret. eauto.
Qed.

Lemma handle_record_returns (E : Env) (self : chatbot) (user_query : string)
    (d : list (string * pyval)) (x : pyfloat) (st : state) :
  number (field d "confidence" (PInt 0)) = Some x ->
  exists r st', handle_parameters E self user_query (PDict d) st = (Ok r, st').
Proof.
  intros Hx. unfold handle_parameters, bind, lift.
  rewrite (gate_of_record d x Hx).
  destruct (float_lt x (FFinite (1 # 2)) || truthy (field d "missing_info" PNone)).
  - rewrite get_field. unfold ret. eauto.
  - rewrite get_field. apply handler_returns.
Qed.

(** X4. [handle_query] lets an exception escape in two cases only, both
    at the gate and both before anything is invoked or recorded: the
    extracted value is not a dict ([AttributeError]), or its confidence is
    not a number ([TypeError]).  Every failure past the gate is turned into a
    reply. *)
Theorem handle_query_raises_only_at_the_gate :
  forall (E : Env) (self : chatbot) (user_query : string) (st st' : state)
         (e : exn),
    handle_query E self user_query st = (Raise e, st')
    <-> st' = st
        /\ exists p,
             extract_parameters E user_query = Ok p
             /\ (((forall d, p <> PDict d) /\ e = AttributeError)
                 \/ (exists d, p = PDict d
                               /\ number (field d "confidence" (PInt 0)) = None
                               /\ e = TypeError)).
Proof.
  intros E self user_query st st' e.
  destruct (extract_parameters_total E user_query) as [p Hex].
  rewrite (handle_query_extracted _ _ _ _ _ Hex).
  split.
  - intros H. destruct p as [| b | n | x | s | l | d];
      try (unfold handle_parameters, bind, lift, gate in H; cbn in H;
           injection H as <- <-; split; [reflexivity |];
           eexists; split; [exact Hex | left; split; [discriminate | reflexivity]]).
    destruct (number (field d "confidence" (PInt 0))) as [x |] eqn:Hx.
    + destruct (handle_record_returns E self user_query d x st Hx)
        as (r & st1 & Hr). congruence.
    + unfold handle_parameters, bind, lift, gate in H.
      rewrite get_field in H. cbn [rbind] in H. unfold lt_float in H.
      rewrite Hx in H. cbn in H. injection H as <- <-.
      split; [reflexivity |]. eexists. split; [exact Hex |].
      right. exists d. auto.
  - intros (-> & p' & Hp' & Hcase).
    assert (p' = p) by congruence. subst p'.
    destruct Hcase as [[Hnd ->] | (d & -> & Hx & ->)].
    + destruct p; try reflexivity. now contradiction (Hnd d).
    + unfold handle_parameters, bind, lift, gate.
      rewrite get_field. cbn [rbind]. unfold lt_float. rewrite Hx. reflexivity.
Qed.

Lemma eq_str_true (v : pyval) (s : string) :
  eq_str v s = true -> v = PStr s.
Proof.
  destruct v; cbn; try discriminate. intros H.
  apply String.eqb_eq in H. now subst.
Qed.

Lemma most_sold_branch_run (E : Env) (self : chatbot)
    (d : list (string * pyval)) (st : state) :
  most_sold_branch E self (PDict d) st
  = (Ok (Text (find_most_sold_item E (df self)
                 (field d "period_description" PNone)
                 (field d "month" PNone)
                 (field d "year" (PInt (now_year E))))),
     logged st (FindMostSold (field d "period_description" PNone)
                  (field d "month" PNone)
                  (field d "year" (PInt (now_year E))))).
Proof.
  unfold most_sold_branch, bind, lift. rewrite !get_field. reflexivity.
Qed.

Lemma summary_branch_events (E : Env) (self : chatbot)
    (d : list (string * pyval)) (st st' : state) (r : res reply) :
  summary_branch E self (PDict d) st = (r, st') ->
  st' = st
  \/ exists dates,
       st' = logged st (SalesSummary (field d "item_id" PNone) dates).
Proof.
  unfold summary_branch, bind, lift. rewrite !get_field.
  destruct (truthy _ && truthy _).
  - destruct (month_dates _ _) as [ds | e]; cbn; intros [= <- <-];
      [right; eexists; reflexivity | now left].
  - destruct (truthy (field d "date" PNone)); cbn; intros [= <- <-];
      right; eexists; reflexivity.
Qed.

Lemma analysis_branch_events (E : Env) (self : chatbot)
    (d : list (string * pyval)) (st st' : state) (r : res reply) :
  analysis_branch E self (PDict d) st = (r, st') ->
  st' = st
  \/ exists dates,
       st' = logged st (SalesSummary (field d "item_id" PNone) dates).
Proof.
  unfold analysis_branch, bind, lift. rewrite !get_field.
  destruct (truthy _ && truthy _).
  - destruct (month_dates _ _) as [ds | e]; cbn; intros [= <- <-];
      [right; eexists; reflexivity | now left].
  - cbn. intros [= <- <-]. now left.
Qed.

Lemma predict_sales_events (E : Env) (item_id : pyval) (date_str : string)
    (st st' : state) (r : res text) :
  predict_sales E item_id date_str st = (r, st') ->
  st' = st \/ exists features, st' = logged st (ModelPredict features).
Proof.
  unfold predict_sales.
  destruct (load_files E) as [path | e | table];
    try (cbn; intros [= <- <-]; now left).
  destruct (strptime_ymd date_str) as [[[y m] d] |];
    [| cbn; intros [= <- <-]; now left].
  unfold bind, lift.
  destruct (target_rows E table item_id y m d) as [[| row rows] | e];
    try (cbn; intros [= <- <-]; now left).
  unfold log.
  destruct (model_predict E (features_for_prediction row)) as [x | e];
    [| cbn; intros [= <- <-]; right; eexists; reflexivity].
  destruct (int_round x); cbn; intros [= <- <-]; right; eexists; reflexivity.
Qed.

Lemma prediction_branch_events (E : Env) (self : chatbot)
    (user_query : string) (d : list (string * pyval)) (st st' : state)
    (r : res reply) :
  prediction_branch E self user_query (PDict d) st = (r, st') ->
  invoked st' = invoked st
  \/ exists s,
       invoked st'
       = invoked st ++ [PredictSales (field d "item_id" PNone) s]
       \/ exists features,
            invoked st'
            = invoked st ++ [PredictSales (field d "item_id" PNone) s;
                             ModelPredict features].
Proof.
  destruct (in_ints (field d "item_id" PNone) (available_items self)) eqn:Hi.
  2:{ rewrite (prediction_unknown_item E self user_query d st Hi).
      intros [= <- <-]. now left. }
  destruct (truthy (field d "date" PNone)) eqn:Hd.
  2:{ rewrite (prediction_no_date E self user_query d st Hi Hd).
      intros [= <- <-]. now left. }
  destruct (field d "date" PNone) as [| b | n | x | s | l | d'] eqn:Hf.
  5:{ destruct (strptime_ymd s) as [ymd |] eqn:Hp.
      - assert (Hp' : strptime_ymd s <> None) by congruence.
        rewrite (prediction_branch_run E self user_query d s st Hi Hf Hp').
        destruct (predict_sales _ _ _ _) as [res st1] eqn:Eps.
        apply predict_sales_events in Eps.
        assert (Hst1 : invoked st1
                       = invoked st ++ [PredictSales (field d "item_id" PNone) s]
                       \/ exists features,
                            invoked st1
                            = invoked st ++ [PredictSales (field d "item_id" PNone) s;
                                             ModelPredict features]).
        { destruct Eps as [-> | (f & ->)]; cbn; [now left | right].
          exists f. now rewrite <- app_assoc. }
        destruct res as [res | e].
        + destruct (generate_response_total E res user_query d) as [resp ->].
          intros [= <- <-]. right. exists s. exact Hst1.
        + intros [= <- <-]. right. exists s. exact Hst1.
      - assert (Hne : s <> "") by (intros ->; discriminate).
        rewrite (prediction_bad_date E self user_query d s st Hi Hf Hne Hp).
        intros [= <- <-]. now left. }
  all: try solve [cbn in Hd; discriminate Hd];
    unfold prediction_branch, bind, lift, raise;
    rewrite !get_field, Hi, Hf, Hd; cbn; intros [= <- <-]; now left.
Qed.

Lemma logged_invoked (st : state) (ev : event) :
  invoked (logged st ev) = invoked st ++ [ev].
Proof. reflexivity. Qed.

Lemma handler_state (body : M reply) (st st' : state) (r : res reply) :
  try_except body (fun e => ret (processing_error e)) st = (r, st') ->
  exists r0, body st = (r0, st').
Proof.
  unfold try_except, ret. destruct (body st) as [[a | e] st1];
    intros [= <- <-]; eauto.
Qed.

(** X5. A query invokes at most one analytics operation, and the one of
    its query type: [find_most_sold_item] for "most_sold",
    [get_sales_summary] for "summary" and "analysis", [predict_sales] for
    everything else; the regression model is only ever invoked after
    [predict_sales], and once. *)
Theorem one_operation_per_query :
  forall (E : Env) (self : chatbot) (user_query : string) (st st' : state)
         (r : res reply),
    handle_query E self user_query st = (r, st') ->
    invoked st' = invoked st
    \/ exists d,
         extract_parameters E user_query = Ok (PDict d)
         /\ passes_gate d
         /\ let query_type := field d "query_type" (PStr "prediction") in
            let item_id := field d "item_id" PNone in
            (query_type = PStr "most_sold"
             /\ exists period month year,
                  invoked st'
                  = invoked st ++ [FindMostSold period month year])
            \/ ((query_type = PStr "summary" \/ query_type = PStr "analysis")
                /\ exists dates,
                     invoked st' = invoked st ++ [SalesSummary item_id dates])
            \/ (selects_prediction query_type
                /\ exists s,
                     invoked st' = invoked st ++ [PredictSales item_id s]
                     \/ exists features,
                          invoked st'
                          = invoked st ++ [PredictSales item_id s;
                                           ModelPredict features]).
Proof.
  intros E self user_query st st' r H.
  destruct (extract_parameters_total E user_query) as [p Hex].
  rewrite (handle_query_extracted _ _ _ _ _ Hex) in H.
  destruct p as [| b | n | x | s | l | d];
    try (unfold handle_parameters, bind, lift, gate in H; cbn in H;
         injection H as <- <-; now left).
  destruct (gate (PDict d)) as [[|] | e] eqn:Hg.
  - unfold handle_parameters, bind, lift in H. rewrite Hg, get_field in H.
    injection H as <- <-. now left.
  - rewrite (handle_ungated _ _ _ _ _ Hg) in H.
    pose proof (gate_false_passes d Hg) as Hpass.
    apply handler_state in H. destruct H as [r0 H]. unfold dispatch in H.
    destruct (eq_str (field d "query_type" (PStr "prediction")) "most_sold")
      eqn:H1.
    { rewrite most_sold_branch_run in H. injection H as _ <-.
      right. exists d. split; [exact Hex |]. split; [exact Hpass |].
      cbv zeta. left. split; [now apply eq_str_true |].
      do 3 eexists. reflexivity. }
    destruct (eq_str (field d "query_type" (PStr "prediction")) "summary")
      eqn:H2.
    { apply summary_branch_events in H.
      destruct H as [-> | (dates & ->)]; [now left |].
      right. exists d. split; [exact Hex |]. split; [exact Hpass |].
      cbv zeta. right. left. split; [left; now apply eq_str_true |].
      eexists. reflexivity. }
    destruct (eq_str (field d "query_type" (PStr "prediction")) "analysis")
      eqn:H3.
    { apply analysis_branch_events in H.
      destruct H as [-> | (dates & ->)]; [now left |].
      right. exists d. split; [exact Hex |]. split; [exact Hpass |].
      cbv zeta. right. left. split; [right; now apply eq_str_true |].
      eexists. reflexivity. }
    apply prediction_branch_events in H.
    destruct H as [Hsame | Hrun]; [now left |].
    right. exists d. split; [exact Hex |]. split; [exact Hpass |].
    cbv zeta. right. right. split; [repeat split; assumption | exact Hrun].
  - unfold handle_parameters, bind, lift in H. rewrite Hg in H.
    injection H as <- <-. now left.
Qed.

Lemma one_operation_witness :
  let E := answering may_first_request in
  let user_query := "Predict sales for item 3 on 2024-05-01" in
  let st' := snd (handle_query E standard_bot user_query fresh) in
  invoked st' = invoked fresh
  \/ exists d,
       extract_parameters E user_query = Ok (PDict d)
       /\ passes_gate d
       /\ let query_type := field d "query_type" (PStr "prediction") in
          let item_id := field d "item_id" PNone in
          (query_type = PStr "most_sold"
           /\ exists period month year,
                invoked st'
                = invoked fresh ++ [FindMostSold period month year])
          \/ ((query_type = PStr "summary" \/ query_type = PStr "analysis")
              /\ exists dates,
                   invoked st' = invoked fresh ++ [SalesSummary item_id dates])
          \/ (selects_prediction query_type
              /\ exists s,
                   invoked st' = invoked fresh ++ [PredictSales item_id s]
                   \/ exists features,
                        invoked st'
                        = invoked fresh ++ [PredictSales item_id s;
                                            ModelPredict features]).
Proof.
  exact (one_operation_per_query (answering may_first_request) standard_bot
           "Predict sales for item 3 on 2024-05-01" fresh
           (snd (handle_query (answering may_first_request) standard_bot
                   "Predict sales for item 3 on 2024-05-01" fresh))
           (fst (handle_query (answering may_first_request) standard_bot
                   "Predict sales for item 3 on 2024-05-01" fresh))
           eq_refl).
Defined.

(** X6. Without a month, an analysis is refused and nothing is invoked,
    while a summary still runs: over the record's single date when it has
    one, and over every date of the table otherwise. *)
Theorem summary_runs_without_a_period_analysis_does_not :
  forall (E : Env) (self : chatbot) (user_query : string)
         (d : list (string * pyval)) (st : state),
    extract_parameters E user_query = Ok (PDict d) ->
    passes_gate d ->
    truthy (field d "month" PNone) = false ->
    let query_type := field d "query_type" (PStr "prediction") in
    let item_id := field d "item_id" PNone in
    let date := field d "date" PNone in
    (query_type = PStr "analysis" ->
     handle_query E self user_query st = (Ok period_please, st))
    /\ (query_type = PStr "summary" ->
        truthy date = false ->
        handle_query E self user_query st
        = (Ok (Text (get_sales_summary E (df self) item_id None)),
           logged st (SalesSummary item_id None)))
    /\ (query_type = PStr "summary" ->
        truthy date = true ->
        handle_query E self user_query st
        = (Ok (Text (get_sales_summary E (df self) item_id (Some [date]))),
           logged st (SalesSummary item_id (Some [date])))).
Proof.
  intros E self user_query d st Hex Hpass Hm query_type item_id date.
  rewrite (handle_query_extracted _ _ _ _ _ Hex).
  rewrite (handle_ungated _ _ _ _ _ (passes_gate_false d Hpass)).
  fold query_type. split; [| split].
  - intros ->. apply try_except_ok.
    unfold dispatch. cbn [eq_str String.eqb Ascii.eqb Bool.eqb].
    unfold analysis_branch, bind, lift. rewrite !get_field, Hm. reflexivity.
  - intros -> Hd. apply try_except_ok.
    unfold dispatch. cbn [eq_str String.eqb Ascii.eqb Bool.eqb].
    unfold summary_branch, bind, lift. rewrite !get_field, Hm.
    fold date. rewrite Hd. reflexivity.
  - intros -> Hd. apply try_except_ok.
    unfold dispatch. cbn [eq_str String.eqb Ascii.eqb Bool.eqb].
    unfold summary_branch, bind, lift. rewrite !get_field, Hm.
    fold date. rewrite Hd. reflexivity.
Qed.

Lemma summary_without_period_witness :
  handle_query (answering [("query_type", PStr "analysis");
                           ("item_id", PInt 3);
                           ("confidence", PFloat (FFinite 1))])
    standard_bot "analyse item 3" fresh
  = (Ok period_please, fresh).
Proof.
  refine (proj1 (summary_runs_without_a_period_analysis_does_not
                   (answering [("query_type", PStr "analysis");
                               ("item_id", PInt 3);
                               ("confidence", PFloat (FFinite 1))])
                   standard_bot "analyse item 3"
                   [("query_type", PStr "analysis"); ("item_id", PInt 3);
                    ("confidence", PFloat (FFinite 1))] fresh _ _ _) _).
  - reflexivity.
  - exists (FFinite 1). repeat split; reflexivity.
  - reflexivity.
  - reflexivity.
Defined.

Lemma eq_int_of_int (n z : Z) : eq_int (PInt n) z = (n =? z).
Proof.
  unfold eq_int. cbn [number].
  destruct (Qeq_bool (inject_Z n) (inject_Z z)) eqn:Hq.
  - apply Qeq_bool_iff in Hq. unfold Qeq in Hq. cbn in Hq.
    symmetry. apply Z.eqb_eq. lia.
  - destruct (Z.eqb_spec n z) as [-> | Hne]; [| reflexivity].
    assert (Qeq_bool (inject_Z z) (inject_Z z) = true)
      by (apply Qeq_bool_iff; reflexivity).
    congruence.
Qed.

(** X7. "Most sold in month m" without a year means month m of the
    current year; with an explicit null year it means month m of every
    year. *)
Theorem most_sold_defaults_to_the_current_year :
  forall (E : Env) (self : chatbot) (user_query : string)
         (d : list (string * pyval)) (m : Z) (table : dataframe) (st : state),
    extract_parameters E user_query = Ok (PDict d) ->
    passes_gate d ->
    field d "query_type" (PStr "prediction") = PStr "most_sold" ->
    field d "month" PNone = PInt m ->
    m <> 0 ->
    now_year E <> 0 ->
    df self = Some table ->
    let period := field d "period_description" PNone in
    let year := field d "year" (PInt (now_year E)) in
    handle_query E self user_query st
    = (Ok (Text (find_most_sold_item E (Some table) period (PInt m) year)),
       logged st (FindMostSold period (PInt m) year))
    /\ (lookup "year" d = None ->
        period_rows E table (PInt m) year
        = Ok (filter (fun r => (ts_month (ORDERDATE r) =? m)
                               && (ts_year (ORDERDATE r) =? now_year E))
                table))
    /\ (lookup "year" d = Some PNone ->
        period_rows E table (PInt m) year
        = Ok (filter (fun r => ts_month (ORDERDATE r) =? m) table)).
Proof.
  intros E self user_query d m table st Hex Hpass Hqt Hm Hm0 Hy0 Hdf period year.
  split; [| split].
  - rewrite (handle_query_extracted _ _ _ _ _ Hex).
    rewrite (handle_ungated _ _ _ _ _ (passes_gate_false d Hpass)).
    apply try_except_ok. unfold dispatch. rewrite Hqt.
    cbn [eq_str String.eqb Ascii.eqb Bool.eqb].
    rewrite most_sold_branch_run, Hm, Hdf. reflexivity.
  - intros Hl. unfold year, field. rewrite Hl.
    rewrite period_rows_spec by exact I. f_equal.
    apply filter_ext. intros r. unfold in_period.
    rewrite !truthy_int, !eq_int_of_int by assumption. cbn [negb orb].
    now rewrite (Z.eqb_sym m), (Z.eqb_sym (now_year E)).
  - intros Hl. unfold year, field. rewrite Hl.
    rewrite period_rows_spec by exact I. f_equal.
    apply filter_ext. intros r. unfold in_period.
    rewrite truthy_int, eq_int_of_int by assumption. cbn [negb orb truthy].
    now rewrite andb_true_r, (Z.eqb_sym m).
Qed.

Lemma most_sold_default_witness :
  period_rows (answering [("query_type", PStr "most_sold");
                          ("month", PInt 5);
                          ("confidence", PFloat (FFinite 1))])
    sample_sales (PInt 5) (PInt 2025)
  = Ok [].
Proof.
  refine (proj1 (proj2 (most_sold_defaults_to_the_current_year
                   (answering [("query_type", PStr "most_sold");
                               ("month", PInt 5);
                               ("confidence", PFloat (FFinite 1))])
                   standard_bot "most sold item in may"
                   [("query_type", PStr "most_sold"); ("month", PInt 5);
                    ("confidence", PFloat (FFinite 1))]
                   5 sample_sales fresh _ _ _ _ _ _ _)) _).
  - reflexivity.
  - exists (FFinite 1). repeat split; reflexivity.
  - reflexivity.
  - reflexivity.
  - discriminate.
  - discriminate.
  - reflexivity.
  - reflexivity.
Defined.

(** ** [predict_sales] *)

Lemma target_rows_scalar (E : Env) (table : dataframe) (item_id : pyval)
    (y m d : Z) :
  scalar item_id ->
  target_rows E table item_id y m d
  = Ok (filter (is_target item_id y m d) table).
Proof.
  intros Hs. unfold target_rows. rewrite (series_eq_scalar _ _ _ Hs).
  cbn [rbind]. now rewrite map_map, select_map, filter_filter.
Qed.

Lemma round_half_even_near (q : Q) :
  (q - (1 # 2) <= inject_Z (round_half_even q) <= q + (1 # 2))%Q.
Proof.
  unfold round_half_even, Qltb.
  pose proof (Qfloor_le q) as Hlo. pose proof (Qlt_floor q) as Hhi.
  rewrite inject_Z_plus in Hhi. change (inject_Z 1) with 1%Q in Hhi.
  destruct (Qle_bool (1 # 2) (q - inject_Z (Qfloor q))) eqn:H1; cbn [negb].
  - apply Qle_bool_iff in H1.
    destruct (Qle_bool (q - inject_Z (Qfloor q)) (1 # 2)) eqn:H2; cbn [negb].
    + apply Qle_bool_iff in H2.
      destruct (Z.even (Qfloor q)).
      * lra.
      * rewrite inject_Z_plus. change (inject_Z 1) with 1%Q. lra.
    + rewrite inject_Z_plus. change (inject_Z 1) with 1%Q. lra.
  - assert (~ ((1 # 2) <= q - inject_Z (Qfloor q))%Q).
    { intros Hc. apply Qle_bool_iff in Hc. congruence. }
    lra.
Qed.

(** X8. When the files load, the date parses and the item has a row on
    that date, [predict_sales] asks the model once, with the eight features
    of the first such row, and reports that row's recorded quantity and the
    model's answer rounded to a nearest integer. *)
Theorem prediction_reports_actual_and_rounded :
  forall (E : Env) (item_id : pyval) (date_str : string) (table : dataframe)
         (y m d : Z) (hit : row) (others : dataframe) (x : Q) (st : state),
    load_files E = Loaded table ->
    strptime_ymd date_str = Some (y, m, d) ->
    scalar item_id ->
    filter (is_target item_id y m d) table = hit :: others ->
    model_predict E (features_for_prediction hit) = Ok (FFinite x) ->
    predict_sales E item_id date_str st
    = (Ok [Lit ("Actual: " ++ str_int (TOTAL_ITEMSOLD hit) ++ ", Predicted: "
                ++ str_int (round_half_even x))],
       logged st (ModelPredict (features_for_prediction hit)))
    /\ (x - (1 # 2) <= inject_Z (round_half_even x) <= x + (1 # 2))%Q.
Proof.
  intros E item_id date_str table y m d hit others x st Hl Hp Hs Hf Hx.
  split; [| apply round_half_even_near].
  unfold predict_sales. rewrite Hl, Hp. unfold bind, lift.
  rewrite (target_rows_scalar _ _ _ _ _ _ Hs), Hf. unfold log.
  rewrite Hx. reflexivity.
Qed.

Lemma prediction_reports_witness :
  predict_sales (answering may_first_request) (PInt 3) "2024-05-01" fresh
  = (Ok [Lit "Actual: 42, Predicted: 40"],
     logged fresh (ModelPredict [3; 1; 5; 2024; 0; 0; 0; 0]%Q)).
Proof.
  refine (proj1 (prediction_reports_actual_and_rounded
                   (answering may_first_request) (PInt 3) "2024-05-01"
                   sample_sales 2024 5 1 (sale 3 2024 5 1 42) []
                   (404 # 10) fresh _ _ _ _ _)).
  - reflexivity.
  - reflexivity.
  - exact I.
  - reflexivity.
  - reflexivity.
Defined.

(** X9. [predict_sales] invokes the regression model only when the files
    are loaded, the date parses and a row matches.  In every other case it
    returns one of its messages, does not raise, and touches nothing. *)
Theorem model_is_invoked_only_on_a_matching_row :
  forall (E : Env) (item_id : pyval) (date_str : string) (st st' : state)
         (r : res text),
    scalar item_id ->
    predict_sales E item_id date_str st = (r, st') ->
    (exists table y m d hit others,
       load_files E = Loaded table
       /\ strptime_ymd date_str = Some (y, m, d)
       /\ filter (is_target item_id y m d) table = hit :: others
       /\ st' = logged st (ModelPredict (features_for_prediction hit)))
    \/ (st' = st
        /\ (exists message, r = Ok message)
        /\ forall table y m d,
             load_files E = Loaded table ->
             strptime_ymd date_str = Some (y, m, d) ->
             filter (is_target item_id y m d) table = []).
Proof.
  intros E item_id date_str st st' r Hs. unfold predict_sales.
  destruct (load_files E) as [path | e | table] eqn:Hl.
  - cbn. intros [= <- <-]. right. repeat split; eauto. discriminate.
  - cbn. intros [= <- <-]. right. repeat split; eauto. discriminate.
  - destruct (strptime_ymd date_str) as [[[y m] d] |] eqn:Hp.
    2:{ cbn. intros [= <- <-]. right. repeat split; eauto. discriminate. }
    unfold bind, lift. rewrite (target_rows_scalar _ _ _ _ _ _ Hs).
    destruct (filter (is_target item_id y m d) table) as [| hit others] eqn:Hf.
    + cbn. intros [= <- <-]. right. repeat split; eauto.
      intros table' y' m' d' [= <-] [= <- <- <-]. exact Hf.
    + unfold log. intros H. left. exists table, y, m, d, hit, others.
      repeat split; try reflexivity; try assumption.
      destruct (model_predict E (features_for_prediction hit)) as [v | e];
        [| now injection H as _ <-].
      destruct (int_round v); now injection H as _ <-.
Qed.

Lemma model_is_invoked_witness :
  (exists table y m d hit others,
     load_files (answering may_first_request) = Loaded table
     /\ strptime_ymd "2024-05-09" = Some (y, m, d)
     /\ filter (is_target (PInt 3) y m d) table = hit :: others
     /\ fresh = logged fresh (ModelPredict (features_for_prediction hit)))
  \/ (fresh = fresh
      /\ (exists message,
            Ok [Lit "No historical data found for Mapped ITEMID ";
                Val (PInt 3); Lit " on 2024-05-09."] = Ok message)
      /\ forall table y m d,
           load_files (answering may_first_request) = Loaded table ->
           strptime_ymd "2024-05-09" = Some (y, m, d) ->
           filter (is_target (PInt 3) y m d) table = []).
Proof.
  exact (model_is_invoked_only_on_a_matching_row
           (answering may_first_request) (PInt 3) "2024-05-09" fresh fresh
           (Ok [Lit "No historical data found for Mapped ITEMID ";
                Val (PInt 3); Lit " on 2024-05-09."]) I eq_refl).
Defined.

(** ** Totals of the ranking, and the filters of the summary *)

Lemma exact_sum_permutation (l l' : list Z) :
  Permutation l l' -> exact_sum l = exact_sum l'.
Proof.
  induction 1 as [| x l l' _ IH | x y l | l l' l'' _ IH1 _ IH2];
    rewrite ?exact_sum_cons; lia.
Qed.

Lemma exact_sum_nonnegative (l : list Z) :
  Forall (fun x => 0 <= x) l -> 0 <= exact_sum l.
Proof.
  induction 1 as [| x l Hx _ IH]; [change (exact_sum []) with 0; lia |].
  rewrite exact_sum_cons. lia.
Qed.

(** One more sale adds its quantity to the grand total, in [int64]. *)
Lemma add_sale_sum (item qty : Z) (totals : list (Z * Z)) :
  int64 (exact_sum (map snd (add_sale item qty totals)))
  = int64 (exact_sum (map snd totals) + qty).
Proof.
  induction totals as [| [k q] totals IH]; cbn [add_sale].
  - cbn [map snd]. rewrite exact_sum_cons, int64_add_l. f_equal.
    change (exact_sum []) with 0. lia.
  - destruct (item <? k).
    { cbn [map snd]. rewrite !exact_sum_cons, int64_add_l. f_equal. lia. }
    destruct (item =? k); cbn [map snd]; rewrite !exact_sum_cons.
    + rewrite int64_add_l. f_equal. lia.
    + rewrite <- int64_add_r, IH, int64_add_r. f_equal. lia.
Qed.

(** Grouping keeps the grand total, in [int64]. *)
Lemma groupby_sum_total (rows : dataframe) :
  sum (map snd (groupby_sum rows)) = sum (map TOTAL_ITEMSOLD rows).
Proof.
  rewrite !sum_wraps. unfold groupby_sum.
  assert (H : forall totals,
             int64 (exact_sum (map snd
                      (fold_left
                         (fun t r =>
                            add_sale (ITEMID_Mapped r) (TOTAL_ITEMSOLD r) t)
                         rows totals)))
             = int64 (exact_sum (map snd totals)
                      + exact_sum (map TOTAL_ITEMSOLD rows))).
  { induction rows as [| r rows IH]; intros totals; cbn [fold_left map].
    - change (exact_sum []) with 0. now rewrite Z.add_0_r.
    - rewrite IH, <- int64_add_l, add_sale_sum, int64_add_l, exact_sum_cons.
      f_equal. lia. }
  rewrite H. f_equal.
Qed.

(** While the grand total of non-negative quantities fits, one more sale
    wraps nothing. *)
Lemma add_sale_exact (item qty : Z) (totals : list (Z * Z)) :
  Forall (fun q => 0 <= q) (map snd totals) ->
  0 <= qty ->
  exact_sum (map snd totals) + qty < 2 ^ 63 ->
  Forall (fun q => 0 <= q) (map snd (add_sale item qty totals))
  /\ exact_sum (map snd (add_sale item qty totals))
     = exact_sum (map snd totals) + qty.
Proof.
  induction totals as [| [k q] totals IH]; cbn [add_sale map snd];
    intros Hpos Hqty Hfits.
  - change (exact_sum []) with 0 in *.
    rewrite int64_small by lia. rewrite exact_sum_cons.
    change (exact_sum []) with 0.
    split; [repeat constructor; lia | lia].
  - rewrite exact_sum_cons in Hfits.
    pose proof (Forall_inv Hpos) as Hq. cbn beta in Hq.
    pose proof (Forall_inv_tail Hpos) as Hrest.
    pose proof (exact_sum_nonnegative _ Hrest) as Hsum.
    destruct (item <? k).
    { cbn [map snd]. rewrite int64_small by lia.
      rewrite !exact_sum_cons.
      split; [constructor; [lia | exact Hpos] | lia]. }
    destruct (item =? k); cbn [map snd].
    + rewrite int64_small by lia. rewrite !exact_sum_cons.
      split; [constructor; [lia | exact Hrest] | lia].
    + destruct (IH Hrest Hqty ltac:(lia)) as [H1 H2].
      rewrite !exact_sum_cons, H2.
      split; [constructor; assumption | lia].
Qed.

Lemma groupby_sum_exact (rows : dataframe) :
  (forall r, In r rows -> 0 <= TOTAL_ITEMSOLD r) ->
  exact_sum (map TOTAL_ITEMSOLD rows) < 2 ^ 63 ->
  Forall (fun q => 0 <= q) (map snd (groupby_sum rows))
  /\ exact_sum (map snd (groupby_sum rows))
     = exact_sum (map TOTAL_ITEMSOLD rows).
Proof.
  intros Hpos Hfits. unfold groupby_sum.
  assert (H : forall totals,
             Forall (fun q => 0 <= q) (map snd totals) ->
             exact_sum (map snd totals) + exact_sum (map TOTAL_ITEMSOLD rows)
             < 2 ^ 63 ->
             let totals' :=
               fold_left
                 (fun t r => add_sale (ITEMID_Mapped r) (TOTAL_ITEMSOLD r) t)
                 rows totals in
             Forall (fun q => 0 <= q) (map snd totals')
             /\ exact_sum (map snd totals')
                = exact_sum (map snd totals)
                  + exact_sum (map TOTAL_ITEMSOLD rows)).
  { clear Hfits. induction rows as [| r rows IH]; intros totals Ht Hfits;
      cbn [fold_left map] in *; cbv zeta.
    - change (exact_sum []) with 0. split; [exact Ht | lia].
    - rewrite exact_sum_cons in Hfits.
      assert (Hr : 0 <= TOTAL_ITEMSOLD r) by (apply Hpos; now left).
      assert (Hrows : 0 <= exact_sum (map TOTAL_ITEMSOLD rows)).
      { apply exact_sum_nonnegative, Forall_forall. intros q Hq.
        apply in_map_iff in Hq. destruct Hq as (r' & <- & Hr').
        apply Hpos. now right. }
      destruct (add_sale_exact (ITEMID_Mapped r) (TOTAL_ITEMSOLD r) totals
                  Ht Hr ltac:(lia)) as [H1 H2].
      destruct (IH (fun r' Hr' => Hpos r' (or_intror Hr')) _ H1 ltac:(lia))
        as [H3 H4].
      split; [exact H3 |]. rewrite H4, H2, exact_sum_cons. lia. }
  destruct (H [] ltac:(constructor)) as [H1 H2].
  - change (exact_sum (map snd [])) with 0. lia.
  - split; [exact H1 |]. rewrite H2. change (exact_sum (map snd [])) with 0. lia.
Qed.

(** X10. The ranking accounts for every unit sold in the period: its
    totals add up, in [int64], to the sum of the quantities of the filtered
    rows.  The top-5 list has five entries, or as many as there are items
    when fewer.  When no quantity is negative and the quantity sold fits in
    an [int64], nothing wraps: the totals add up to the quantity sold as
    integers, and those of the top five to at most that. *)
Theorem ranking_totals_add_up :
  forall (E : Env) (rows : dataframe),
    sorts_descending (sort_values_desc E) ->
    sum (map snd (sales_by_item E rows)) = sum (map TOTAL_ITEMSOLD rows)
    /\ List.length (top_5_items E rows)
       = Nat.min 5 (List.length (groupby_sum rows))
    /\ ((forall r, In r rows -> 0 <= TOTAL_ITEMSOLD r) ->
        exact_sum (map TOTAL_ITEMSOLD rows) < 2 ^ 63 ->
        exact_sum (map snd (sales_by_item E rows))
        = exact_sum (map TOTAL_ITEMSOLD rows)
        /\ 0 <= exact_sum (map snd (top_5_items E rows))
             <= exact_sum (map TOTAL_ITEMSOLD rows)).
Proof.
  intros E rows Hsort.
  destruct (Hsort (groupby_sum rows)) as [Hperm _].
  fold (sales_by_item E rows) in Hperm.
  split; [| split].
  - rewrite <- groupby_sum_total, !sum_wraps. f_equal. symmetry.
    apply exact_sum_permutation, Permutation_map, Hperm.
  - unfold top_5_items. rewrite length_firstn.
    now rewrite (Permutation_length Hperm).
  - intros Hpos Hfits.
    destruct (groupby_sum_exact rows Hpos Hfits) as [Hall Hexact].
    assert (Htotal : exact_sum (map snd (sales_by_item E rows))
                     = exact_sum (map TOTAL_ITEMSOLD rows)).
    { rewrite <- Hexact. symmetry.
      apply exact_sum_permutation, Permutation_map, Hperm. }
    split; [exact Htotal |].
    apply (Permutation_Forall (Permutation_map snd Hperm)) in Hall.
    rewrite <- Htotal. unfold top_5_items.
    rewrite <- (firstn_skipn 5 (sales_by_item E rows)) at 3.
    rewrite map_app, exact_sum_app.
    rewrite <- (firstn_skipn 5 (sales_by_item E rows)), map_app in Hall.
    apply Forall_app in Hall. destruct Hall as [H5 Hrest].
    pose proof (exact_sum_nonnegative _ H5).
    pose proof (exact_sum_nonnegative _ Hrest).
    lia.
Qed.

Lemma ranking_totals_witness :
  sum (map snd (sales_by_item (answering []) sample_sales)) = 62
  /\ List.length (top_5_items (answering []) sample_sales) = 3%nat.
Proof.
  destruct (ranking_totals_add_up (answering []) sample_sales
              (sort_ranked_sorts false)) as (Htotal & Hlen & _).
  split; [exact Htotal | exact Hlen].
Defined.

(** X11. [get_sales_summary] takes a falsy item id -- 0 as well as None --
    for no item at all: the summary is the one of every item, without the
    item line.  In the same way an empty list of dates is no list of
    dates. *)
Theorem falsy_filters_select_everything :
  forall (E : Env) (table : option dataframe) (item_id : pyval)
         (dates : option (list pyval)),
    truthy item_id = false ->
    get_sales_summary E table item_id dates
    = get_sales_summary E table PNone dates
    /\ get_sales_summary E table item_id (Some [])
       = get_sales_summary E table item_id None.
Proof.
  intros E table item_id dates Hfalsy.
  unfold get_sales_summary, summary_body, summary_rows, filter_if, dates_line.
  rewrite Hfalsy. cbn [truthy given_dates]. split; reflexivity.
Qed.

Lemma falsy_filters_witness :
  get_sales_summary (answering []) (Some sample_sales) (PInt 0)
    (Some [PStr "2024-05-02"])
  = get_sales_summary (answering []) (Some sample_sales) PNone
      (Some [PStr "2024-05-02"]).
Proof.
  refine (proj1 (falsy_filters_select_everything (answering [])
                   (Some sample_sales) (PInt 0) (Some [PStr "2024-05-02"]) _)).
  reflexivity.
Defined.

(** ** More on dates *)

Lemma strptime_of_padded (y m d : Z) :
  0 <= y <= 9999 -> 0 <= m <= 99 -> 0 <= d <= 99 ->
  strptime_ymd (strftime_ymd y m d)
  = if valid_date y m d then Some (y, m, d) else None.
Proof.
  intros Hy Hm Hd.
  destruct (pad4_shape y Hy) as (a & b & c & e & Hy4 & Ha & Hb & Hc & He & Hval).
  assert (Hall : forallb (fun m => forallb (reads_back_or_fails m) (range 0 100))
                   (range 0 100) = true)
    by (vm_compute; reflexivity).
  pose proof (range_forallb _ 0 100 m Hall ltac:(lia)) as H1.
  pose proof (range_forallb _ 0 100 d H1 ltac:(lia)) as H2.
  unfold reads_back_or_fails in H2. cbn zeta in H2. cbn [append] in H2.
  unfold strftime_ymd, strptime_ymd, match_ymd. rewrite Hy4.
  cbn [append match_Y]. rewrite Ha, Hb, Hc, He. cbn [andb]. rewrite Hval.
  cbn [expect_dash Ascii.eqb Bool.eqb].
  assert (Hv : valid_date y m d = true ->
               (1 <=? m) && (m <=? 12) && (1 <=? d) && (d <=? 31) = true).
  { intros Hv. destruct (valid_date_bounds y m d Hv) as (_ & Hm' & Hd').
    rewrite !andb_true_iff, !Z.leb_le. lia. }
  destruct (first_some after_month _) as [[[m' d'] [| ? ?]] |].
  - rewrite !andb_true_iff, !Z.eqb_eq in H2. destruct H2 as [[_ ->] ->].
    reflexivity.
  - destruct (valid_date y m d); [| reflexivity].
    rewrite (Hv eq_refl) in H2. discriminate.
  - destruct (valid_date y m d); [| reflexivity].
    rewrite (Hv eq_refl) in H2. discriminate.
Qed.

Lemma strftime_dateish (y m d : Z) :
  0 <= y <= 9999 -> 0 <= m <= 99 -> 0 <= d <= 99 ->
  all_chars dateish (strftime_ymd y m d) = true.
Proof.
  intros Hy Hm Hd.
  destruct (pad4_shape y Hy) as (a & b & c & e & Hy4 & Ha & Hb & Hc & He & _).
  unfold strftime_ymd. rewrite !all_chars_app.
  rewrite (pad2_dateish m), (pad2_dateish d) by lia.
  rewrite Hy4. cbn. unfold dateish. now rewrite Ha, Hb, Hc, He.
Qed.

Lemma year_first_is_not_dmy (y : Z) (rest : string) :
  0 <= y <= 9999 -> match_dmy (pad4 y ++ rest) = false.
Proof.
  intros Hy.
  destruct (pad4_shape y Hy) as (a & b & c & e & Hy4 & Ha & Hb & Hc & _).
  rewrite Hy4. unfold match_dmy, match_d12_dash. cbn. rewrite Ha, Hb.
  each_digit Hc; reflexivity.
Qed.

Lemma spelling_any_two_digits (n : Z) (s : string) :
  0 <= n <= 99 ->
  spelling n s ->
  digits s = true /\ (1 <= String.length s <= 2)%nat /\ zfill 2 s = pad2 n.
Proof.
  intros Hn Hs.
  assert (Hall : forallb spells_two_digits (range 0 100) = true)
    by (vm_compute; reflexivity).
  pose proof (range_forallb _ 0 100 n Hall ltac:(lia)) as H.
  unfold spells_two_digits in H. cbn [forallb] in H.
  rewrite !andb_true_iff in H.
  destruct H as [(((H1 & H2) & H3) & H4) [(((H5 & H6) & H7) & H8) _]].
  apply Nat.leb_le in H2, H3, H6, H7. apply String.eqb_eq in H4, H8.
  destruct Hs as [-> | ->]; auto.
Qed.

(** X12. The numeric [D-M-YYYY] rule checks nothing: any one or two digit
    day and month are reordered into a canonical-looking string.  When the
    numbers are not a calendar date, that string is refused by [strptime] --
    the check of [handle_query] and of [predict_sales] -- and by the
    normaliser itself on a second pass. *)
Theorem numeric_dates_are_not_validated :
  forall (now_year y m d : Z) (ds ms : string),
    0 <= d <= 99 ->
    0 <= m <= 99 ->
    0 <= y <= 9999 ->
    spelling d ds ->
    spelling m ms ->
    _parse_date_input now_year (ds ++ "-" ++ ms ++ "-" ++ pad4 y)
    = [strftime_ymd y m d]
    /\ (valid_date y m d = false ->
        strptime_ymd (strftime_ymd y m d) = None
        /\ _parse_date_input now_year (strftime_ymd y m d) = []).
Proof.
  intros now_year y m d ds ms Hd Hm Hy Hds Hms.
  destruct (spelling_any_two_digits d ds Hd Hds) as (Dd & Dl & Dz).
  destruct (spelling_any_two_digits m ms Hm Hms) as (Md & Ml & Mz).
  assert (Hyd : digits (pad4 y) = true /\ String.length (pad4 y) = 4%nat).
  { destruct (pad4_shape y Hy) as (a & b & c & e & -> & Ha & Hb & Hc & He & _).
    cbn. now rewrite Ha, Hb, Hc, He. }
  destruct Hyd as [Yd Yl]. split.
  - rewrite (parse_dmy_strings now_year ds ms (pad4 y) Dd Dl Md Ml Yd Yl).
    now rewrite Dz, Mz.
  - intros Hinvalid.
    pose proof (strptime_of_padded y m d Hy Hm Hd) as Hparse.
    rewrite Hinvalid in Hparse. split; [exact Hparse |].
    pose proof (strftime_dateish y m d Hy Hm Hd) as Hs.
    unfold _parse_date_input.
    destruct (String.eqb_spec (strftime_ymd y m d) "") as [_ | _];
      [reflexivity |].
    rewrite (lower_dateish _ Hs), (strip_dateish _ Hs).
    destruct (no_month_name _ Hs) as [-> ->]. cbn [andb].
    unfold strftime_ymd at 1. rewrite (year_first_is_not_dmy y _ Hy).
    now rewrite Hparse.
Qed.

Lemma numeric_dates_not_validated_witness :
  _parse_date_input 2026 "45-13-2024" = ["2024-13-45"]
  /\ strptime_ymd "2024-13-45" = None
  /\ _parse_date_input 2026 "2024-13-45" = [].
Proof.
  destruct (numeric_dates_are_not_validated 2026 2024 13 45 "45" "13")
    as (H1 & H2).
  - lia.
  - lia.
  - lia.
  - left. reflexivity.
  - left. reflexivity.
  - split; [exact H1 | apply H2; reflexivity].
Defined.

(** X13. A date in year-month-day order, with the month and the day
    written plainly or zero-padded, is normalised to the zero-padded
    canonical date, and that date parses back to the same day (years from
    1000 on). *)
Theorem year_first_dates_are_canonicalised :
  forall (now_year y m d : Z) (ms ds : string),
    valid_date y m d = true ->
    1000 <= y ->
    spelling m ms ->
    spelling d ds ->
    _parse_date_input now_year (pad4 y ++ "-" ++ ms ++ "-" ++ ds)
    = [strftime_ymd y m d]
    /\ strptime_ymd (strftime_ymd y m d) = Some (y, m, d)
    /\ _parse_date_input now_year (strftime_ymd y m d) = [strftime_ymd y m d].
Proof.
  intros now_year y m d ms ds Hv Hy1000 Hms Hds.
  destruct (valid_date_bounds y m d Hv) as (Hy & Hm & Hd).
  destruct (spelling_any_two_digits m ms ltac:(lia) Hms) as (Md & _ & _).
  destruct (spelling_any_two_digits d ds ltac:(lia) Hds) as (Dd & _ & _).
  assert (Hround : strptime_ymd (strftime_ymd y m d) = Some (y, m, d)).
  { rewrite strptime_of_padded by lia. now rewrite Hv. }
  split; [| split; [exact Hround | now apply parse_iso]].
  destruct (pad4_shape y ltac:(lia))
    as (a & b & c & e & Hy4 & Ha & Hb & Hc & He & Hval).
  set (s := (pad4 y ++ "-" ++ ms ++ "-" ++ ds)%string).
  assert (Hs : all_chars dateish s = true).
  { subst s. rewrite !all_chars_app.
    rewrite (digits_dateish ms Md), (digits_dateish ds Dd).
    rewrite Hy4. cbn. unfold dateish. now rewrite Ha, Hb, Hc, He. }
  unfold _parse_date_input.
  destruct (String.eqb_spec s "") as [Hemp | _].
  { exfalso. subst s. rewrite Hy4 in Hemp. discriminate. }
  rewrite (lower_dateish s Hs), (strip_dateish s Hs).
  destruct (no_month_name s Hs) as [-> ->]. cbn [andb].
  subst s. rewrite (year_first_is_not_dmy y _ ltac:(lia)).
  assert (Hall : forallb (fun m => forallb (spellings_read_back m) (range 1 32))
                   (range 1 13) = true)
    by (vm_compute; reflexivity).
  pose proof (range_forallb _ 1 13 m Hall ltac:(lia)) as H1.
  pose proof (range_forallb _ 1 32 d H1 ltac:(lia)) as H2.
  unfold spellings_read_back in H2. cbn [forallb] in H2.
  rewrite !andb_true_iff in H2.
  destruct H2 as [[Hpp [Hpq _]] [[Hqp [Hqq _]] _]].
  assert (Hread : first_some after_month (match_m (ms ++ "-" ++ ds))
                  = Some (m, d, EmptyString)).
  { destruct Hms as [-> | ->], Hds as [-> | ->];
      match goal with
      | H : match first_some after_month (match_m ?t) with _ => _ end = true
        |- first_some after_month (match_m ?t) = _ =>
          destruct (first_some after_month (match_m t))
            as [[[m' d'] [| ? ?]] |]; try discriminate;
          apply andb_true_iff in H; destruct H as [Hm' Hd'];
          apply Z.eqb_eq in Hm', Hd'; now subst
      end. }
  unfold strptime_ymd, match_ymd. rewrite Hy4.
  cbn [append match_Y]. rewrite Ha, Hb, Hc, He. cbn [andb]. rewrite Hval.
  cbn [expect_dash Ascii.eqb Bool.eqb].
  cbn [append] in Hread. rewrite Hread, Hv. reflexivity.
Qed.

Lemma year_first_dates_witness :
  _parse_date_input 2026 "2024-5-4" = ["2024-05-04"]
  /\ strptime_ymd "2024-05-04" = Some (2024, 5, 4).
Proof.
  destruct (year_first_dates_are_canonicalised 2026 2024 5 4 "5" "4")
    as (H1 & H2 & _).
  - reflexivity.
  - lia.
  - left. reflexivity.
  - left. reflexivity.
  - split; [exact H1 | exact H2].
Defined.

(** ** The data context *)

Import Context Console.

Lemma unique_In (l : list Z) (i : Z) : In i (unique l) <-> In i l.
Proof.
  induction l as [| x l IH]; cbn [unique]; [reflexivity |].
  cbn [In]. rewrite filter_In, IH. split.
  - intros [H | [H _]]; auto.
  - intros [H | H]; [auto |].
    destruct (Z.eq_dec i x) as [-> | Hne]; [auto |].
    right. split; [exact H |]. apply negb_true_iff. now apply Z.eqb_neq.
Qed.

Lemma unique_NoDup (l : list Z) : NoDup (unique l).
Proof.
  induction l as [| x l IH]; cbn [unique]; constructor.
  - rewrite filter_In. intros [_ H].
    rewrite Z.eqb_refl in H. discriminate.
  - now apply NoDup_filter.
Qed.

Lemma insert_sorted_In (x : Z) (l : list Z) (i : Z) :
  In i (insert_sorted x l) <-> x = i \/ In i l.
Proof.
  induction l as [| y l IH]; cbn [insert_sorted]; [cbn; tauto |].
  destruct (x <? y); cbn [In]; [tauto |]. rewrite IH. tauto.
Qed.

Lemma insert_sorted_ascending (x : Z) (l : list Z) :
  StronglySorted Z.lt l -> ~ In x l ->
  StronglySorted Z.lt (insert_sorted x l).
Proof.
  induction l as [| y l IH]; intros Hs Hx; cbn [insert_sorted].
  - constructor; constructor.
  - inversion Hs as [| ? ? Hs' Hall]; subst.
    destruct (x <? y) eqn:Hlt.
    + apply Z.ltb_lt in Hlt. constructor; [exact Hs |].
      constructor; [exact Hlt |].
      eapply Forall_impl; [| exact Hall]. intros; cbn beta in *; lia.
    + apply Z.ltb_ge in Hlt.
      assert (y <> x) by (intros ->; apply Hx; now left).
      constructor.
      * apply IH; [exact Hs' |]. intros H'. apply Hx. now right.
      * apply Forall_forall. intros i Hi. apply insert_sorted_In in Hi.
        destruct Hi as [<- | Hi]; [lia |].
        rewrite Forall_forall in Hall. now apply Hall.
Qed.

Lemma sorted_from (l acc : list Z) :
  StronglySorted Z.lt acc ->
  NoDup l ->
  (forall i, In i l -> ~ In i acc) ->
  StronglySorted Z.lt (fold_left (fun acc x => insert_sorted x acc) l acc)
  /\ forall i,
       In i (fold_left (fun acc x => insert_sorted x acc) l acc)
       <-> In i acc \/ In i l.
Proof.
  revert acc. induction l as [| x l IH]; intros acc Hs Hnd Hdis; cbn [fold_left].
  - split; [exact Hs |]. intros i. cbn. tauto.
  - inversion Hnd as [| ? ? Hx Hnd']; subst.
    destruct (IH (insert_sorted x acc)) as [H1 H2].
    + apply insert_sorted_ascending; [exact Hs |]. apply Hdis. now left.
    + exact Hnd'.
    + intros i Hi Hin. apply insert_sorted_In in Hin.
      destruct Hin as [<- | Hin]; [contradiction |].
      apply (Hdis i); [now right | exact Hin].
    + split; [exact H1 |]. intros i. rewrite H2, insert_sorted_In.
      cbn [In]. tauto.
Qed.

Lemma sorted_unique (l : list Z) :
  StronglySorted Z.lt (sorted (unique l))
  /\ forall i, In i (sorted (unique l)) <-> In i l.
Proof.
  destruct (sorted_from (unique l) []) as [H1 H2].
  - constructor.
  - apply unique_NoDup.
  - intros i _ [].
  - split; [exact H1 |]. intros i. unfold sorted. rewrite H2, unique_In.
    cbn. tauto.
Qed.

Lemma in_ints_In (v : pyval) (items : list Z) :
  in_ints v items = true <-> exists i, In i items /\ eq_int v i = true.
Proof.
  unfold in_ints. rewrite existsb_exists. reflexivity.
Qed.

Lemma load_table (r : row) (table : dataframe) :
  bot (_load_data_context (Csv (r :: table)))
  = {| df := Some (r :: table);
       available_items := sorted (unique (map ITEMID_Mapped (r :: table))) |}.
Proof. reflexivity. Qed.

Lemma load_nothing (csv : csv_outcome) :
  (forall table, csv = Csv table -> table = []) ->
  _load_data_context csv = fallback_context.
Proof.
  intros H. destruct csv as [e | table]; [reflexivity |].
  now rewrite (H table eq_refl).
Qed.

(** X14. When the sales file is read and has at least one row,
    [_load_data_context] keeps the table and lists as available exactly the
    item ids that occur in it, each once and in increasing order. *)
Theorem available_items_are_the_items_sold :
  forall (table : dataframe),
    table <> [] ->
    let self := bot (_load_data_context (Csv table)) in
    df self = Some table
    /\ StronglySorted Z.lt (available_items self)
    /\ forall i,
         In i (available_items self)
         <-> exists r, In r table /\ ITEMID_Mapped r = i.
Proof.
  intros [| r table] Hne; [congruence |]. cbv zeta. rewrite load_table.
  cbn [df available_items].
  destruct (sorted_unique (map ITEMID_Mapped (r :: table))) as [H1 H2].
  split; [reflexivity |]. split; [exact H1 |].
  intros i. rewrite H2, in_map_iff.
  split; intros (x & Ha & Hb); exists x; auto.
Qed.

Lemma available_items_witness :
  let self := bot (_load_data_context (Csv Stub.sample_sales)) in
  df self = Some Stub.sample_sales
  /\ StronglySorted Z.lt (available_items self)
  /\ forall i,
       In i (available_items self)
       <-> exists r, In r Stub.sample_sales /\ ITEMID_Mapped r = i.
Proof.
  apply (available_items_are_the_items_sold Stub.sample_sales). discriminate.
Defined.

(** X15. A prediction is refused for every item the loaded table has no
    row of: the reply names the item as not available, nothing is invoked
    and nothing is recorded.  When the file cannot be read, or has no rows,
    this holds for every item. *)
Theorem items_without_sales_are_not_predicted :
  forall (E : Env) (csv : csv_outcome) (user_query : string)
         (d : list (string * pyval)) (st : state),
    extract_parameters E user_query = Ok (PDict d) ->
    passes_gate d ->
    selects_prediction (field d "query_type" (PStr "prediction")) ->
    (forall table r,
       csv = Csv table -> In r table ->
       eq_int (field d "item_id" PNone) (ITEMID_Mapped r) = false) ->
    let self := bot (_load_data_context csv) in
    handle_query E self user_query st
    = (Ok (Text (not_available self (field d "item_id" PNone))), st).
Proof.
  intros E csv user_query d st Hex Hgate Hsel Hno. cbv zeta.
  rewrite (handle_query_extracted _ _ _ _ _ Hex).
  rewrite (handle_prediction _ _ _ _ _ Hgate Hsel).
  unfold try_except. rewrite prediction_unknown_item; [reflexivity |].
  destruct (in_ints _ _) eqn:Hin; [exfalso | reflexivity].
  apply in_ints_In in Hin. destruct Hin as (i & Hi & Heq).
  destruct csv as [e | [| r table]]; try contradiction.
  rewrite load_table in Hi. cbn [available_items] in Hi.
  apply (proj2 (sorted_unique _)), in_map_iff in Hi.
  destruct Hi as (r' & <- & Hr').
  rewrite (Hno _ r' eq_refl Hr') in Heq. discriminate.
Qed.

Lemma items_without_sales_witness :
  handle_query
    (Stub.answering [("query_type", PStr "prediction"); ("item_id", PInt 7);
                     ("date", PStr "2024-05-01");
                     ("confidence", PFloat (FFinite 1))])
    (bot (_load_data_context (Csv Stub.sample_sales)))
    "sales of item 7 on 2024-05-01" Stub.fresh
  = (Ok (Text [Lit "Item ID "; Val (PInt 7);
               Lit " is not available. Available items: 1, 2, 3"]),
     Stub.fresh).
Proof.
  refine (items_without_sales_are_not_predicted
            (Stub.answering [("query_type", PStr "prediction");
                             ("item_id", PInt 7);
                             ("date", PStr "2024-05-01");
                             ("confidence", PFloat (FFinite 1))])
            (Csv Stub.sample_sales) "sales of item 7 on 2024-05-01"
            [("query_type", PStr "prediction"); ("item_id", PInt 7);
             ("date", PStr "2024-05-01"); ("confidence", PFloat (FFinite 1))]
            Stub.fresh _ _ _ _).
  - reflexivity.
  - exists (FFinite 1). repeat split; reflexivity.
  - repeat split; reflexivity.
  - intros table r Heq Hr. injection Heq as <-.
    cbn in Hr. decompose [or] Hr; subst; try contradiction; reflexivity.
Defined.

(** ** The command-line loop *)


Lemma final_says (p : list printed) (s : session) : final (says p s) = final s.
Proof. reflexivity. Qed.



Lemma executed_prediction_query (E : Env) (self : chatbot)
    (user_query : string) (st : state) (t : turn) :
  executed_prediction E self user_query st t -> query t = user_query.
Proof. intros H. destruct H. reflexivity. Qed.

(** An interrupted run has recorded what the whole run records, or
    nothing yet. *)
Lemma cut_short_history (progress : nat) (st st' : state) :
  conversation_history (cut_short progress st st') = conversation_history st
  \/ cut_short progress st st' = st'.
Proof.
  unfold cut_short. destruct (_ <=? _)%nat; [now left | now right].
Qed.

(** What one run of [handle_query] on a typed line adds to the history,
    whether the run is completed or cut short. *)
Lemma query_turn (E : Env) (self : chatbot) (line : string) (st st' st1 : state)
    (r : res reply) :
  handle_query E self (strip line) st = (r, st') ->
  conversation_history st1 = conversation_history st \/ st1 = st' ->
  exists turns,
    conversation_history st1 = conversation_history st ++ turns
    /\ (List.length turns <= 1)%nat
    /\ Forall (fun t => query t = strip line) turns.
Proof.
  intros Hrun Hst1.
  destruct Hst1 as [Hsame | ->].
  { exists []. rewrite app_nil_r. repeat split; [exact Hsame | apply Nat.le_0_l |].
    constructor. }
  destruct (handle_query_history _ _ _ _ _ _ Hrun)
    as [[Hsame _] | (t & Ht & Happ & _)].
  - exists []. rewrite app_nil_r. repeat split; [exact Hsame | apply Nat.le_0_l |].
    constructor.
  - exists [t]. repeat split; [exact Happ | apply Nat.le_refl |].
    constructor; [| constructor].
    exact (executed_prediction_query _ _ _ _ _ Ht).
Qed.

(** X17. Over a whole session the conversation history only grows: the
    turns present at the start stay in place, at most one turn is added for
    each line passed to [handle_query], and the query of every added turn is
    such a line with the space around it removed. *)
Theorem session_history_only_grows :
  forall (E : Env) (ctx : context) (keys : list keyboard) (st : state),
    exists turns,
      conversation_history (final (chat_loop E ctx keys st))
      = conversation_history st ++ turns
      /\ (List.length turns
          <= List.length (filter is_query (until_leave keys)))%nat
      /\ Forall (fun t =>
                   exists k line,
                     In k keys
                     /\ typed k = Some line
                     /\ is_query k = true
                     /\ query t = strip line) turns.
Proof.
  intros E ctx keys. induction keys as [| k keys IH]; intros st.
  - exists []. rewrite app_nil_r.
    split; [reflexivity |]. split; [apply Nat.le_0_l | constructor].
  - assert (Hskip : forall turns,
              Forall (fun t => exists k0 line,
                        In k0 keys /\ typed k0 = Some line
                        /\ is_query k0 = true /\ query t = strip line) turns ->
              Forall (fun t => exists k0 line,
                        In k0 (k :: keys) /\ typed k0 = Some line
                        /\ is_query k0 = true /\ query t = strip line) turns).
    { intros turns. apply Forall_impl. intros t (k0 & line & H1 & H2).
      exists k0, line. split; [now right | exact H2]. }
    assert (Hnone : forall n, exists turns,
              conversation_history st = conversation_history st ++ turns
              /\ (List.length turns <= n)%nat
              /\ Forall (fun t => exists k0 line,
                           In k0 (k :: keys) /\ typed k0 = Some line
                           /\ is_query k0 = true /\ query t = strip line) turns).
    { intros n. exists []. rewrite app_nil_r.
      split; [reflexivity |]. split; [apply Nat.le_0_l | constructor]. }
    assert (Hhere : forall line turns,
              typed k = Some line -> is_query k = true ->
              Forall (fun t => query t = strip line) turns ->
              Forall (fun t => exists k0 line0,
                        In k0 (k :: keys) /\ typed k0 = Some line0
                        /\ is_query k0 = true /\ query t = strip line0) turns).
    { intros line turns Hk Hq. apply Forall_impl. intros t Ht.
      exists k, line. split; [now left | auto]. }
    destruct k as [line | | | line progress |]; cbn [chat_loop].
    + cbn [until_leave leaves].
      destruct (is_quit (strip line)) eqn:Hq; [exact (Hnone _) |].
      destruct (is_help (strip line)) eqn:Hh.
      { rewrite final_says. destruct (IH st) as (turns & H1 & H2 & H3).
        exists turns. split; [exact H1 |]. split; [| now apply Hskip].
        cbn [filter]. unfold is_query at 1. cbn [typed].
        rewrite Hq, Hh. exact H2. }
      destruct (String.eqb (strip line) "") eqn:He.
      { rewrite final_says. destruct (IH st) as (turns & H1 & H2 & H3).
        exists turns. split; [exact H1 |]. split; [| now apply Hskip].
        cbn [filter]. unfold is_query at 1. cbn [typed].
        rewrite Hq, Hh, He. exact H2. }
      assert (Hline : is_query (Types line) = true)
        by (unfold is_query; cbn [typed]; now rewrite Hq, Hh, He).
      assert (Hstep : forall r st',
                handle_query E (bot ctx) (strip line) st = (r, st') ->
                exists turns,
                  conversation_history (final (chat_loop E ctx keys st'))
                  = conversation_history st ++ turns
                  /\ (List.length turns
                      <= List.length
                           (filter is_query (Types line :: until_leave keys)))%nat
                  /\ Forall (fun t => exists k0 line0,
                               In k0 (Types line :: keys)
                               /\ typed k0 = Some line0
                               /\ is_query k0 = true
                               /\ query t = strip line0) turns).
      { intros r st' Hrun.
        destruct (IH st') as (turns & H1 & H2 & H3).
        destruct (query_turn _ _ _ _ _ st' _ Hrun (or_intror eq_refl))
          as (new & Hnew & Hlen & Hall).
        exists (new ++ turns). rewrite H1, Hnew, <- app_assoc.
        split; [reflexivity |].
        cbn [filter]. rewrite Hline. cbn [List.length].
        rewrite length_app. split; [lia |].
        apply Forall_app. split; [| now apply Hskip].
        now apply (Hhere line). }
      destruct (handle_query E (bot ctx) (strip line) st) as [[r | e] st'] eqn:Hrun;
        rewrite final_says; eapply Hstep; reflexivity.
    + exact (Hnone _).
    + rewrite final_says. destruct (IH st) as (turns & H1 & H2 & H3).
      exists turns. split; [exact H1 |]. split; [exact H2 | now apply Hskip].
    + cbn [until_leave leaves].
      destruct (is_quit (strip line)) eqn:Hq; [exact (Hnone _) |].
      destruct (is_help (strip line)) eqn:Hh; [exact (Hnone _) |].
      destruct (String.eqb (strip line) "") eqn:He; [exact (Hnone _) |].
      cbn [orb].
      assert (Hline : is_query (TypesThenInterrupts line progress) = true)
        by (unfold is_query; cbn [typed]; now rewrite Hq, Hh, He).
      assert (Hstep : forall r st',
                handle_query E (bot ctx) (strip line) st = (r, st') ->
                exists turns,
                  conversation_history (cut_short progress st st')
                  = conversation_history st ++ turns
                  /\ (List.length turns
                      <= List.length
                           (filter is_query
                              [TypesThenInterrupts line progress]))%nat
                  /\ Forall (fun t => exists k0 line0,
                               In k0 (TypesThenInterrupts line progress :: keys)
                               /\ typed k0 = Some line0
                               /\ is_query k0 = true
                               /\ query t = strip line0) turns).
      { intros r st' Hrun.
        destruct (query_turn _ _ _ _ _ (cut_short progress st st') _ Hrun
                    (cut_short_history progress st st'))
          as (new & Hnew & Hlen & Hall).
        exists new. split; [exact Hnew |].
        cbn [filter]. rewrite Hline. cbn [List.length].
        split; [exact Hlen |]. now apply (Hhere line). }
      destruct (handle_query E (bot ctx) (strip line) st) as [[r | e] st'] eqn:Hrun;
        cbn [final]; eapply Hstep; reflexivity.
    + exact (Hnone _).
Qed.

(** X18. An unreadable sales file and a file without rows give the same
    session: no table, no available items and the default date range.  In
    such a session no prediction is ever executed, so the conversation
    history stays as it was whatever is typed. *)
Theorem session_without_data_records_nothing :
  forall (E : Env) (csv : csv_outcome) (keys : list keyboard) (st : state),
    (forall table, csv = Csv table -> table = []) ->
    _load_data_context csv = fallback_context
    /\ conversation_history (final (chat_loop E (_load_data_context csv) keys st))
       = conversation_history st.
Proof.
  intros E csv keys st Hcsv. rewrite (load_nothing csv Hcsv).
  split; [reflexivity |]. revert st.
  assert (Hsame : forall line st r st',
            handle_query E (bot fallback_context) (strip line) st = (r, st') ->
            conversation_history st' = conversation_history st).
  { intros line st r st' Hrun.
    destruct (handle_query_history _ _ _ _ _ _ Hrun)
      as [[Hsame _] | (t & Ht & _)]; [exact Hsame |].
    destruct Ht as [d date_str pr resp st1 _ _ _ Hin]. discriminate Hin. }
  induction keys as [| k keys IH]; intros st; [reflexivity |].
  destruct k as [line | | | line progress |]; cbn [chat_loop].
  - destruct (is_quit (strip line)); [reflexivity |].
    destruct (is_help (strip line)); [rewrite final_says; apply IH |].
    destruct (String.eqb (strip line) ""); [rewrite final_says; apply IH |].
    destruct (handle_query E (bot fallback_context) (strip line) st)
      as [[r | e] st'] eqn:Hrun;
      rewrite final_says, IH; eapply Hsame; exact Hrun.
  - reflexivity.
  - rewrite final_says. apply IH.
  - destruct (is_quit (strip line) || is_help (strip line)
              || String.eqb (strip line) ""); [reflexivity |].
    destruct (handle_query E (bot fallback_context) (strip line) st)
      as [[r | e] st'] eqn:Hrun; cbn [final];
      (destruct (cut_short_history progress st st') as [H | ->];
       [exact H | eapply Hsame; exact Hrun]).
  - reflexivity.
Qed.

Lemma session_without_data_witness :
  _load_data_context (Csv []) = fallback_context
  /\ conversation_history
       (final (chat_loop (Stub.answering Stub.may_first_request)
                 (_load_data_context (Csv []))
                 [Types "sales of item 3 on 2024-05-01"; Types "quit"]
                 Stub.fresh))
     = conversation_history Stub.fresh.
Proof.
  apply (session_without_data_records_nothing
           (Stub.answering Stub.may_first_request) (Csv [])).
  intros table H. injection H as <-. reflexivity.
Defined.

(** ** Failures inside an executed prediction *)

(** X19. When the completion that should phrase the answer fails or has
    no content, the prediction is still executed and recorded: the reply,
    and the response of the recorded turn, is the raw result of
    [predict_sales] behind a fixed introduction. *)
Theorem failed_rendering_falls_back_to_the_raw_result :
  forall (E : Env) (self : chatbot) (user_query : string)
         (d : list (string * pyval)) (date_str : string)
         (prediction_result : text) (st st1 : state),
    extract_parameters E user_query = Ok (PDict d) ->
    passes_gate d ->
    selects_prediction (field d "query_type" (PStr "prediction")) ->
    in_ints (field d "item_id" PNone) (available_items self) = true ->
    field d "date" PNone = PStr date_str ->
    strptime_ymd date_str <> None ->
    predict_sales E (field d "item_id" PNone) date_str
      (logged st (PredictSales (field d "item_id" PNone) date_str))
    = (Ok prediction_result, st1) ->
    (forall c, chat_render E user_query (PDict d) prediction_result
               <> Content c) ->
    let response := Lit "Here are your prediction results: " :: prediction_result in
    handle_query E self user_query st
    = (Ok (Text response),
       recorded st1 {| query := user_query;
                       parameters := PDict d;
                       result := prediction_result;
                       response := response |}).
Proof.
  intros E self user_query d date_str prediction_result st st1
    Hex Hgate Hsel Hin Hdate Hparse Hrun Hrender. cbv zeta.
  rewrite (handle_query_extracted _ _ _ _ _ Hex).
  rewrite (handle_prediction _ _ _ _ _ Hgate Hsel).
  unfold try_except.
  rewrite (prediction_branch_run _ _ _ _ _ _ Hin Hdate Hparse), Hrun.
  unfold generate_response. rewrite !get_field. cbn [rbind].
  destruct (chat_render E user_query (PDict d) prediction_result) as [e | | c];
    [reflexivity | reflexivity | now contradiction (Hrender c)].
Qed.

Lemma failed_rendering_witness :
  exists st1,
    handle_query (chatty may_first_request) standard_bot
      "sales of item 3 on 2024-05-01" fresh
    = (Ok (Text [Lit "Here are your prediction results: ";
                 Lit "Actual: 42, Predicted: 40"]),
       recorded st1
         {| query := "sales of item 3 on 2024-05-01";
            parameters := PDict may_first_request;
            result := [Lit "Actual: 42, Predicted: 40"];
            response := [Lit "Here are your prediction results: ";
                         Lit "Actual: 42, Predicted: 40"] |}).
Proof.
  eexists.
  refine (failed_rendering_falls_back_to_the_raw_result
            (chatty may_first_request) standard_bot
            "sales of item 3 on 2024-05-01" may_first_request "2024-05-01"
            [Lit "Actual: 42, Predicted: 40"] fresh _ _ _ _ _ _ _ _ _).
  - reflexivity.
  - exists (FFinite 1). repeat split; reflexivity.
  - repeat split; reflexivity.
  - reflexivity.
  - reflexivity.
  - discriminate.
  - vm_compute. reflexivity.
  - intros c. discriminate.
Defined.

(** X20. When the model fails on the matching row, or its prediction
    cannot be rounded to an integer (an infinity, a NaN), the query is
    answered with the processing-error text naming the exception.  The
    prediction and the model call are logged, and no turn is recorded. *)
Theorem failed_model_is_reported_not_recorded :
  forall (E : Env) (self : chatbot) (user_query : string)
         (d : list (string * pyval)) (date_str : string)
         (table : dataframe) (y m day : Z) (hit : row) (others : dataframe)
         (e : exn) (st : state),
    let item_id := field d "item_id" PNone in
    extract_parameters E user_query = Ok (PDict d) ->
    passes_gate d ->
    selects_prediction (field d "query_type" (PStr "prediction")) ->
    in_ints item_id (available_items self) = true ->
    scalar item_id ->
    field d "date" PNone = PStr date_str ->
    load_files E = Loaded table ->
    strptime_ymd date_str = Some (y, m, day) ->
    filter (is_target item_id y m day) table = hit :: others ->
    (model_predict E (features_for_prediction hit) = Raise e
     \/ exists x, model_predict E (features_for_prediction hit) = Ok x
                  /\ int_round x = Raise e) ->
    exists st',
      handle_query E self user_query st = (Ok (processing_error e), st')
      /\ conversation_history st' = conversation_history st
      /\ invoked st'
         = invoked st ++ [PredictSales item_id date_str;
                          ModelPredict (features_for_prediction hit)].
Proof.
  intros E self user_query d date_str table y m day hit others e st item_id
    Hex Hgate Hsel Hin Hscalar Hdate Hload Hparse Hrow Hfail.
  rewrite (handle_query_extracted _ _ _ _ _ Hex).
  rewrite (handle_prediction _ _ _ _ _ Hgate Hsel).
  unfold try_except.
  assert (Hp : strptime_ymd date_str <> None) by congruence.
  rewrite (prediction_branch_run _ _ _ _ _ _ Hin Hdate Hp).
  fold item_id.
  assert (Hrun : predict_sales E item_id date_str
                   (logged st (PredictSales item_id date_str))
                 = (Raise e,
                    logged (logged st (PredictSales item_id date_str))
                      (ModelPredict (features_for_prediction hit)))).
  { unfold predict_sales. rewrite Hload, Hparse.
    unfold bind at 1, lift at 1.
    rewrite (target_rows_scalar _ _ _ _ _ _ Hscalar), Hrow.
    unfold bind, log, lift, logged.
    destruct Hfail as [-> | (x & -> & ->)]; reflexivity. }
  rewrite Hrun. eexists. split; [reflexivity |].
  split; [reflexivity |]. cbn [logged invoked]. now rewrite <- app_assoc.
Qed.

Lemma failed_model_witness :
  exists st',
    handle_query (overflowing may_first_request) standard_bot
      "sales of item 3 on 2024-05-01" fresh
    = (Ok (processing_error OverflowError), st')
    /\ conversation_history st' = conversation_history fresh
    /\ invoked st'
       = invoked fresh
         ++ [PredictSales (PInt 3) "2024-05-01";
             ModelPredict (features_for_prediction (sale 3 2024 5 1 42))].
Proof.
  refine (failed_model_is_reported_not_recorded
            (overflowing may_first_request) standard_bot
            "sales of item 3 on 2024-05-01" may_first_request "2024-05-01"
            sample_sales 2024 5 1 (sale 3 2024 5 1 42) [] OverflowError fresh
            _ _ _ _ _ _ _ _ _ _).
  - reflexivity.
  - exists (FFinite 1). repeat split; reflexivity.
  - repeat split; reflexivity.
  - reflexivity.
  - exact I.
  - reflexivity.
  - reflexivity.
  - reflexivity.
  - reflexivity.
  - right. exists (FInf false). split; reflexivity.
Defined.
